(** * ethereumjs-vm: a shallow embedding of the execution core

    The development follows the layout of the JavaScript sources:

    - [Keccak]        the hash of [ethereumjs-util] ([utils.sha3]), an external
                      collaborator of the repository;
    - [Bloom]         [lib/bloom.js];
    - [Trie], [Cache] the state trie interface and [lib/cache.js];
    - [StateManager]  [lib/stateManager.js];
    - [RunCall]       [lib/runCall.js];
    - [OpFns]         [lib/opFns.js] (the opcode handlers and their helpers);
    - [RunCode]       the frame [lib/runCode.js] builds for a call;
    - [Journal]       sequences of calls on the state manager;
    - [RunBlock]      [lib/runBlock.js].

    The definitions come first, the properties after them.

    Conventions.  A [BN] and a JavaScript number are integers of [Z]; a
    [Buffer] is a list of bytes, each an integer in [0, 255]; a 20-byte
    address is the integer it encodes (the cache keys the accounts by the hex
    string of the address, which is injective on 20-byte buffers).  Callback
    chains are written in direct style: every callback of the modelled code is
    invoked synchronously by the in-memory collaborators.  The methods of
    [BN] are the operations of [Z]; the numbers handed to [toNumber] and to
    the methods with a number argument ([addn], [divn], ...) are taken to be
    in the range these accept. *)

From Stdlib Require Import ZArith List Lia Bool.
From stdpp Require Import base option list gmap fin_maps.

Import ListNotations.
Local Open Scope Z_scope.

(** ** Buffers and big numbers *)

Abbreviation BN := Z (only parsing).
Abbreviation Buffer := (list Z) (only parsing).

(** [!x] for a [BN] instance [x]: a [BN] is an object, and every JavaScript
    object is truthy, whatever number it holds. *)
Definition bn_not (x : BN) : bool := false.

(** [buf[i]] read as a number; [undefined] coerces to 0 under the bit
    operators that consume it. *)
Definition buf_get (b : Buffer) (i : Z) : Z :=
  if i <? 0 then 0 else default 0 (b !! Z.to_nat i).

(** [buf[i] = v] on a [Buffer] (a [Uint8Array]): the value is truncated to a
    byte, and a store outside the array is ignored. *)
Definition buf_set (b : Buffer) (i : Z) (v : Z) : Buffer :=
  if i <? 0 then b else <[Z.to_nat i := Z.land v 255]> b.

(** [buf.readUInt16BE(off)]. *)
Definition readUInt16BE (b : Buffer) (off : Z) : Z :=
  buf_get b off * 256 + buf_get b (off + 1).

(** [utils.zeros(n)]. *)
Definition zeros (n : nat) : Buffer := repeat 0 n.

(** [new BN(buffer)]: the big-endian number held by the bytes. *)
Definition bn_of_buffer (b : Buffer) : BN :=
  fold_left (fun acc x => acc * 256 + x) b 0.

(** [bn.toArrayLike(Buffer, 'be', n)]: [n] big-endian bytes. *)
Definition toArrayLike_be (n : nat) (v : BN) : Buffer :=
  map (fun i => (v / 256 ^ Z.of_nat (n - 1 - i)) mod 256) (seq 0 n).

(** [utils.unpad(buffer)]: strip the leading zero bytes. *)
Fixpoint unpad (b : Buffer) : Buffer :=
  match b with
  | [] => []
  | x :: rest => if x =? 0 then unpad rest else b
  end.

(** ** Keccak-256

    [utils.sha3] of [ethereumjs-util] is Keccak-256 (rate 1088 bits,
    multi-rate padding with the original domain byte [0x01]).  The
    permutation works on 25 lanes of 64 bits, lane [(x, y)] at position
    [x + 5 y]. *)
Module Keccak.

Definition mask64 : Z := 2 ^ 64 - 1.

Definition rotl64 (x n : Z) : Z :=
  Z.land (Z.lor (Z.shiftl x n) (Z.shiftr x (64 - n))) mask64.

Definition lane (A : list Z) (x y : Z) : Z :=
  nth (Z.to_nat (x mod 5 + 5 * (y mod 5))) A 0.

Definition build (f : Z -> Z -> Z) : list Z :=
  map (fun i => let i := Z.of_nat i in f (i mod 5) (i / 5)) (seq 0 25).

Definition rotation_offsets : list Z :=
  [ 0;  1; 62; 28; 27;
   36; 44;  6; 55; 20;
    3; 10; 43; 25; 39;
   41; 45; 15; 21;  8;
   18;  2; 61; 56; 14].

Definition round_constants : list Z :=
  [0x0000000000000001; 0x0000000000008082; 0x800000000000808A;
   0x8000000080008000; 0x000000000000808B; 0x0000000080000001;
   0x8000000080008081; 0x8000000000008009; 0x000000000000008A;
   0x0000000000000088; 0x0000000080008009; 0x000000008000000A;
   0x000000008000808B; 0x800000000000008B; 0x8000000000008089;
   0x8000000000008003; 0x8000000000008002; 0x8000000000000080;
   0x000000000000800A; 0x800000008000000A; 0x8000000080008081;
   0x8000000000008080; 0x0000000080000001; 0x8000000080008008].

Definition theta (A : list Z) : list Z :=
  let C := map (fun x => let x := Z.of_nat x in
                 Z.lxor (lane A x 0) (Z.lxor (lane A x 1) (Z.lxor (lane A x 2)
                   (Z.lxor (lane A x 3) (lane A x 4))))) (seq 0 5) in
  let c x := nth (Z.to_nat (x mod 5)) C 0 in
  build (fun x y => Z.lxor (lane A x y) (Z.lxor (c (x - 1)) (rotl64 (c (x + 1)) 1))).

Definition rho_pi (A : list Z) : list Z :=
  build (fun X Y =>
    let x := (X + 3 * Y) mod 5 in
    rotl64 (lane A x X) (lane rotation_offsets x X)).

Definition chi (B : list Z) : list Z :=
  build (fun x y =>
    Z.lxor (lane B x y)
           (Z.land (Z.lxor (lane B (x + 1) y) mask64) (lane B (x + 2) y))).

Definition iota (rc : Z) (A : list Z) : list Z :=
  match A with
  | [] => []
  | a :: rest => Z.lxor a rc :: rest
  end.

Definition keccak_f (A : list Z) : list Z :=
  fold_left (fun st rc => iota rc (chi (rho_pi (theta st)))) round_constants A.

Definition rate : nat := 136.

(** A little-endian lane from eight bytes, and back. *)
Definition lane_of_bytes (bs : list Z) : Z :=
  fold_right (fun b acc => b + 256 * acc) 0 bs.

Definition bytes_of_lane (l : Z) : list Z :=
  map (fun i => Z.shiftr l (8 * Z.of_nat i) mod 256) (seq 0 8).

Fixpoint chunks (fuel n : nat) (l : list Z) : list (list Z) :=
  match fuel with
  | O => []
  | S fuel' =>
      match l with
      | [] => []
      | _ => take n l :: chunks fuel' n (drop n l)
      end
  end.

Definition pad (msg : list Z) : list Z :=
  let q := (rate - length msg mod rate)%nat in
  if (q =? 1)%nat then msg ++ [0x81]
  else msg ++ [0x01] ++ repeat 0 (q - 2) ++ [0x80].

Definition absorb (st : list Z) (block : list Z) : list Z :=
  let lanes := map lane_of_bytes (chunks 25 8 (block ++ repeat 0 (200 - rate))) in
  keccak_f (zip_with Z.lxor st lanes).

Definition keccak256 (msg : list Z) : list Z :=
  let padded := pad msg in
  let st := fold_left absorb (chunks (length padded) rate padded) (repeat 0 25) in
  take 32 (concat (map bytes_of_lane st)).

End Keccak.

(** [utils.sha3]. *)
Definition sha3 (b : Buffer) : Buffer := Keccak.keccak256 b.

(** ** lib/bloom.js *)
Module Bloom.

Definition byteSize : Z := 256.

(** [new Bloom()]: the bit vector of a fresh filter. *)
Definition empty : Buffer := zeros 256.

(** One iteration of the loop of [add]. *)
Definition add_step (e bitvector : Buffer) (i : Z) : Buffer :=
  let mask := 2047 in
  let first2bytes := readUInt16BE e (i * 2) in
  let loc := Z.land mask first2bytes in
  let byteLoc := Z.shiftr loc 3 in
  let bitLoc := Z.shiftl 1 (loc mod 8) in
  let idx := byteSize - byteLoc - 1 in
  buf_set bitvector idx (Z.lor (buf_get bitvector idx) bitLoc).

Definition add (e : Buffer) (bitvector : Buffer) : Buffer :=
  let e := sha3 e in
  fold_left (add_step e) [0; 1; 2] bitvector.

(** The loop of [check]: [match_] holds [true] (here 1) at entry and the
    masked byte afterwards; the loop stops as soon as it is falsy. *)
Fixpoint check_loop (e bitvector : Buffer) (idxs : list Z) (match_ : Z) : Z :=
  match idxs with
  | [] => match_
  | i :: rest =>
      if match_ =? 0 then match_
      else
        let mask := 511 in
        let first2bytes := readUInt16BE e (i * 2) in
        let loc := Z.land mask first2bytes in
        let byteLoc := Z.shiftr loc 3 in
        let bitLoc := Z.shiftl 1 (loc mod 8) in
        check_loop e bitvector rest
          (Z.land (buf_get bitvector (byteSize - byteLoc - 1)) bitLoc)
  end.

Definition check (e : Buffer) (bitvector : Buffer) : bool :=
  let e := sha3 e in
  negb (check_loop e bitvector [0; 1; 2] 1 =? 0).

(** [or]: the loop runs over [0 .. byteSize] inclusive; the store at index
    [byteSize] falls outside the [Buffer] and is ignored. *)
Definition or (bitvector : Buffer) (other : option Buffer) : Buffer :=
  match other with
  | None => bitvector
  | Some o =>
      fold_left (fun bv i =>
                   let i := Z.of_nat i in
                   buf_set bv i (Z.lor (buf_get bv i) (buf_get o i)))
                (seq 0 257) bitvector
  end.

(** [multiCheck]: for each topic the value of [match && this.check(t)] is
    computed and dropped; [match] is returned as it was set at the start. *)
Definition multiCheck (topics : list Buffer) (bitvector : Buffer) : bool :=
  fold_left (fun match_ t => let _ := match_ && check t bitvector in match_)
            topics true.

End Bloom.

(** ** Protocol constants *)

(** Modelled from the spec: [ethereum-common] (the [fees.X.v] and [common.X.v]
    parameters) is an external package; the handlers read these entries of
    it.  The general theorems below hold for every table; [homestead]
    carries the values of the Homestead parameter file, the ones the spec
    quotes (Gsreset = 5000, Gsrefund = 15000, Gcallstipend = 2300, depth
    1024). *)
Record Fees := mkFees {
  memoryGas : Z;
  quadCoeffDiv : Z;
  sstoreSetGas : Z;
  sstoreResetGas : Z;
  sstoreRefundGas : Z;
  createDataGas : Z;
  callStipend : Z;
  callValueTransferGas : Z;
  stackLimit : Z
}.

Definition homestead : Fees :=
  {| memoryGas := 3; quadCoeffDiv := 512;
     sstoreSetGas := 20000; sstoreResetGas := 5000; sstoreRefundGas := 15000;
     createDataGas := 200; callStipend := 2300; callValueTransferGas := 9000;
     stackLimit := 1024 |}.

(** ** Accounts *)

(** The content of a storage trie: a finite map from the 32-byte key to
    the RLP-decoded value. *)
Abbreviation Storage := (gmap Z (list Z)) (only parsing).

(** Modelled from the spec: [ethereumjs-account] is an external package.  An
    account is the tuple (nonce, balance, stateRoot, codeHash) of section 3
    of the spec, plus the [exists] attribute the cache attaches to the
    objects it hands out.  A storage root commits to the content of the
    storage trie below it, so the model identifies [stateRoot] with that
    content. *)
Record Account := mkAccount {
  nonce : Z;
  balance : Z;
  stateRoot : Storage;
  codeHash : Buffer;
  exists_ : bool
}.

Definition SHA3_NULL : Buffer := Eval vm_compute in sha3 [].

(** [new Account()]. *)
Definition new_Account : Account :=
  {| nonce := 0; balance := 0; stateRoot := ∅; codeHash := SHA3_NULL;
     exists_ := false |}.

Definition set_exists (a : Account) (e : bool) : Account :=
  {| nonce := nonce a; balance := balance a; stateRoot := stateRoot a;
     codeHash := codeHash a; exists_ := e |}.

Definition set_balance (a : Account) (b : Z) : Account :=
  {| nonce := nonce a; balance := b; stateRoot := stateRoot a;
     codeHash := codeHash a; exists_ := exists_ a |}.

Definition set_nonce (a : Account) (n : Z) : Account :=
  {| nonce := n; balance := balance a; stateRoot := stateRoot a;
     codeHash := codeHash a; exists_ := exists_ a |}.

Definition set_stateRoot (a : Account) (r : Storage) : Account :=
  {| nonce := nonce a; balance := balance a; stateRoot := r;
     codeHash := codeHash a; exists_ := exists_ a |}.

Definition set_codeHash (a : Account) (h : Buffer) : Account :=
  {| nonce := nonce a; balance := balance a; stateRoot := stateRoot a;
     codeHash := h; exists_ := exists_ a |}.

(** [account.isContract()]. *)
Definition isContract (a : Account) : bool :=
  negb (bool_decide (codeHash a = SHA3_NULL)).

(** The serialized form of an account: its four fields. *)
Record RawAccount := mkRaw {
  r_nonce : Z;
  r_balance : Z;
  r_stateRoot : Storage;
  r_codeHash : Buffer
}.

(** [account.serialize()]. *)
Definition serialize (a : Account) : RawAccount :=
  {| r_nonce := nonce a; r_balance := balance a;
     r_stateRoot := stateRoot a; r_codeHash := codeHash a |}.

(** [new Account(raw)]: the fields of [raw], the defaults when it is null. *)
Definition Account_of_raw (raw : option RawAccount) : Account :=
  match raw with
  | Some r => {| nonce := r_nonce r; balance := r_balance r;
                 stateRoot := r_stateRoot r; codeHash := r_codeHash r;
                 exists_ := false |}
  | None => new_Account
  end.

(** ** The state trie *)

(** Modelled from the spec: [merkle-patricia-tree] is an external package;
    section 4.6 describes it as an opaque key-value store with [put], [get],
    [del] and [checkpoint] / [commit] / [revert].  [checkpoint] pushes the
    current content, [revert] restores the last pushed content (and does
    nothing without one), [commit] drops it.  The raw entries ([putRaw] /
    [getRaw], used for contract code under its hash) are content-addressed
    and kept beside the keyed content. *)
Module Trie.

Record t := mk {
  content : gmap Z RawAccount;
  checkpoints : list (gmap Z RawAccount);
  raw : gmap (list Z) Buffer
}.

Definition empty : t := {| content := ∅; checkpoints := []; raw := ∅ |}.

Definition get (tr : t) (key : Z) : option RawAccount := content tr !! key.

Definition put (tr : t) (key : Z) (v : RawAccount) : t :=
  {| content := <[key := v]> (content tr); checkpoints := checkpoints tr;
     raw := raw tr |}.

Definition del (tr : t) (key : Z) : t :=
  {| content := delete key (content tr); checkpoints := checkpoints tr;
     raw := raw tr |}.

Definition putRaw (tr : t) (key : list Z) (v : Buffer) : t :=
  {| content := content tr; checkpoints := checkpoints tr;
     raw := <[key := v]> (raw tr) |}.

Definition getRaw (tr : t) (key : list Z) : option Buffer := raw tr !! key.

Definition checkpoint (tr : t) : t :=
  {| content := content tr; checkpoints := content tr :: checkpoints tr;
     raw := raw tr |}.

Definition commit (tr : t) : t :=
  {| content := content tr; checkpoints := tail (checkpoints tr);
     raw := raw tr |}.

Definition revert (tr : t) : t :=
  match checkpoints tr with
  | [] => tr
  | c :: rest => {| content := c; checkpoints := rest; raw := raw tr |}
  end.

End Trie.

(** [account.setCode(trie, code)]: the code goes in the raw store under its
    hash, which becomes the account's [codeHash]. *)
Definition setCode (a : Account) (tr : Trie.t) (code : Buffer) : Account * Trie.t :=
  let h := sha3 code in
  (set_codeHash a h, Trie.putRaw tr h code).

(** [account.getCode(trie)]: empty for a non-contract, else the raw entry
    under [codeHash]. *)
Definition getCode (a : Account) (tr : Trie.t) : Buffer :=
  if isContract a then default [] (Trie.getRaw tr (codeHash a)) else [].

(** ** lib/cache.js

    [_cache] is a persistent (functional) red-black tree, so pushing it on
    [_checkpoints] snapshots it: a finite map.  [_trie] is the very object
    the StateManager holds as [trie]; the model keeps it there and passes it
    to the methods that read or write it. *)
Module Cache.

Record entry := mkEntry {
  val : Account;
  modified : bool;
  exists_e : bool
}.

Record t := mk {
  _cache : gmap Z entry;
  _checkpoints : list (gmap Z entry);
  _deletes : list Z
}.

(** [new Cache(trie)]. *)
Definition empty : t := {| _cache := ∅; _checkpoints := []; _deletes := [] |}.

Definition _update (c : t) (key : Z) (v : Account) (modified exists' : bool) : t :=
  match _cache c !! key with
  | Some _ =>
      {| _cache := <[key := {| val := v; modified := modified; exists_e := true |}]> (_cache c);
         _checkpoints := _checkpoints c; _deletes := _deletes c |}
  | None =>
      {| _cache := <[key := {| val := v; modified := modified; exists_e := exists' |}]> (_cache c);
         _checkpoints := _checkpoints c; _deletes := _deletes c |}
  end.

Definition put (c : t) (key : Z) (v : Account) (fromTrie : bool) : t :=
  let modified := negb fromTrie in
  _update c key v modified true.

(** [lookup]: the queried account, or [undefined]. *)
Definition lookup (c : t) (key : Z) : option Account :=
  match _cache c !! key with
  | Some e => Some (set_exists (val e) (exists_e e))
  | None => None
  end.

(** [get]: the queried account, or an empty account that does not exist. *)
Definition get (c : t) (key : Z) : Account :=
  match lookup c key with
  | Some account => account
  | None => set_exists new_Account false
  end.

Definition _lookupAccount (tr : Trie.t) (address : Z) : Account * bool :=
  let raw := Trie.get tr address in
  let exists' := bool_decide (is_Some raw) in
  (set_exists (Account_of_raw raw) exists', exists').

Definition getOrLoad (c : t) (tr : Trie.t) (key : Z) : Account * t :=
  match lookup c key with
  | Some account => (account, c)
  | None =>
      let '(account, exists') := _lookupAccount tr key in
      (account, _update c key account false exists')
  end.

Definition warm (c : t) (tr : Trie.t) (addresses : list Z) : t :=
  fold_left (fun c address =>
               let '(account, _) := _lookupAccount tr address in
               _update c address account false (exists_ account))
            addresses c.

(** [flush]: every modified entry is serialized into the trie and marked
    clean, then the journaled deletions are applied and the journal is
    emptied.  The loop reads [it.value.modified] before it tests whether
    the iterator is valid, so an empty tree raises a [TypeError] ([None]).
    The entries are marked in place; the model marks those of the current
    tree, which is all there is when no checkpoint is open. *)
Definition flush (c : t) (tr : Trie.t) : option (t * Trie.t) :=
  if bool_decide (_cache c = ∅) then None
  else
    let tr1 := fold_left (fun tr '(key, e) =>
                            if modified e then Trie.put tr key (serialize (val e))
                            else tr)
                         (map_to_list (_cache c)) tr in
    let tr2 := fold_left Trie.del (_deletes c) tr1 in
    Some ({| _cache := (fun e => {| val := val e; modified := false;
                                    exists_e := exists_e e |}) <$> _cache c;
             _checkpoints := _checkpoints c; _deletes := [] |}, tr2).

Definition checkpoint (c : t) : t :=
  {| _cache := _cache c; _checkpoints := _cache c :: _checkpoints c;
     _deletes := _deletes c |}.

(** [revert]: [this._cache = this._checkpoints.pop(this._cache)].  Without a
    checkpoint [pop] yields [undefined] and the cache is left without a
    tree ([None]). *)
Definition revert (c : t) : option t :=
  match _checkpoints c with
  | [] => None
  | snapshot :: rest =>
      Some {| _cache := snapshot; _checkpoints := rest; _deletes := _deletes c |}
  end.

Definition commit (c : t) : t :=
  {| _cache := _cache c; _checkpoints := tail (_checkpoints c);
     _deletes := _deletes c |}.

Definition clear (c : t) : t :=
  {| _cache := ∅; _checkpoints := _checkpoints c; _deletes := [] |}.

Definition del (c : t) (key : Z) : t :=
  {| _cache := delete key (_cache c); _checkpoints := _checkpoints c;
     _deletes := _deletes c ++ [key] |}.

End Cache.

(** ** lib/stateManager.js *)
Module StateManager.

Record t := mk {
  trie : Trie.t;
  _storageTries : gmap Z Storage;
  cache : Cache.t
}.

Definition with_cache (sm : t) (c : Cache.t) : t :=
  {| trie := trie sm; _storageTries := _storageTries sm; cache := c |}.

Definition with_trie (sm : t) (tr : Trie.t) : t :=
  {| trie := tr; _storageTries := _storageTries sm; cache := cache sm |}.

(** [new StateManager({trie})]. *)
Definition create (tr : Trie.t) : t :=
  {| trie := tr; _storageTries := ∅; cache := Cache.empty |}.

Definition getAccount (sm : t) (address : Z) : Account * t :=
  let '(account, c) := Cache.getOrLoad (cache sm) (trie sm) address in
  (account, with_cache sm c).

Definition exists' (sm : t) (address : Z) : bool * t :=
  let '(account, sm) := getAccount sm address in
  (exists_ account, sm).

Definition _putAccount (sm : t) (address : Z) (account : Account) : t :=
  with_cache sm (Cache.put (cache sm) address account false).

Definition getAccountBalance (sm : t) (address : Z) : Z * t :=
  let '(account, sm) := getAccount sm address in
  (balance account, sm).

Definition putAccountBalance (sm : t) (address : Z) (b : Z) : t :=
  let '(account, sm) := getAccount sm address in
  _putAccount sm address (set_balance account b).

Definition putContractCode (sm : t) (address : Z) (value : Buffer) : t :=
  let '(account, sm) := getAccount sm address in
  let '(account, tr) := setCode account (trie sm) value in
  _putAccount (with_trie sm tr) address account.

Definition getContractCode (sm : t) (address : Z) : Buffer * t :=
  let '(account, sm) := getAccount sm address in
  (getCode account (trie sm), sm).

(** The storage trie rooted at the account's [stateRoot]. *)
Definition _lookupStorageTrie (sm : t) (address : Z) : Storage * t :=
  let '(account, sm) := getAccount sm address in
  (stateRoot account, sm).

Definition _getStorageTrie (sm : t) (address : Z) : Storage * t :=
  match _storageTries sm !! address with
  | Some storageTrie => (storageTrie, sm)
  | None => _lookupStorageTrie sm address
  end.

(** The decoded value under [key]; the empty buffer when there is none. *)
Definition getContractStorage (sm : t) (address key : Z) : Buffer * t :=
  let '(storageTrie, sm) := _getStorageTrie sm address in
  (default [] (storageTrie !! key), sm).

Definition putContractStorage (sm : t) (address key : Z) (value : Buffer) : t :=
  let '(storageTrie, sm) := _getStorageTrie sm address in
  let storageTrie :=
    if negb (length value =? 0)%nat then <[key := value]> storageTrie
    else delete key storageTrie in
  let sm := {| trie := trie sm;
               _storageTries := <[address := storageTrie]> (_storageTries sm);
               cache := cache sm |} in
  let contract := Cache.get (cache sm) address in
  let contract := set_stateRoot contract storageTrie in
  _putAccount sm address contract.

Definition revertContracts (sm : t) : t :=
  {| trie := trie sm; _storageTries := ∅; cache := cache sm |}.

Definition checkpoint (sm : t) : t :=
  {| trie := Trie.checkpoint (trie sm); _storageTries := _storageTries sm;
     cache := Cache.checkpoint (cache sm) |}.

Definition commit (sm : t) : t :=
  {| trie := Trie.commit (trie sm); _storageTries := _storageTries sm;
     cache := Cache.commit (cache sm) |}.

Definition revert (sm : t) : option t :=
  match Cache.revert (cache sm) with
  | Some c =>
      Some {| trie := Trie.revert (trie sm); _storageTries := _storageTries sm;
              cache := c |}
  | None => None
  end.

(** [cache.flush], as run by the block processor on the manager's trie. *)
Definition cacheFlush (sm : t) : option t :=
  match Cache.flush (cache sm) (trie sm) with
  | Some (c, tr) =>
      Some {| trie := tr; _storageTries := _storageTries sm; cache := c |}
  | None => None
  end.

(** [generateGenesis]: an account with the given balance is written into
    the trie for each address of [initState] (the keys of an object, in
    order, with their values). *)
Definition generateGenesis (sm : t) (initState : list (Z * Z)) : t :=
  with_trie sm
    (fold_left (fun tr '(address, b) =>
                  Trie.put tr address (serialize (set_balance new_Account b)))
               initState (trie sm)).

End StateManager.

(** ** index.js *)
Module VM.

(** [new VM(opts)], as far as the state goes: the state manager on
    [opts.state] (a new trie when there is none), after an empty account is
    put in the trie at each of the addresses 1 to 4 when
    [opts.activatePrecompiles] is set. *)
Definition create (state : option Trie.t) (activatePrecompiles : bool) : StateManager.t :=
  let sm := StateManager.create (default Trie.empty state) in
  if activatePrecompiles then
    StateManager.with_trie sm
      (fold_left (fun tr i => Trie.put tr i (serialize new_Account)) [1; 2; 3; 4]
                 (StateManager.trie sm))
  else sm.

End VM.

(** ** Errors, blocks, call options and results *)

(** [constants.ERROR], plus [JS_EXCEPTION] for an exception of the
    JavaScript runtime itself (a [TypeError], a failed assertion). *)
Inductive Error :=
| OUT_OF_GAS
| STACK_UNDERFLOW
| STACK_OVERFLOW
| INVALID_JUMP
| INVALID_OPCODE
| INTERNAL_ERROR
| JS_EXCEPTION.

(** A log entry: address, topics, data. *)
Definition Log : Type := Z * list Buffer * Buffer.

Record Tx := mkTx {
  tx_gasLimit : Z;
  tx_sender : Z;
  tx_to : option Z;
  tx_value : Z;
  tx_data : Buffer
}.

(** A block: the fields of its header that the code reads, its
    transactions, and the coinbase of each of its uncle headers. *)
Record Block := mkBlock {
  header_gasLimit : Z;
  header_number : Z;
  header_coinbase : Z;
  transactions : list Tx;
  uncleHeaders : list Z
}.

(** The code a frame runs: bytecode, or one of the native functions of
    [vm._precompiled]. *)
Inductive Code :=
| Bytecode (b : Buffer)
| Precompiled (address : Z).

(** The options object handed to [runCall]; an absent property is [None]. *)
Record callOptions := mkCallOptions {
  o_gasLimit : option BN;
  o_value : BN;
  o_to : option Z;
  o_data : option Buffer;
  o_caller : option Z;
  o_code : option Code;
  o_compiled : bool;
  o_delegatecall : bool;
  o_origin : Z;
  o_gasPrice : Z;
  o_block : Block;
  o_depth : Z
}.

(** The options object [runCall] hands to the code runner. *)
Record runCodeOpts := mkRunCodeOpts {
  c_code : Code;
  c_data : option Buffer;
  c_gasLimit : BN;
  c_gasPrice : Z;
  c_address : Z;
  c_origin : Z;
  c_caller : Z;
  c_value : BN;
  c_block : Block;
  c_depth : Z
}.

(** The results object of the code runner. *)
Record vmResults := mkVmResults {
  v_return : Buffer;
  v_gasUsed : BN;
  v_exception : Z;
  v_exceptionError : option Error;
  v_logs : list Log;
  v_gasRefund : option BN
}.

(** [results.vm] as [runCall] reports it: the bare object [{exception: 1}]
    when there was no code to run, else the runner's results. *)
Inductive vmOut :=
| NoCode
| Ran (r : vmResults).

Record callResults := mkCallResults {
  gasUsed : BN;
  createdAddress : option Z;
  vm : vmOut
}.

(** [ethUtil.isPrecompiled]: the addresses 1 to 4. *)
Definition isPrecompiled (address : Z) : bool :=
  (0 <? address) && (address <? 5).

(** ** lib/runCall.js *)
Module RunCall.

Section WithRunner.

Variable fees : Fees.

(** [ethUtil.generateAddress(caller, nonce)], an external function. *)
Variable generateAddress : Z -> Z -> Z.

(** [self.runCode] and [self.runJIT]: [lib/runCode.js] and [lib/runJit.js]
    are not part of the sources at hand, so the runner is a parameter.  It
    runs the frame described by the options against the state and reports
    [(err, results)]; the flag tells the two runners apart ([true] for
    [runJIT]). *)
Variable codeRunner :
  bool -> runCodeOpts -> StateManager.t -> option Error * vmResults * StateManager.t.

(** The variables of the closure of one [runCall]. *)
Record ctx := mkCtx {
  toAccount : Account;
  toAddress : option Z;
  x_createdAddress : option Z;
  x_code : option Code;
  txData : option Buffer;
  isCompiled : bool
}.

(** [subTxValue]: the balance less the value goes to the setter of
    [account.balance], which stores a Buffer.  The model keeps the number,
    which is what the Buffer holds whenever the balance covers the value
    (the case [makeCall] lets through); a Buffer holds no negative number,
    and the theorems on transfers assume that the balance covers the
    value. *)
Definition subTxValue (delegatecall : bool) (caller : Z) (account : Account)
    (txValue : BN) (sm : StateManager.t) : Account * StateManager.t :=
  if delegatecall then (account, sm)
  else
    let account := set_balance account (balance account - txValue) in
    (account, StateManager.with_cache sm (Cache.put (StateManager.cache sm) caller account false)).

Definition loadToAccount (caller : Z) (account : Account) (c : ctx)
    (sm : StateManager.t) : ctx * StateManager.t :=
  match toAddress c with
  | None =>
      let newNonce := nonce account - 1 in
      let created := generateAddress caller newNonce in
      let '(acc, sm) := StateManager.getAccount sm created in
      ({| toAccount := acc; toAddress := Some created;
          x_createdAddress := Some created;
          x_code := option_map Bytecode (txData c); txData := None;
          isCompiled := isCompiled c |}, sm)
  | Some to =>
      ({| toAccount := Cache.get (StateManager.cache sm) to; toAddress := Some to;
          x_createdAddress := x_createdAddress c; x_code := x_code c;
          txData := txData c; isCompiled := isCompiled c |}, sm)
  end.

Definition addTxValue (delegatecall : bool) (txValue : BN) (c : ctx)
    (sm : StateManager.t) : ctx * StateManager.t :=
  if delegatecall then (c, sm)
  else
    match toAddress c with
    | Some to =>
        let acc := set_balance (toAccount c) (balance (toAccount c) + txValue) in
        ({| toAccount := acc; toAddress := toAddress c;
            x_createdAddress := x_createdAddress c; x_code := x_code c;
            txData := txData c; isCompiled := isCompiled c |},
         StateManager.with_cache sm (Cache.put (StateManager.cache sm) to acc false))
    | None => (c, sm)
    end.

Definition loadCode (delegatecall : bool) (txValue : BN) (c : ctx)
    (sm : StateManager.t) : ctx * StateManager.t :=
  let '(c, sm) := addTxValue delegatecall txValue c sm in
  match toAddress c with
  | None => (c, sm)
  | Some to =>
      if bool_decide (is_Some (x_code c))
         || negb (isContract (toAccount c) || isPrecompiled to)
      then (c, sm)
      else if isPrecompiled to then
        ({| toAccount := toAccount c; toAddress := toAddress c;
            x_createdAddress := x_createdAddress c;
            x_code := Some (Precompiled to); txData := txData c;
            isCompiled := true |}, sm)
      else
        let '(code, sm) := StateManager.getContractCode sm to in
        ({| toAccount := toAccount c; toAddress := toAddress c;
            x_createdAddress := x_createdAddress c;
            x_code := Some (Bytecode code); txData := txData c;
            isCompiled := false |}, sm)
  end.

(** Everything [runCall] does before it hands over to the code runner:
    checkpoint, debit, destination, credit, code. *)
Definition setup (opts : callOptions) (caller : Z) (sm : StateManager.t)
    : ctx * StateManager.t :=
  let txValue := o_value opts in
  let account := Cache.get (StateManager.cache sm) caller in
  let delegatecall := o_delegatecall opts in
  let sm := StateManager.checkpoint sm in
  let '(account, sm) := subTxValue delegatecall caller account txValue sm in
  let c0 := {| toAccount := new_Account; toAddress := o_to opts;
               x_createdAddress := None; x_code := o_code opts;
               txData := o_data opts; isCompiled := o_compiled opts |} in
  let '(c, sm) := loadToAccount caller account c0 sm in
  loadCode delegatecall txValue c sm.

(** [new BN(opts.gasLimit || 0xffffff)]. *)
Definition gasLimit_of (opts : callOptions) : BN :=
  default 0xffffff (o_gasLimit opts).

Definition runCodeOpts_of (opts : callOptions) (caller : Z) (c : ctx)
    (to : Z) (code : Code) : runCodeOpts :=
  {| c_code := code; c_data := txData c; c_gasLimit := gasLimit_of opts;
     c_gasPrice := o_gasPrice opts; c_address := to;
     c_origin := o_origin opts; c_caller := caller;
     c_value := o_value opts; c_block := o_block opts; c_depth := o_depth opts |}.

(** [parseRunResult]: the results as amended, the error as amended, and the
    [gasUsed] of the call. *)
Definition parseRunResult (gasLimit : BN) (created : option Z)
    (err : option Error) (results : vmResults) : option Error * vmResults :=
  match created with
  | Some _ =>
      let returnFee := Z.of_nat (length (v_return results)) * createDataGas fees in
      let totalGas := v_gasUsed results + returnFee in
      if (totalGas <=? gasLimit) && (Z.of_nat (length (v_return results)) <=? 24576)
      then (err, {| v_return := v_return results; v_gasUsed := totalGas;
                    v_exception := v_exception results;
                    v_exceptionError := v_exceptionError results;
                    v_logs := v_logs results; v_gasRefund := v_gasRefund results |})
      else (Some OUT_OF_GAS,
            {| v_return := []; v_gasUsed := gasLimit; v_exception := 0;
               v_exceptionError := Some OUT_OF_GAS;
               v_logs := v_logs results; v_gasRefund := v_gasRefund results |})
  | None => (err, results)
  end.

Definition clear_logs (r : vmResults) : vmResults :=
  {| v_return := v_return r; v_gasUsed := v_gasUsed r;
     v_exception := v_exception r; v_exceptionError := v_exceptionError r;
     v_logs := []; v_gasRefund := v_gasRefund r |}.

(** [saveCode]: store the code of a new contract. *)
Definition saveCode (created : option Z) (ret : Buffer) (sm : StateManager.t)
    : StateManager.t :=
  match created with
  | Some addr =>
      if negb (length ret =? 0)%nat then StateManager.putContractCode sm addr ret
      else sm
  | None => sm
  end.

(** What [runCall] does with the answer [(err, results)] of the code
    runner: [parseRunResult], then [saveCode] and [parseCallResult]. *)
Definition integrate (opts : callOptions) (c : ctx)
    (answer : option Error * vmResults * StateManager.t)
    : option (callResults * StateManager.t) :=
  let '(err, results, sm) := answer in
  let '(err, results) :=
    parseRunResult (gasLimit_of opts) (x_createdAddress c) err results in
  let finish results sm :=
    let sm := saveCode (x_createdAddress c) (v_return results) sm in
    Some ({| gasUsed := v_gasUsed results;
             createdAddress := x_createdAddress c; vm := Ran results |}, sm) in
  match err with
  | Some _ =>
      match StateManager.revert sm with
      | Some sm => finish (clear_logs results) sm
      | None => None
      end
  | None => finish results (StateManager.commit sm)
  end.

(** The part of [runCall] after the setup: [runCode], [saveCode],
    [parseCallResult]. *)
Definition run (opts : callOptions) (caller : Z) (c : ctx) (sm : StateManager.t)
    : option (callResults * StateManager.t) :=
  match x_code c, toAddress c with
  | None, _ =>
      let sm := StateManager.commit sm in
      match x_createdAddress c with
      | Some _ => None
      | None => Some ({| gasUsed := 0; createdAddress := None; vm := NoCode |}, sm)
      end
  | Some _, None => None
  | Some code, Some to =>
      integrate opts c
        (codeRunner (isCompiled c) (runCodeOpts_of opts caller c to code) sm)
  end.

(** [runCall].  [None] stands for a state that can no longer be used: an
    uncaught exception of the runtime (no caller, no return value to save),
    or a cache that lost its tree in [revert]. *)
Definition runCall (opts : callOptions) (sm : StateManager.t)
    : option (callResults * StateManager.t) :=
  match o_caller opts with
  | None => None
  | Some caller =>
      let '(c, sm) := setup opts caller sm in
      run opts caller c sm
  end.

End WithRunner.

End RunCall.

(** ** lib/opFns.js *)
Module OpFns.

(** The frame of one call.  [stack] has its top at the end, as the array
    it models; [stateManager] is the state the frame holds a handle on. *)
Record runState := mkRunState {
  address : Z;
  caller : Z;
  origin : Z;
  callValue : BN;
  callData : Buffer;
  code : Buffer;
  gasLeft : BN;
  gasRefund : BN;
  gasPrice : Z;
  stack : list BN;
  memory : list Z;
  memoryWordCount : BN;
  highestMemCost : BN;
  depth : Z;
  contract : Account;
  stateManager : StateManager.t;
  logs : list Log;
  block : Block
}.

Definition set_gasLeft (rs : runState) (x : BN) : runState :=
  {| address := address rs; caller := caller rs; origin := origin rs;
     callValue := callValue rs; callData := callData rs; code := code rs;
     gasLeft := x; gasRefund := gasRefund rs; gasPrice := gasPrice rs;
     stack := stack rs; memory := memory rs;
     memoryWordCount := memoryWordCount rs;
     highestMemCost := highestMemCost rs; depth := depth rs;
     contract := contract rs; stateManager := stateManager rs;
     logs := logs rs; block := block rs |}.

Definition set_gasRefund (rs : runState) (x : BN) : runState :=
  {| address := address rs; caller := caller rs; origin := origin rs;
     callValue := callValue rs; callData := callData rs; code := code rs;
     gasLeft := gasLeft rs; gasRefund := x; gasPrice := gasPrice rs;
     stack := stack rs; memory := memory rs;
     memoryWordCount := memoryWordCount rs;
     highestMemCost := highestMemCost rs; depth := depth rs;
     contract := contract rs; stateManager := stateManager rs;
     logs := logs rs; block := block rs |}.

Definition set_stack (rs : runState) (x : list BN) : runState :=
  {| address := address rs; caller := caller rs; origin := origin rs;
     callValue := callValue rs; callData := callData rs; code := code rs;
     gasLeft := gasLeft rs; gasRefund := gasRefund rs;
     gasPrice := gasPrice rs; stack := x; memory := memory rs;
     memoryWordCount := memoryWordCount rs;
     highestMemCost := highestMemCost rs; depth := depth rs;
     contract := contract rs; stateManager := stateManager rs;
     logs := logs rs; block := block rs |}.

Definition set_memory (rs : runState) (x : list Z) : runState :=
  {| address := address rs; caller := caller rs; origin := origin rs;
     callValue := callValue rs; callData := callData rs; code := code rs;
     gasLeft := gasLeft rs; gasRefund := gasRefund rs;
     gasPrice := gasPrice rs; stack := stack rs; memory := x;
     memoryWordCount := memoryWordCount rs;
     highestMemCost := highestMemCost rs; depth := depth rs;
     contract := contract rs; stateManager := stateManager rs;
     logs := logs rs; block := block rs |}.

Definition set_memoryWordCount (rs : runState) (x : BN) : runState :=
  {| address := address rs; caller := caller rs; origin := origin rs;
     callValue := callValue rs; callData := callData rs; code := code rs;
     gasLeft := gasLeft rs; gasRefund := gasRefund rs;
     gasPrice := gasPrice rs; stack := stack rs; memory := memory rs;
     memoryWordCount := x; highestMemCost := highestMemCost rs;
     depth := depth rs; contract := contract rs;
     stateManager := stateManager rs; logs := logs rs; block := block rs |}.

Definition set_highestMemCost (rs : runState) (x : BN) : runState :=
  {| address := address rs; caller := caller rs; origin := origin rs;
     callValue := callValue rs; callData := callData rs; code := code rs;
     gasLeft := gasLeft rs; gasRefund := gasRefund rs;
     gasPrice := gasPrice rs; stack := stack rs; memory := memory rs;
     memoryWordCount := memoryWordCount rs; highestMemCost := x;
     depth := depth rs; contract := contract rs;
     stateManager := stateManager rs; logs := logs rs; block := block rs |}.

Definition set_contract (rs : runState) (x : Account) : runState :=
  {| address := address rs; caller := caller rs; origin := origin rs;
     callValue := callValue rs; callData := callData rs; code := code rs;
     gasLeft := gasLeft rs; gasRefund := gasRefund rs;
     gasPrice := gasPrice rs; stack := stack rs; memory := memory rs;
     memoryWordCount := memoryWordCount rs;
     highestMemCost := highestMemCost rs; depth := depth rs; contract := x;
     stateManager := stateManager rs; logs := logs rs; block := block rs |}.

Definition set_stateManager (rs : runState) (x : StateManager.t) : runState :=
  {| address := address rs; caller := caller rs; origin := origin rs;
     callValue := callValue rs; callData := callData rs; code := code rs;
     gasLeft := gasLeft rs; gasRefund := gasRefund rs;
     gasPrice := gasPrice rs; stack := stack rs; memory := memory rs;
     memoryWordCount := memoryWordCount rs;
     highestMemCost := highestMemCost rs; depth := depth rs;
     contract := contract rs; stateManager := x; logs := logs rs;
     block := block rs |}.

Definition set_logs (rs : runState) (x : list Log) : runState :=
  {| address := address rs; caller := caller rs; origin := origin rs;
     callValue := callValue rs; callData := callData rs; code := code rs;
     gasLeft := gasLeft rs; gasRefund := gasRefund rs;
     gasPrice := gasPrice rs; stack := stack rs; memory := memory rs;
     memoryWordCount := memoryWordCount rs;
     highestMemCost := highestMemCost rs; depth := depth rs;
     contract := contract rs; stateManager := stateManager rs; logs := x;
     block := block rs |}.

(** The result of a handler or helper: a value and the frame, or an error
    thrown with [trap] together with the frame as it is at the throw (the
    frame is mutated in place, so what was done before the throw stays). *)
Inductive outcome (A : Type) :=
| Ok (a : A) (rs : runState)
| Throw (e : Error) (rs : runState).
Arguments Ok {A} a rs.
Arguments Throw {A} e rs.

Definition frame_of {A} (o : outcome A) : runState :=
  match o with
  | Ok _ rs => rs
  | Throw _ rs => rs
  end.

Definition bind {A B} (o : outcome A) (k : A -> runState -> outcome B) : outcome B :=
  match o with
  | Ok a rs => k a rs
  | Throw e rs => Throw e rs
  end.

(** A number of the options of a call: a JavaScript number or a [BN]. *)
Inductive jsnum :=
| Num (n : Z)
| Big (b : BN).

Definition truthy (v : jsnum) : bool :=
  match v with
  | Num n => negb (n =? 0)
  | Big _ => true
  end.

Record localOpts := mkLocalOpts {
  inOffset : BN;
  inLength : BN;
  outOffset : jsnum;
  outLength : jsnum
}.

(** The options a handler prepares before [makeCall] completes them. *)
Record callArgs := mkCallArgs {
  a_gasLimit : option BN;
  a_value : BN;
  a_to : option Z;
  a_data : option Buffer;
  a_caller : option Z;
  a_code : option Code;
  a_compiled : bool;
  a_delegatecall : bool
}.

(** *** Words

    The handlers below take and return the words of the stack: numbers in
    [0, 2^256).  [div] and [mod] of [BN] truncate towards zero. *)
Definition TWO_POW256 : Z := 2 ^ 256.

(** [bn.notn(256)], on a number below 2^256: every one of the 256 bits is
    inverted. *)
Definition notn256 (x : BN) : BN := Z.lxor x (Z.ones 256).

(** [bn.toTwos(256)]: a negative number becomes [abs().inotn(256).iaddn(1)]. *)
Definition toTwos (x : BN) : BN :=
  if x <? 0 then notn256 (Z.abs x) + 1 else x.

(** [bn.fromTwos(256)]: with bit 255 set, [notn(256).iaddn(1).ineg()]. *)
Definition fromTwos (x : BN) : BN :=
  if Z.testbit x 255 then - (notn256 x + 1) else x.

Definition ADD (a b : BN) : BN := Z.rem (a + b) TWO_POW256.

Definition MUL (a b : BN) : BN := Z.rem (a * b) TWO_POW256.

Definition SUB (a b : BN) : BN := toTwos (a - b).

Definition DIV (a b : BN) : BN :=
  if b =? 0 then b else Z.quot a b.

Definition SDIV (a b : BN) : BN :=
  if b =? 0 then b
  else
    let a := fromTwos a in
    let b := fromTwos b in
    toTwos (Z.quot a b).

Definition MOD (a b : BN) : BN :=
  if b =? 0 then b else Z.rem a b.

Definition SMOD (a b : BN) : BN :=
  if b =? 0 then b
  else
    let a := fromTwos a in
    let b := fromTwos b in
    let r := Z.rem (Z.abs a) (Z.abs b) in
    let r := if a <? 0 then - r else r in
    toTwos r.

Definition ADDMOD (a b c : BN) : BN :=
  if c =? 0 then c else Z.rem (a + b) c.

Definition MULMOD (a b c : BN) : BN :=
  if c =? 0 then c else Z.rem (a * b) c.

(** [SIGNEXTEND]: the bytes above byte [k] (counted from the least
    significant one) are overwritten, from index [30 - k] down to 0, with
    [0xff] or 0 after bit 7 of byte [k]. *)
Definition SIGNEXTEND (k v : BN) : BN :=
  let val := toArrayLike_be 32 v in
  if k <=? 31 then
    let extendOnes := negb (Z.land (buf_get val (31 - k)) 0x80 =? 0) in
    bn_of_buffer
      (fold_left (fun val i => buf_set val i (if extendOnes then 0xff else 0))
                 (map (fun j => 30 - k - Z.of_nat j) (seq 0 (Z.to_nat (31 - k))))
                 val)
  else bn_of_buffer val.

Definition AND (a b : BN) : BN := Z.land a b.
Definition OR (a b : BN) : BN := Z.lor a b.
Definition XOR (a b : BN) : BN := Z.lxor a b.
Definition NOT (a : BN) : BN := notn256 a.

Definition BYTE (pos word : BN) : BN :=
  if 32 <=? pos then 0
  else buf_get (toArrayLike_be 32 word) pos.

(** [utils.setLengthRight(buffer, n)]: zeros are added at the end, or the
    end is cut, to have [n] bytes. *)
Definition setLengthRight (b : Buffer) (n : nat) : Buffer :=
  take n (b ++ repeat 0 (n - length b)).

Definition MASK_160 : Z := Z.shiftl 1 160 - 1.

Section Handlers.

Variable fees : Fees.

(** [runState._vm.runCall]. *)
Variable runCall :
  callOptions -> StateManager.t -> option (callResults * StateManager.t).

Definition subGas (rs : runState) (amount : BN) : outcome unit :=
  let rs := set_gasLeft rs (gasLeft rs - amount) in
  if gasLeft rs <? 0 then Throw OUT_OF_GAS rs else Ok tt rs.

(** [subMemUsage].  [length] is a [BN], so the guard [!length] never
    fires; [divn] truncates. *)
Definition subMemUsage (rs : runState) (offset length : BN) : outcome unit :=
  if bn_not length then Ok tt rs
  else
    let newMemoryWordCount := Z.quot (offset + length) 32 in
    if newMemoryWordCount <=? memoryWordCount rs then Ok tt rs
    else
      let rs := set_memoryWordCount rs newMemoryWordCount in
      let words := newMemoryWordCount in
      let fee := memoryGas fees in
      let quadCoeff := quadCoeffDiv fees in
      let cost := words * fee + Z.quot (words * words) quadCoeff in
      if highestMemCost rs <? cost then
        bind (subGas rs (cost - highestMemCost rs))
             (fun _ rs => Ok tt (set_highestMemCost rs cost))
      else Ok tt rs.

(** [memLoad]: the slice of the memory, filled up with zeros. *)
Definition memLoad (rs : runState) (offset length : BN) : outcome Buffer :=
  bind (subMemUsage rs offset length) (fun _ rs =>
    let loaded := take (Z.to_nat length) (drop (Z.to_nat offset) (memory rs)) in
    Ok (loaded ++ repeat 0 (Z.to_nat length - List.length loaded)) rs).

(** [memory[i] = v] on the array of the frame, which grows as needed. *)
Definition mem_write (m : list Z) (i : nat) (v : Z) : list Z :=
  if (i <? List.length m)%nat then <[i := v]> m
  else m ++ repeat 0 (i - List.length m) ++ [v].

(** [memStore].  [skipSubMem] is [false] when the caller passes [false] and
    [true] when it passes nothing: the test is [skipSubMem !== false]. *)
Definition memStore (rs : runState) (offset : BN) (v : Buffer) (valOffset : Z)
    (length : BN) (skipSubMem : bool) : outcome unit :=
  bind (if skipSubMem then subMemUsage rs offset length else Ok tt rs) (fun _ rs =>
    let valLength := Z.min (Z.of_nat (List.length v)) length in
    let m := fold_left (fun m i =>
                          mem_write m (Z.to_nat offset + i)%nat
                                    (buf_get v (valOffset + Z.of_nat i)))
                       (seq 0 (Z.to_nat valLength)) (memory rs) in
    Ok tt (set_memory rs m)).

(** Opcodes that read the frame. *)
Definition ADDRESS (rs : runState) : BN := address rs.
Definition CALLER (rs : runState) : BN := caller rs.
Definition CALLVALUE (rs : runState) : BN := callValue rs.

Definition CALLDATASIZE (rs : runState) : BN :=
  if (List.length (callData rs) =? 1)%nat && (buf_get (callData rs) 0 =? 0)
  then 0
  else Z.of_nat (List.length (callData rs)).

(** [BALANCE], on an address already reduced to 20 bytes. *)
Definition BALANCE (a : Z) (rs : runState) : BN * runState :=
  if bool_decide (a = address rs) then (balance (contract rs), rs)
  else
    let '(value, sm) := StateManager.getAccountBalance (stateManager rs) a in
    (value, set_stateManager rs sm).

Definition SLOAD (key : BN) (rs : runState) : outcome BN :=
  let '(value, sm) := StateManager.getContractStorage (stateManager rs) (address rs) key in
  let rs := set_stateManager rs sm in
  Ok (if negb (List.length value =? 0)%nat then bn_of_buffer value else 0) rs.

Definition SSTORE (key val : BN) (rs : runState) : outcome unit :=
  let address := address rs in
  let value := unpad (toArrayLike_be 32 val) in
  let '(found, sm) := StateManager.getContractStorage (stateManager rs) address key in
  let rs := set_stateManager rs sm in
  let charged :=
    if (List.length value =? 0)%nat && (List.length found =? 0)%nat then
      subGas rs (sstoreResetGas fees)
    else if (List.length value =? 0)%nat && negb (List.length found =? 0)%nat then
      bind (subGas rs (sstoreResetGas fees))
           (fun _ rs => Ok tt (set_gasRefund rs (gasRefund rs + sstoreRefundGas fees)))
    else if negb (List.length value =? 0)%nat && (List.length found =? 0)%nat then
      subGas rs (sstoreSetGas fees)
    else if negb (List.length value =? 0)%nat && negb (List.length found =? 0)%nat then
      subGas rs (sstoreResetGas fees)
    else Ok tt rs in
  bind charged (fun _ rs =>
    let sm := StateManager.putContractStorage (stateManager rs) address key value in
    let rs := set_stateManager rs sm in
    Ok tt (set_contract rs (Cache.get (StateManager.cache sm) address))).

Definition CALLDATALOAD (pos : BN) (rs : runState) : BN :=
  let loaded :=
    if Z.of_nat (List.length (callData rs)) <? pos then [0]
    else
      let loaded := take 32 (drop (Z.to_nat pos) (callData rs)) in
      if negb (List.length loaded =? 0)%nat then loaded else [0] in
  bn_of_buffer (setLengthRight loaded 32).

Definition MLOAD (pos : BN) (rs : runState) : outcome BN :=
  bind (memLoad rs pos 32) (fun loaded rs => Ok (bn_of_buffer loaded) rs).

Definition MSTORE (offset word : BN) (rs : runState) : outcome unit :=
  memStore rs offset (toArrayLike_be 32 word) 0 32 true.

Definition MSIZE (rs : runState) : BN := memoryWordCount rs * 32.

Definition set_data (a : callArgs) (d : Buffer) : callArgs :=
  {| a_gasLimit := a_gasLimit a; a_value := a_value a; a_to := a_to a;
     a_data := Some d; a_caller := a_caller a; a_code := a_code a;
     a_compiled := a_compiled a; a_delegatecall := a_delegatecall a |}.

Definition set_gasLimit (a : callArgs) (g : BN) : callArgs :=
  {| a_gasLimit := Some g; a_value := a_value a; a_to := a_to a;
     a_data := a_data a; a_caller := a_caller a; a_code := a_code a;
     a_compiled := a_compiled a; a_delegatecall := a_delegatecall a |}.

Definition set_code (a : callArgs) (c : Code) (compiled : bool) : callArgs :=
  {| a_gasLimit := a_gasLimit a; a_value := a_value a; a_to := a_to a;
     a_data := a_data a; a_caller := a_caller a; a_code := Some c;
     a_compiled := compiled; a_delegatecall := a_delegatecall a |}.

(** [checkCallMemCost]: the gas for reading the input and for saving the
    output; an absent [gasLimit] becomes the gas left. *)
Definition checkCallMemCost (rs : runState) (callOptions : callArgs)
    (lo : localOpts) : outcome callArgs :=
  bind (memLoad rs (inOffset lo) (inLength lo)) (fun data rs =>
    let callOptions := set_data callOptions data in
    bind (if truthy (outLength lo) then
            match outOffset lo, outLength lo with
            | Big o, Big l => subMemUsage rs o l
            | _, _ => Throw JS_EXCEPTION rs
            end
          else Ok tt rs) (fun _ rs =>
      match a_gasLimit callOptions with
      | Some _ => Ok callOptions rs
      | None => Ok (set_gasLimit callOptions (gasLeft rs)) rs
      end)).

Definition checkOutOfGas (rs : runState) (callOptions : callArgs) : outcome callArgs :=
  let gasAllowed := gasLeft rs - Z.quot (gasLeft rs) 64 in
  match a_gasLimit callOptions with
  | Some g =>
      if gasAllowed <? g then Ok (set_gasLimit callOptions gasAllowed) rs
      else Ok callOptions rs
  | None => Throw JS_EXCEPTION rs
  end.

(** The options [makeCall] hands to [runCall]. *)
Definition complete (rs : runState) (a : callArgs) : callOptions :=
  {| o_gasLimit := a_gasLimit a; o_value := a_value a; o_to := a_to a;
     o_data := a_data a;
     o_caller := Some (match a_caller a with Some c => c | None => address rs end);
     o_code := a_code a; o_compiled := a_compiled a;
     o_delegatecall := a_delegatecall a;
     o_origin := origin rs; o_gasPrice := gasPrice rs; o_block := block rs;
     o_depth := depth rs + 1 |}.

(** [parseCallResults], the callback [makeCall] gives to [runCall]; the
    value is what the handler reports for the interpreter to push. *)
Definition parseCallResults (rs : runState) (lo : localOpts)
    (results : callResults) : outcome (option BN) :=
  let rs := match vm results with
            | Ran r => set_logs rs (logs rs ++ v_logs r)
            | NoCode => rs
            end in
  let rs := match vm results with
            | Ran r => match v_gasRefund r with
                       | Some g => set_gasRefund rs (gasRefund rs + g)
                       | None => rs
                       end
            | NoCode => rs
            end in
  let rs := set_gasLeft rs (gasLeft rs - gasUsed results) in
  let exceptionError := match vm results with
                        | Ran r => v_exceptionError r
                        | NoCode => None
                        end in
  let exception := match vm results with
                   | Ran r => v_exception r
                   | NoCode => 1
                   end in
  match exceptionError with
  | None =>
      bind (match vm results with
            | Ran r =>
                match outOffset lo, outLength lo with
                | Big o, Big l => memStore rs o (v_return r) 0 l false
                | _, _ => Throw JS_EXCEPTION rs
                end
            | NoCode => Ok tt rs
            end) (fun _ rs =>
        let '(account, sm) := StateManager.getAccount (stateManager rs) (address rs) in
        let rs := set_contract (set_stateManager rs sm) account in
        Ok (Some (match createdAddress results with
                  | Some a => a
                  | None => exception
                  end)) rs)
  | Some _ => Ok (Some exception) rs
  end.

(** [makeCall]: sets up and calls [runCall]. *)
Definition makeCall (rs : runState) (callOptions : callArgs) (lo : localOpts)
    : outcome (option BN) :=
  let opts := complete rs callOptions in
  if (stackLimit fees <=? depth rs)
     || (negb (a_delegatecall callOptions)
         && (balance (contract rs) <? a_value callOptions))
  then Ok None (set_stack rs (stack rs ++ [0]))
  else
    let rs := match a_to callOptions with
              | Some _ => rs
              | None => set_contract rs (set_nonce (contract rs) (nonce (contract rs) + 1))
              end in
    let sm := StateManager.with_cache (stateManager rs)
                (Cache.put (StateManager.cache (stateManager rs)) (address rs)
                           (contract rs) false) in
    match runCall opts sm with
    | Some (results, sm) => parseCallResults (set_stateManager rs sm) lo results
    | None => Throw JS_EXCEPTION (set_stateManager rs sm)
    end.

Definition CREATE (value offset length : BN) (rs : runState) : outcome (option BN) :=
  let options := {| a_gasLimit := None; a_value := value; a_to := None;
                    a_data := None; a_caller := None; a_code := None;
                    a_compiled := false; a_delegatecall := false |} in
  let lo := {| inOffset := offset; inLength := length;
               outOffset := Num 0; outLength := Num 0 |} in
  bind (checkCallMemCost rs options lo) (fun options rs =>
  bind (checkOutOfGas rs options) (fun options rs =>
    makeCall rs options lo)).

Definition CALLCODE (gas toAddress value inOffset inLength outOffset outLength : BN)
    (rs : runState) : outcome (option BN) :=
  let toAddress := Z.land toAddress MASK_160 in
  let options := {| a_gasLimit := Some gas; a_value := value;
                    a_to := Some (address rs); a_data := None; a_caller := None;
                    a_code := None; a_compiled := false; a_delegatecall := false |} in
  let lo := {| inOffset := inOffset; inLength := inLength;
               outOffset := Big outOffset; outLength := Big outLength |} in
  bind (if negb (value =? 0) then subGas rs (callValueTransferGas fees) else Ok tt rs)
       (fun _ rs =>
  bind (checkCallMemCost rs options lo) (fun options rs =>
  bind (checkOutOfGas rs options) (fun options rs =>
    let '(rs, options) :=
      if negb (value =? 0) then
        (set_gasLeft rs (gasLeft rs + callStipend fees),
         set_gasLimit options (default 0 (a_gasLimit options) + callStipend fees))
      else (rs, options) in
    if isPrecompiled toAddress then
      makeCall rs (set_code options (Precompiled toAddress) true) lo
    else
      let '(code, sm) := StateManager.getContractCode (stateManager rs) toAddress in
      makeCall (set_stateManager rs sm) (set_code options (Bytecode code) false) lo))).

Definition DELEGATECALL (gas toAddress inOffset inLength outOffset outLength : BN)
    (rs : runState) : outcome (option BN) :=
  let value := callValue rs in
  let toAddress := Z.land toAddress MASK_160 in
  let options := {| a_gasLimit := Some gas; a_value := value;
                    a_to := Some (address rs); a_data := None;
                    a_caller := Some (caller rs); a_code := None;
                    a_compiled := false; a_delegatecall := true |} in
  let lo := {| inOffset := inOffset; inLength := inLength;
               outOffset := Big outOffset; outLength := Big outLength |} in
  bind (checkCallMemCost rs options lo) (fun options rs =>
  bind (checkOutOfGas rs options) (fun options rs =>
    let '(_, sm) := StateManager.getAccount (stateManager rs) toAddress in
    let rs := set_stateManager rs sm in
    if isPrecompiled toAddress then
      makeCall rs (set_code options (Precompiled toAddress) true) lo
    else
      let '(code, sm) := StateManager.getContractCode (stateManager rs) toAddress in
      makeCall (set_stateManager rs sm) (set_code options (Bytecode code) false) lo)).

End Handlers.

End OpFns.

(** ** The frame of a call *)
Module RunCode.

(** Modelled from the spec: [lib/runCode.js] is not part of the sources at
    hand.  Section 3 of the spec lists the fields of a frame and section 4.2
    says the interpreter runs the options [runCall] prepared: the frame
    starts with the address, caller, value, data and code of the options,
    all of the gas, an empty stack and an empty memory. *)
Definition initRunState (opts : runCodeOpts) (sm : StateManager.t) : OpFns.runState :=
  let '(account, sm) := StateManager.getAccount sm (c_address opts) in
  {| OpFns.address := c_address opts;
     OpFns.caller := c_caller opts;
     OpFns.origin := c_origin opts;
     OpFns.callValue := c_value opts;
     OpFns.callData := default [] (c_data opts);
     OpFns.code := match c_code opts with Bytecode b => b | Precompiled _ => [] end;
     OpFns.gasLeft := c_gasLimit opts;
     OpFns.gasRefund := 0;
     OpFns.gasPrice := c_gasPrice opts;
     OpFns.stack := [];
     OpFns.memory := [];
     OpFns.memoryWordCount := 0;
     OpFns.highestMemCost := 0;
     OpFns.depth := c_depth opts;
     OpFns.contract := account;
     OpFns.stateManager := sm;
     OpFns.logs := [];
     OpFns.block := c_block opts |}.

End RunCode.

(** ** Sequences of calls on the state manager

    The account writes, reads and deletions a transaction performs on the
    state manager and its cache, with nested checkpoints. *)
Module Journal.

Inductive op :=
| PutAccount (address : Z) (account : Account)
| PutBalance (address : Z) (b : Z)
| GetAccount (address : Z)
| Del (address : Z)
| Checkpoint
| Commit
| Revert.

(** One call; [None] when [revert] finds no checkpoint. *)
Definition step (o : op) (sm : StateManager.t) : option StateManager.t :=
  match o with
  | PutAccount a acc => Some (StateManager._putAccount sm a acc)
  | PutBalance a b => Some (StateManager.putAccountBalance sm a b)
  | GetAccount a => Some (snd (StateManager.getAccount sm a))
  | Del a => Some (StateManager.with_cache sm (Cache.del (StateManager.cache sm) a))
  | Checkpoint => Some (StateManager.checkpoint sm)
  | Commit => Some (StateManager.commit sm)
  | Revert => StateManager.revert sm
  end.

Definition run (ops : list op) (sm : StateManager.t) : option StateManager.t :=
  fold_left (fun acc o => match acc with Some sm => step o sm | None => None end)
            ops (Some sm).

(** The nesting depth after one call, started at depth [d]; [None] when a
    [Commit] or [Revert] has no [Checkpoint] of the sequence to match. *)
Definition nest (d : option nat) (o : op) : option nat :=
  match d, o with
  | Some d, Checkpoint => Some (S d)
  | Some (S d), (Commit | Revert) => Some d
  | Some O, (Commit | Revert) => None
  | Some d, _ => Some d
  | None, _ => None
  end.

Definition nesting (ops : list op) : option nat := fold_left nest ops (Some O).

(** Every checkpoint of the sequence is closed inside the sequence. *)
Definition balanced (ops : list op) : Prop := nesting ops = Some O.

(** The addresses the sequence deletes, in order. *)
Definition deleted (ops : list op) : list Z :=
  flat_map (fun o => match o with Del a => [a] | _ => [] end) ops.

(** [checkpoint(); ops; revert()]. *)
Definition checkpoint_run_revert (ops : list op) (sm : StateManager.t)
    : option StateManager.t :=
  match run ops (StateManager.checkpoint sm) with
  | Some sm => StateManager.revert sm
  | None => None
  end.

End Journal.

(** ** lib/runBlock.js *)
Module RunBlock.

(** The result [runTx] reports for a transaction. *)
Record TxResult := mkTxResult {
  t_gasUsed : BN;
  t_bloom : Buffer;
  t_logs : option (list Log)
}.

(** A receipt; the state root stands for the content it commits to. *)
Record Receipt := mkReceipt {
  stateRoot : gmap Z RawAccount;
  r_gasUsed : BN;
  bitvector : Buffer;
  r_logs : list Log
}.

Inductive blockError :=
| TxGasLimitTooHigh
| TxError (e : Error).

(** The variables of the closure of one [runBlock], and the state of the
    VM. *)
Record state := mkState {
  receipts : list (option Receipt);
  txResults : list (option TxResult);
  gasUsed : BN;
  bloom : Buffer;
  receiptTrie : gmap Z Receipt;
  vmState : StateManager.t
}.

(** How a task ends: its callback is called without an error, or with
    one, or an exception of the runtime is thrown and the callback is
    never called. *)
Inductive outcome :=
| Done (s : state)
| Failed (e : blockError) (s : state)
| Thrown (s : state).

Definition initial (sm : StateManager.t) : state :=
  {| receipts := []; txResults := []; gasUsed := 0; bloom := Bloom.empty;
     receiptTrie := ∅; vmState := sm |}.

Section WithRunTx.

(** [this.runTx]: [lib/runTx.js] is not part of the sources at hand, so it
    is a parameter.  It applies one transaction to the state and reports
    [(err, result)]. *)
Variable runTx :
  Tx -> Block -> StateManager.t -> option Error * option TxResult * StateManager.t.

(** [this] inside the nested function declarations.  [runBlock] itself is
    called as a method of the VM, but [beforeBlock], [populateCache],
    [processTx] and [parseTxResult] are function declarations called as
    plain functions by [async] and by [runTx]: their [this] is the global
    object, on which [emit], [populateCache], [runTx] and [trie] are
    undefined.  [this_vm] says whether [this] is the VM; the source as
    written runs with [false]. *)
Variable this_vm : bool.

Definition beforeBlock (s : state) : outcome :=
  if this_vm then Done s else Thrown s.

Definition populateCache (block : Block) (s : state) : outcome :=
  if this_vm then
    let accounts :=
      remove_dups (header_coinbase block
      :: flat_map (fun tx => tx_sender tx :: match tx_to tx with
                                             | Some to => [to]
                                             | None => []
                                             end)
                  (transactions block)
      ++ uncleHeaders block) in
    let sm := vmState s in
    let sm := StateManager.with_cache sm
                (Cache.warm (StateManager.cache sm) (StateManager.trie sm) accounts) in
    Done {| receipts := receipts s; txResults := txResults s; gasUsed := gasUsed s;
            bloom := bloom s; receiptTrie := receiptTrie s; vmState := sm |}
  else Thrown s.

(** [parseTxResult].  [validReceiptCount] is declared [const], with the
    value 0: the receipt is filed under the key 0, and the increment that
    follows raises a [TypeError], so the callback [cb] is never called.
    (With [generate], the bloom is also copied into the header of the
    block, which the model leaves as it is.) *)
Definition parseTxResult (generate : bool) (s : state) (err : option Error)
    (result : option TxResult) (sm : StateManager.t) : outcome :=
  let validReceiptCount := 0 in
  let s := {| receipts := receipts s; txResults := txResults s ++ [result];
              gasUsed := gasUsed s; bloom := bloom s;
              receiptTrie := receiptTrie s; vmState := sm |} in
  match err with
  | Some e =>
      Failed (TxError e)
             {| receipts := receipts s ++ [None]; txResults := txResults s;
                gasUsed := gasUsed s; bloom := bloom s;
                receiptTrie := receiptTrie s; vmState := vmState s |}
  | None =>
      match result with
      | None => Thrown s
      | Some result =>
          let gasUsed' := gasUsed s + t_gasUsed result in
          let bloom' := Bloom.or (bloom s) (Some (t_bloom result)) in
          let s := {| receipts := receipts s; txResults := txResults s;
                      gasUsed := gasUsed'; bloom := bloom';
                      receiptTrie := receiptTrie s; vmState := vmState s |} in
          if this_vm then
            let txLogs := default [] (t_logs result) in
            let txReceipt :=
              {| stateRoot := Trie.content (StateManager.trie (vmState s));
                 r_gasUsed := gasUsed'; bitvector := t_bloom result;
                 r_logs := txLogs |} in
            Thrown {| receipts := receipts s ++ [Some txReceipt];
                      txResults := txResults s; gasUsed := gasUsed s;
                      bloom := bloom s;
                      receiptTrie := <[validReceiptCount := txReceipt]> (receiptTrie s);
                      vmState := vmState s |}
          else Thrown s
      end
  end.

Definition processTx (generate : bool) (block : Block) (s : state) (tx : Tx) : outcome :=
  let gasLimitIsHigherThanBlock := header_gasLimit block <? tx_gasLimit tx + gasUsed s in
  if gasLimitIsHigherThanBlock then Failed TxGasLimitTooHigh s
  else if this_vm then
    let '(err, result, sm) := runTx tx block (vmState s) in
    parseTxResult generate s err result sm
  else Thrown s.

(** [async.eachSeries]: one item after the other, until one fails. *)
Fixpoint eachSeries (f : state -> Tx -> outcome) (txs : list Tx) (s : state) : outcome :=
  match txs with
  | [] => Done s
  | tx :: rest =>
      match f s tx with
      | Done s => eachSeries f rest s
      | other => other
      end
  end.

Definition processTransactions (generate : bool) (block : Block) (s : state) : outcome :=
  eachSeries (processTx generate block) (transactions block) s.

(** [async.series]. *)
Fixpoint series (tasks : list (state -> outcome)) (s : state) : outcome :=
  match tasks with
  | [] => Done s
  | task :: rest =>
      match task s with
      | Done s => series rest s
      | other => other
      end
  end.

(** The tasks [runBlock] runs before [parseBlockResults]. *)
Definition runEverything (generate : bool) (block : Block) (s : state) : outcome :=
  series [beforeBlock; populateCache block; processTransactions generate block] s.

End WithRunTx.

(** What [runBlock] does up to [parseBlockResults], as the source is
    written: the nested functions run with [this] unbound. *)
Definition runBlock_tasks
    (runTx : Tx -> Block -> StateManager.t -> option Error * option TxResult * StateManager.t)
    (generate : bool) (block : Block) (sm : StateManager.t) : outcome :=
  runEverything runTx false generate block
    (initial (StateManager.with_trie sm (Trie.checkpoint (StateManager.trie sm)))).

End RunBlock.

(** ** Concrete inputs

    A block, a state and a frame on which the theorems below are
    evaluated. *)
Definition block0 : Block :=
  {| header_gasLimit := 1000000; header_number := 1; header_coinbase := 0xc0;
     transactions := []; uncleHeaders := [] |}.

Definition sm0 : StateManager.t := StateManager.create Trie.empty.

(** A frame at address [0xaa] and depth [d], called by [0xbb] with 7 wei
    and [gas] gas, nothing executed yet; the account of the frame holds
    7 wei. *)
Definition frame_at (d : Z) (gas : BN) : OpFns.runState :=
  {| OpFns.address := 0xaa; OpFns.caller := 0xbb; OpFns.origin := 0xbb;
     OpFns.callValue := 7; OpFns.callData := []; OpFns.code := [];
     OpFns.gasLeft := gas; OpFns.gasRefund := 0; OpFns.gasPrice := 1;
     OpFns.stack := []; OpFns.memory := []; OpFns.memoryWordCount := 0;
     OpFns.highestMemCost := 0; OpFns.depth := d;
     OpFns.contract := set_exists (set_balance new_Account 7) true;
     OpFns.stateManager :=
       StateManager._putAccount sm0 0xaa (set_balance new_Account 7);
     OpFns.logs := []; OpFns.block := block0 |}.

Definition frame0 (gas : BN) : OpFns.runState := frame_at 0 gas.

(** The frame [frame0 gas] with the call data [data]. *)
Definition frame_with_data (data : Buffer) (gas : BN) : OpFns.runState :=
  {| OpFns.address := 0xaa; OpFns.caller := 0xbb; OpFns.origin := 0xbb;
     OpFns.callValue := 7; OpFns.callData := data; OpFns.code := [];
     OpFns.gasLeft := gas; OpFns.gasRefund := 0; OpFns.gasPrice := 1;
     OpFns.stack := []; OpFns.memory := []; OpFns.memoryWordCount := 0;
     OpFns.highestMemCost := 0; OpFns.depth := 0;
     OpFns.contract := set_exists (set_balance new_Account 7) true;
     OpFns.stateManager :=
       StateManager._putAccount sm0 0xaa (set_balance new_Account 7);
     OpFns.logs := []; OpFns.block := block0 |}.

(** The options of a call that sends 10 wei, and the places of its input
    and output in the memory. *)
Definition args_10wei : OpFns.callArgs :=
  {| OpFns.a_gasLimit := Some 1000; OpFns.a_value := 10;
     OpFns.a_to := Some 0xcc; OpFns.a_data := Some []; OpFns.a_caller := None;
     OpFns.a_code := Some (Bytecode []); OpFns.a_compiled := false;
     OpFns.a_delegatecall := false |}.

Definition lo0 : OpFns.localOpts :=
  {| OpFns.inOffset := 0; OpFns.inLength := 0;
     OpFns.outOffset := OpFns.Big 0; OpFns.outLength := OpFns.Big 0 |}.

(** The results of a run that returns [n] zero bytes for 100 gas, and a
    code runner that reports them without touching the state. *)
Definition results_returning (n : nat) : vmResults :=
  {| v_return := repeat 0 n; v_gasUsed := 100; v_exception := 1;
     v_exceptionError := None; v_logs := []; v_gasRefund := None |}.

Definition runner_returning (n : nat)
    : bool -> runCodeOpts -> StateManager.t -> option Error * vmResults * StateManager.t :=
  fun _ _ sm => (None, results_returning n, sm).

(** The options of a contract creation by [0xbb] with [gas] gas. *)
Definition creation_opts (gas : BN) : callOptions :=
  {| o_gasLimit := Some gas; o_value := 0; o_to := None; o_data := Some [0];
     o_caller := Some 0xbb; o_code := None; o_compiled := false;
     o_delegatecall := false; o_origin := 0xbb; o_gasPrice := 1;
     o_block := block0; o_depth := 0 |}.

(** [generateAddress] replaced by the constant [0xdd], and the closure of
    the creation [creation_opts gas] on the fresh state, as [runCall] sets
    it up. *)
Definition gen_dd : Z -> Z -> Z := fun _ _ => 0xdd.


(** The frame [frame0] with the slot 0 of its storage holding 1. *)
Definition frame_slot0 (gas : BN) : OpFns.runState :=
  OpFns.set_stateManager (frame0 gas)
    (StateManager.putContractStorage (OpFns.stateManager (frame0 gas)) 0xaa 0 [1]).

(** A code runner that zeroes the balance of the frame's address, logs,
    and reports OUT_OF_GAS with all the gas used. *)
Definition runner_failing
    : bool -> runCodeOpts -> StateManager.t -> option Error * vmResults * StateManager.t :=
  fun _ opts sm =>
    (Some OUT_OF_GAS,
     {| v_return := []; v_gasUsed := c_gasLimit opts; v_exception := 0;
        v_exceptionError := Some OUT_OF_GAS; v_logs := [(c_address opts, [], [])];
        v_gasRefund := None |},
     StateManager.putAccountBalance sm (c_address opts) 0).

(** The options of a call by [0xbb] that sends 10 wei to [0xcc] and runs
    the given code there. *)
Definition call_opts (code : option Code) : callOptions :=
  {| o_gasLimit := Some 1000; o_value := 10; o_to := Some 0xcc; o_data := None;
     o_caller := Some 0xbb; o_code := code; o_compiled := false;
     o_delegatecall := false; o_origin := 0xbb; o_gasPrice := 1;
     o_block := block0; o_depth := 0 |}.

(** ** Predicates of the statements *)

(** The bit of the filter at position [loc] is set. *)
Definition has_bit (bitvector : Buffer) (loc : Z) : Prop :=
  Z.testbit (buf_get bitvector (Bloom.byteSize - Z.shiftr loc 3 - 1)) (loc mod 8) = true.

Definition is_bytes (b : Buffer) : Prop := Forall (fun x => 0 <= x < 256) b.

(** A buffer as [utils.unpad] leaves it: bytes, the first of them not 0. *)
Definition unpadded (b : Buffer) : Prop := is_bytes b /\ unpad b = b.

(** The handler outcome [o], run on the frame [rs], charges [cost] gas and
    adds [refund] to the refund counter: the gas left goes down by [cost]
    in any case; when the frame can pay, the handler completes and the
    refund counter goes up by [refund]; when it cannot, the handler
    reports OUT_OF_GAS. *)
Definition charges (rs : OpFns.runState) (o : OpFns.outcome unit)
    (cost refund : Z) : Prop :=
  OpFns.gasLeft (OpFns.frame_of o) = OpFns.gasLeft rs - cost
  /\ (cost <= OpFns.gasLeft rs ->
      exists rs', o = OpFns.Ok tt rs'
                  /\ OpFns.gasRefund rs' = OpFns.gasRefund rs + refund)
  /\ (OpFns.gasLeft rs < cost -> exists rs', o = OpFns.Throw OUT_OF_GAS rs').

(** A [runTx] under which every transaction succeeds with 21000 gas and
    no log, and a block of two plain transfers. *)
Definition runTx_ok
    : Tx -> Block -> StateManager.t
      -> option Error * option RunBlock.TxResult * StateManager.t :=
  fun _ _ sm =>
    (None, Some {| RunBlock.t_gasUsed := 21000; RunBlock.t_bloom := Bloom.empty;
                   RunBlock.t_logs := None |}, sm).

Definition transfer (to : Z) : Tx :=
  {| tx_gasLimit := 21000; tx_sender := 0xbb; tx_to := Some to; tx_value := 100;
     tx_data := [] |}.

Definition block2 : Block :=
  {| header_gasLimit := 1000000; header_number := 1; header_coinbase := 0xc0;
     transactions := [transfer 0xaa; transfer 0xcc]; uncleHeaders := [] |}.

(** The state [sm] with [keys] added to the journal of deletions of its
    cache. *)
Definition with_deletions (sm : StateManager.t) (keys : list Z) : StateManager.t :=
  StateManager.with_cache sm
    {| Cache._cache := Cache._cache (StateManager.cache sm);
       Cache._checkpoints := Cache._checkpoints (StateManager.cache sm);
       Cache._deletes := Cache._deletes (StateManager.cache sm) ++ keys |}.

(** A state whose trie holds the account [1] with 5 wei, and whose cache
    holds the (absent) account [2]. *)
Definition sm_one_account : StateManager.t :=
  snd (StateManager.getAccount
         (StateManager.create
            (Trie.put Trie.empty 1
               {| r_nonce := 0; r_balance := 5; r_stateRoot := ∅;
                  r_codeHash := SHA3_NULL |}))
         2).

(** The frames [rs] and [rs'] belong to the same call on the same state:
    they differ at most in gas, memory, stack, logs and refund. *)
Definition same_context (rs rs' : OpFns.runState) : Prop :=
  OpFns.address rs' = OpFns.address rs
  /\ OpFns.caller rs' = OpFns.caller rs
  /\ OpFns.origin rs' = OpFns.origin rs
  /\ OpFns.callValue rs' = OpFns.callValue rs
  /\ OpFns.gasPrice rs' = OpFns.gasPrice rs
  /\ OpFns.depth rs' = OpFns.depth rs
  /\ OpFns.contract rs' = OpFns.contract rs
  /\ OpFns.stateManager rs' = OpFns.stateManager rs
  /\ OpFns.block rs' = OpFns.block rs.

(** A code runner that returns, as three bytes, the address, the caller
    and the value of the frame it is asked to run. *)
Definition runner_spy
    : bool -> runCodeOpts -> StateManager.t -> option Error * vmResults * StateManager.t :=
  fun _ opts sm =>
    let f := RunCode.initRunState opts sm in
    (None, {| v_return := [OpFns.ADDRESS f; OpFns.CALLER f; OpFns.CALLVALUE f];
              v_gasUsed := 0; v_exception := 1; v_exceptionError := None;
              v_logs := []; v_gasRefund := None |}, sm).

(** A word of the stack. *)
Definition word (x : BN) : Prop := 0 <= x < 2 ^ 256.

(** The number a word stands for when read as a signed 256-bit number. *)
Definition signed (x : BN) : Z := if x <? 2 ^ 255 then x else x - 2 ^ 256.

(** The state [sm] with the two stacks of snapshots replaced. *)
Definition with_stacks (sm : StateManager.t) (ts : list (gmap Z RawAccount))
    (cs : list (gmap Z Cache.entry)) : StateManager.t :=
  {| StateManager.trie :=
       {| Trie.content := Trie.content (StateManager.trie sm);
          Trie.checkpoints := ts;
          Trie.raw := Trie.raw (StateManager.trie sm) |};
     StateManager._storageTries := StateManager._storageTries sm;
     StateManager.cache :=
       {| Cache._cache := Cache._cache (StateManager.cache sm);
          Cache._checkpoints := cs;
          Cache._deletes := Cache._deletes (StateManager.cache sm) |} |}.

(** * Properties *)

(** The hash agrees with the digest of the empty string that the account
    library uses as [SHA3_NULL]. *)
Example keccak256_empty :
  sha3 [] =
  [0xc5; 0xd2; 0x46; 0x01; 0x86; 0xf7; 0x23; 0x3c; 0x92; 0x7e; 0x7d; 0xb2;
   0xdc; 0xc7; 0x03; 0xc0; 0xe5; 0x00; 0xb6; 0x53; 0xca; 0x82; 0x27; 0x3b;
   0x7b; 0xfa; 0xd8; 0x04; 0x5d; 0x85; 0xa4; 0x70].
Proof. vm_compute. reflexivity. Qed.

Example keccak256_abc :
  sha3 [0x61; 0x62; 0x63] =
  [0x4e; 0x03; 0x65; 0x7a; 0xea; 0x45; 0xa9; 0x4f; 0xc7; 0xd4; 0x7b; 0xa8;
   0x26; 0xc8; 0xd6; 0x67; 0xc0; 0xd1; 0xe6; 0xe3; 0x3a; 0x64; 0xa0; 0x36;
   0xec; 0x44; 0xf5; 0x8f; 0xa1; 0x2d; 0x6c; 0x45].
Proof. vm_compute. reflexivity. Qed.

(** ** Bloom filter *)

(** The three bits [add] sets for the digest of the empty element: the
    slices are 1490, 1537 and 1783, all above the 9 bits [check] keeps. *)
Example bloom_add_empty_bits :
  map (fun i => Z.land 2047 (readUInt16BE (sha3 []) (i * 2))) [0; 1; 2] = [1490; 1537; 1783]
  /\ map (fun i => Z.land 511 (readUInt16BE (sha3 []) (i * 2))) [0; 1; 2] = [466; 1; 247].
Proof. vm_compute. split; reflexivity. Qed.

(** C9.  [add] then [check] of the same element on a fresh filter answers
    [false] for the empty element: [add] sets the bits of the three 11-bit
    slices (mask 2047), [check] looks at the 9-bit slices (mask 511). *)
Theorem bloom_check_after_add_fails :
  Bloom.check [] (Bloom.add [] Bloom.empty) = false.
Proof. vm_compute. reflexivity. Qed.

Lemma buf_get_set_eq (b : list Z) i v :
  0 <= i < Z.of_nat (length b) -> buf_get (buf_set b i v) i = Z.land v 255.
Proof.
  intros Hi. unfold buf_get, buf_set.
  destruct (Z.ltb_spec i 0); [lia|].
  rewrite list_lookup_insert_eq by lia. reflexivity.
Qed.

Lemma buf_get_set_ne (b : list Z) i j v :
  0 <= i -> 0 <= j -> i <> j -> buf_get (buf_set b i v) j = buf_get b j.
Proof.
  intros Hi Hj Hne. unfold buf_get, buf_set.
  destruct (Z.ltb_spec i 0); [lia|]. destruct (Z.ltb_spec j 0); [lia|].
  rewrite list_lookup_insert_ne by lia. reflexivity.
Qed.

Lemma buf_set_length (b : list Z) i v : length (buf_set b i v) = length b.
Proof. unfold buf_set. destruct (i <? 0); [reflexivity|]. apply length_insert. Qed.

Lemma slice_bounds x : 0 <= Z.land 2047 x < 2048.
Proof.
  rewrite Z.land_comm. change 2047 with (Z.ones 11). rewrite Z.land_ones by lia.
  apply Z.mod_pos_bound. reflexivity.
Qed.

Lemma testbit_set_byte old k k' :
  0 <= k < 8 -> 0 <= k' < 8 ->
  (k' = k \/ Z.testbit old k' = true) ->
  Z.testbit (Z.land (Z.lor old (Z.shiftl 1 k)) 255) k' = true.
Proof.
  intros Hk Hk' H.
  rewrite Z.land_spec, Z.lor_spec, Z.shiftl_1_l, Z.pow2_bits_eqb by lia.
  change 255 with (Z.ones 8). rewrite Z.ones_spec_low by lia.
  rewrite andb_true_r. apply orb_true_iff.
  destruct H as [->|H]; [right; apply Z.eqb_refl | left; exact H].
Qed.

Lemma add_step_length h bv i : length (Bloom.add_step h bv i) = length bv.
Proof. unfold Bloom.add_step. apply buf_set_length. Qed.

(** One step of [add] sets the bit of its slice and clears none. *)
Lemma add_step_has_bit h bv i loc :
  length bv = 256%nat -> 0 <= loc < 2048 ->
  (loc = Z.land 2047 (readUInt16BE h (i * 2)) \/ has_bit bv loc) ->
  has_bit (Bloom.add_step h bv i) loc.
Proof.
  intros Hlen Hloc H. unfold has_bit, Bloom.add_step, Bloom.byteSize in *.
  set (s := Z.land 2047 (readUInt16BE h (i * 2))) in *.
  pose proof (slice_bounds (readUInt16BE h (i * 2))) as Hs. fold s in Hs.
  rewrite !Z.shiftr_div_pow2 by lia. rewrite !Z.shiftr_div_pow2 in H by lia.
  change (2 ^ 3) with 8 in *.
  assert (0 <= s / 8 < 256) by (split; [apply Z.div_pos; lia | apply Z.div_lt_upper_bound; lia]).
  assert (0 <= loc / 8 < 256) by (split; [apply Z.div_pos; lia | apply Z.div_lt_upper_bound; lia]).
  pose proof (Z.mod_pos_bound s 8 ltac:(lia)).
  pose proof (Z.mod_pos_bound loc 8 ltac:(lia)).
  destruct (Z.eq_dec (s / 8) (loc / 8)) as [E|E].
  - rewrite <- E. rewrite buf_get_set_eq by lia.
    apply testbit_set_byte; try lia.
    destruct H as [->|H]; [left; reflexivity|right].
    rewrite E. exact H.
  - rewrite buf_get_set_ne by lia.
    destruct H as [->|H]; [contradiction|exact H].
Qed.

Lemma check_loop_nonzero h bv idxs m :
  (forall i, In i idxs -> has_bit bv (Z.land 511 (readUInt16BE h (i * 2)))) ->
  m <> 0 -> Bloom.check_loop h bv idxs m <> 0.
Proof.
  revert m. induction idxs as [|i idxs IH]; intros m Hall Hm; cbn [Bloom.check_loop].
  - exact Hm.
  - destruct (Z.eqb_spec m 0); [contradiction|].
    apply IH; [intros j Hj; apply Hall; right; exact Hj|].
    specialize (Hall i (or_introl eq_refl)). unfold has_bit in Hall.
    set (s := Z.land 511 (readUInt16BE h (i * 2))) in *.
    intros Hz.
    assert (Hk : 0 <= s mod 8 < 8) by (apply Z.mod_pos_bound; lia).
    apply (f_equal (fun x => Z.testbit x (s mod 8))) in Hz.
    rewrite Z.land_spec, Z.shiftl_1_l, Z.pow2_bits_eqb, Hall, Z.eqb_refl, Z.bits_0 in Hz by lia.
    discriminate.
Qed.

(** X1.  When the three 11-bit slices of the digest of an element are below
    512, the 9-bit slices [check] keeps are the same numbers, and [check]
    finds the bits [add] has set in a filter of 256 bytes. *)
Lemma bloom_check_after_add_low_slices e bv :
  length bv = 256%nat ->
  (forall i, In i [0; 1; 2] -> Z.land 2047 (readUInt16BE (sha3 e) (i * 2)) < 512) ->
  Bloom.check e (Bloom.add e bv) = true.
Proof.
  intros Hlen Hlow. unfold Bloom.check, Bloom.add.
  set (h := sha3 e) in *.
  apply negb_true_iff, Z.eqb_neq, check_loop_nonzero; [|discriminate].
  intros i Hi.
  assert (Hs : Z.land 511 (readUInt16BE h (i * 2)) = Z.land 2047 (readUInt16BE h (i * 2))).
  { specialize (Hlow i Hi). revert Hlow.
    rewrite !(Z.land_comm _ (readUInt16BE h (i * 2))).
    change 2047 with (Z.ones 11). change 511 with (Z.ones 9).
    rewrite !Z.land_ones by lia. intros Hlow.
    change (2 ^ 11) with (4 * 2 ^ 9) in *. change (2 ^ 9) with 512 in *.
    pose proof (Z.mod_pos_bound (readUInt16BE h (i * 2)) (4 * 512) ltac:(lia)).
    rewrite <- (Z.mod_mod_divide (readUInt16BE h (i * 2)) (4 * 512) 512)
      by (exists 4; lia).
    apply Z.mod_small. lia. }
  rewrite Hs.
  pose proof (slice_bounds (readUInt16BE h (i * 2))) as Hb.
  cbn [fold_left].
  cbn [In] in Hi.
  destruct Hi as [<-|[<-|[<-|[]]]].
  - apply add_step_has_bit; [rewrite !add_step_length; exact Hlen | exact Hb | right].
    apply add_step_has_bit; [rewrite !add_step_length; exact Hlen | exact Hb | right].
    apply add_step_has_bit; [exact Hlen | exact Hb | left; reflexivity].
  - apply add_step_has_bit; [rewrite !add_step_length; exact Hlen | exact Hb | right].
    apply add_step_has_bit; [rewrite !add_step_length; exact Hlen | exact Hb | left; reflexivity].
  - apply add_step_has_bit; [rewrite !add_step_length; exact Hlen | exact Hb | left; reflexivity].
Qed.

(** ** Opcodes on the frame *)

(** C10.  [CALLDATASIZE] is 0 for the one-byte call data [00], and the
    length of the call data in every other case; so the call data [00] and
    the empty call data give the same size. *)
Theorem CALLDATASIZE_single_zero (rs : OpFns.runState) :
  (OpFns.callData rs = [0] -> OpFns.CALLDATASIZE rs = 0)
  /\ (OpFns.callData rs <> [0] ->
      OpFns.CALLDATASIZE rs = Z.of_nat (length (OpFns.callData rs)))
  /\ (forall rs', OpFns.callData rs = [0] -> OpFns.callData rs' = [] ->
      OpFns.CALLDATASIZE rs = OpFns.CALLDATASIZE rs').
Proof.
  unfold OpFns.CALLDATASIZE.
  repeat split.
  - intros ->. reflexivity.
  - intros Hne.
    destruct (OpFns.callData rs) as [|x [|y l]] eqn:E; try reflexivity.
    cbn. unfold buf_get. cbn.
    change (default 0 ([x] !! Z.to_nat 0)) with x.
    destruct (x =? 0) eqn:Hx; [|reflexivity].
    apply Z.eqb_eq in Hx. subst x. contradiction.
  - intros rs' -> ->. reflexivity.
Qed.

Lemma CALLDATASIZE_single_zero_witness :
  OpFns.CALLDATASIZE (frame_with_data [0] 100) = 0
  /\ OpFns.CALLDATASIZE (frame_with_data [0; 0] 100) = 2
  /\ OpFns.CALLDATASIZE (frame_with_data [7] 100) = 1
  /\ OpFns.CALLDATASIZE (frame_with_data [0] 100) = OpFns.CALLDATASIZE (frame0 100).
Proof.
  split; [|split; [|split]].
  - apply (proj1 (CALLDATASIZE_single_zero (frame_with_data [0] 100))). reflexivity.
  - apply (proj1 (proj2 (CALLDATASIZE_single_zero (frame_with_data [0; 0] 100)))).
    discriminate.
  - apply (proj1 (proj2 (CALLDATASIZE_single_zero (frame_with_data [7] 100)))).
    discriminate.
  - apply (proj2 (proj2 (CALLDATASIZE_single_zero (frame_with_data [0] 100))));
      reflexivity.
Defined.

(** ** Memory expansion *)

(** What [subMemUsage] does to the word count: the new count is the
    quotient of [offset + length] by 32, rounded down, when that exceeds the
    current count. *)
Lemma subMemUsage_wordCount fees rs offset length :
  OpFns.memoryWordCount (OpFns.frame_of (OpFns.subMemUsage fees rs offset length))
  = Z.max (OpFns.memoryWordCount rs) (Z.quot (offset + length) 32).
Proof.
  unfold OpFns.subMemUsage, bn_not.
  destruct (Z.leb_spec (Z.quot (offset + length) 32) (OpFns.memoryWordCount rs)).
  - cbn. lia.
  - cbn zeta.
    match goal with |- context [if ?b then _ else _] => destruct b end;
      cbn; [|lia].
    unfold OpFns.subGas. cbn.
    match goal with |- context [if ?b then _ else _] => destruct b end; cbn; lia.
Qed.

(** The gas [subMemUsage] takes: the cost of the new word count less the
    highest cost so far, when the count grows and the cost exceeds it. *)
Lemma subMemUsage_gas fees rs offset length :
  let words := Z.quot (offset + length) 32 in
  let cost := words * memoryGas fees + Z.quot (words * words) (quadCoeffDiv fees) in
  OpFns.gasLeft (OpFns.frame_of (OpFns.subMemUsage fees rs offset length))
  = if (OpFns.memoryWordCount rs <? words) && (OpFns.highestMemCost rs <? cost)
    then OpFns.gasLeft rs - (cost - OpFns.highestMemCost rs)
    else OpFns.gasLeft rs.
Proof.
  cbn zeta. unfold OpFns.subMemUsage, bn_not.
  destruct (Z.leb_spec (Z.quot (offset + length) 32) (OpFns.memoryWordCount rs)) as [H|H].
  - apply Z.ltb_ge in H. rewrite H. reflexivity.
  - apply Z.ltb_lt in H. rewrite H. cbn zeta. cbn [andb].
    cbn [OpFns.highestMemCost OpFns.set_memoryWordCount].
    match goal with |- context [if ?b then _ else _] => destruct b end;
      [|reflexivity].
    unfold OpFns.subGas. cbn.
    match goal with |- context [if ?b then _ else _] => destruct b end; reflexivity.
Qed.

(** C3.  A one-byte access at offset 0 of a fresh frame ([MSTORE8] at 0)
    leaves the word count at 0 and charges nothing, where the rounded-up
    count is 1 word and its cost 3 gas: [divn(32)] rounds down. *)
Theorem subMemUsage_rounds_down :
  OpFns.subMemUsage homestead (frame0 100) 0 1 = OpFns.Ok tt (frame0 100)
  /\ (0 + 1 + 31) / 32 = 1
  /\ 1 * memoryGas homestead + (1 * 1) / quadCoeffDiv homestead = 3.
Proof. vm_compute. repeat split; reflexivity. Qed.

(** C4.  A zero-length access at offset 32 of a fresh frame (for instance
    [RETURN] of no bytes at 32) raises the word count to 1 and the highest
    cost to 3 and takes 3 gas: [length] is a [BN], which [!length] never
    finds falsy. *)
Theorem subMemUsage_zero_length_expands :
  OpFns.subMemUsage homestead (frame0 100) 32 0
  = OpFns.Ok tt (OpFns.set_highestMemCost
                   (OpFns.set_gasLeft (OpFns.set_memoryWordCount (frame0 100) 1) 97) 3).
Proof. vm_compute. reflexivity. Qed.

(** ** Buffers and numbers *)

Lemma bn_of_buffer_acc (b : Buffer) (acc : Z) :
  fold_left (fun acc x => acc * 256 + x) b acc
  = acc * 256 ^ Z.of_nat (length b) + bn_of_buffer b.
Proof.
  unfold bn_of_buffer. revert acc.
  induction b as [|x b IH]; intros acc.
  - cbn. lia.
  - cbn [fold_left length]. rewrite IH, (IH (0 * 256 + x)).
    rewrite Nat2Z.inj_succ, Z.pow_succ_r by lia. ring.
Qed.

Lemma bn_of_buffer_cons (x : Z) (b : Buffer) :
  bn_of_buffer (x :: b) = x * 256 ^ Z.of_nat (length b) + bn_of_buffer b.
Proof.
  unfold bn_of_buffer at 1. cbn [fold_left].
  rewrite bn_of_buffer_acc. ring.
Qed.

Lemma bn_of_buffer_nonneg (b : Buffer) : is_bytes b -> 0 <= bn_of_buffer b.
Proof.
  induction 1 as [|x b Hx Hb IH].
  - reflexivity.
  - rewrite bn_of_buffer_cons.
    assert (0 <= 256 ^ Z.of_nat (length b)) by (apply Z.pow_nonneg; lia).
    nia.
Qed.

Lemma toArrayLike_be_succ (n : nat) (v : BN) :
  toArrayLike_be (S n) v = (v / 256 ^ Z.of_nat n) mod 256 :: toArrayLike_be n v.
Proof.
  unfold toArrayLike_be.
  cbn [seq List.map]. rewrite Nat.sub_0_r. cbn [Nat.sub]. rewrite Nat.sub_0_r.
  f_equal. rewrite <- seq_shift, List.map_map.
  apply List.map_ext_in. intros i _.
  replace (n - S i)%nat with (n - 1 - i)%nat by lia. reflexivity.
Qed.

Lemma toArrayLike_be_length (n : nat) (v : BN) : length (toArrayLike_be n v) = n.
Proof. unfold toArrayLike_be. rewrite List.length_map, List.length_seq. reflexivity. Qed.

(** [new BN(bn.toArrayLike(Buffer, 'be', n))] is [bn] reduced to [n] bytes. *)
Lemma bn_of_toArrayLike_be (n : nat) (v : BN) :
  bn_of_buffer (toArrayLike_be n v) = v mod 256 ^ Z.of_nat n.
Proof.
  induction n as [|n IH].
  - cbn. rewrite Z.mod_1_r. reflexivity.
  - rewrite toArrayLike_be_succ, bn_of_buffer_cons, toArrayLike_be_length, IH.
    rewrite Nat2Z.inj_succ, Z.pow_succ_r by lia.
    assert (0 < 256 ^ Z.of_nat n) by (apply Z.pow_pos_nonneg; lia).
    rewrite (Z.mul_comm 256), Z.rem_mul_r by lia. ring.
Qed.

Lemma toArrayLike_be_bytes (n : nat) (v : BN) : is_bytes (toArrayLike_be n v).
Proof.
  unfold is_bytes, toArrayLike_be. rewrite List.Forall_map.
  apply List.Forall_forall. intros i _. apply Z.mod_pos_bound. lia.
Qed.

Lemma unpad_nil_zero (b : Buffer) : unpad b = [] -> bn_of_buffer b = 0.
Proof.
  induction b as [|x b IH]; [reflexivity|].
  cbn [unpad]. destruct (Z.eqb_spec x 0) as [->|]; [|discriminate].
  intros H. rewrite bn_of_buffer_cons, IH by assumption. ring.
Qed.

Lemma unpad_suffix (b : Buffer) : exists k, b = repeat 0 k ++ unpad b.
Proof.
  induction b as [|x b [k IH]].
  - exists O. reflexivity.
  - cbn [unpad]. destruct (Z.eqb_spec x 0) as [->|].
    + exists (S k). cbn. f_equal. exact IH.
    + exists O. reflexivity.
Qed.

Lemma unpad_bytes (b : Buffer) : is_bytes b -> is_bytes (unpad b).
Proof.
  intros H. destruct (unpad_suffix b) as [k E].
  unfold is_bytes in *. rewrite E in H. apply Forall_app in H. tauto.
Qed.

Lemma unpad_idem (b : Buffer) : unpad (unpad b) = unpad b.
Proof.
  induction b as [|x b IH]; [reflexivity|].
  cbn [unpad]. destruct (Z.eqb_spec x 0) as [->|Hx]; [exact IH|].
  cbn [unpad]. destruct (Z.eqb_spec x 0); [contradiction|reflexivity].
Qed.

(** What [SSTORE] writes is an unpadded buffer. *)
Lemma unpad_unpadded (b : Buffer) : is_bytes b -> unpadded (unpad b).
Proof. intros H. split; [apply unpad_bytes, H | apply unpad_idem]. Qed.

(** The value [SSTORE] is about to write is empty exactly for the word 0. *)
Lemma sstore_value_empty (v : BN) :
  0 <= v < 2 ^ 256 ->
  (length (unpad (toArrayLike_be 32 v)) =? 0)%nat = (v =? 0).
Proof.
  intros Hv.
  destruct (Z.eqb_spec v 0) as [->|Hne].
  - vm_compute. reflexivity.
  - apply Nat.eqb_neq. intros Hl. apply Hne.
    apply length_zero_iff_nil in Hl. apply unpad_nil_zero in Hl.
    rewrite bn_of_toArrayLike_be in Hl.
    change (256 ^ Z.of_nat 32) with (2 ^ 256) in Hl.
    rewrite Z.mod_small in Hl by lia. exact Hl.
Qed.

(** An unpadded buffer is empty exactly when the number it holds is 0. *)
Lemma unpadded_empty (b : Buffer) :
  unpadded b -> (length b =? 0)%nat = (bn_of_buffer b =? 0).
Proof.
  intros [Hb Hu]. destruct b as [|x b]; [reflexivity|].
  cbn [length Nat.eqb]. symmetry. apply Z.eqb_neq.
  cbn [unpad] in Hu. destruct (Z.eqb_spec x 0) as [->|Hx].
  - exfalso. destruct (unpad_suffix b) as [k E].
    apply (f_equal (@length Z)) in E. rewrite Hu in E.
    rewrite length_app in E. cbn in E. lia.
  - inversion Hb as [|? ? Hx' Hb']; subst.
    rewrite bn_of_buffer_cons.
    pose proof (bn_of_buffer_nonneg b Hb').
    assert (0 < 256 ^ Z.of_nat (length b)) by (apply Z.pow_pos_nonneg; lia).
    nia.
Qed.

(** ** SSTORE *)

(** [subGas] charges its amount. *)
Lemma subGas_charges rs amount :
  charges rs (OpFns.subGas rs amount) amount 0.
Proof.
  unfold charges, OpFns.subGas. cbn [OpFns.gasLeft OpFns.set_gasLeft].
  destruct (Z.ltb_spec (OpFns.gasLeft rs - amount) 0) as [H|H]; cbn.
  - repeat split; [lia | eauto].
  - repeat split; [|lia].
    intros _. eexists. split; [reflexivity|]. cbn. lia.
Qed.

(** What a continuation that keeps the gas does not change. *)
Lemma charges_bind rs o cost refund (k : unit -> OpFns.runState -> OpFns.outcome unit)
    delta total :
  total = refund + delta ->
  charges rs o cost refund ->
  (forall rs1, exists rs2, k tt rs1 = OpFns.Ok tt rs2
     /\ OpFns.gasLeft rs2 = OpFns.gasLeft rs1
     /\ OpFns.gasRefund rs2 = OpFns.gasRefund rs1 + delta) ->
  charges rs (OpFns.bind o k) cost total.
Proof.
  intros -> (Hg & Hok & Hoog) Hk. unfold charges.
  destruct o as [[] rs1|e rs1]; cbn [OpFns.bind OpFns.frame_of] in *.
  - destruct (Hk rs1) as (rs2 & -> & Hg2 & Hr2). cbn.
    repeat split.
    + lia.
    + intros Hc. destruct (Hok Hc) as (rs' & E & Hr). inversion E; subst rs'.
      eexists. split; [reflexivity|]. lia.
    + intros Hc. destruct (Hoog Hc) as (rs' & E). discriminate.
  - repeat split; [exact Hg| |exact Hoog].
    intros Hc. destruct (Hok Hc) as (rs' & E & _). discriminate.
Qed.

(** The value [SLOAD] reports for a slot holding an unpadded buffer is the
    number in the buffer, and it is 0 exactly for the empty buffer. *)
Lemma SLOAD_value key rs found sm :
  StateManager.getContractStorage (OpFns.stateManager rs) (OpFns.address rs) key = (found, sm) ->
  unpadded found ->
  exists rs1, OpFns.SLOAD key rs = OpFns.Ok (bn_of_buffer found) rs1
              /\ (length found =? 0)%nat = (bn_of_buffer found =? 0).
Proof.
  intros E Hu. unfold OpFns.SLOAD. rewrite E.
  pose proof (unpadded_empty found Hu) as Hl.
  eexists. split; [|exact Hl].
  destruct (length found =? 0)%nat eqn:H0; cbn [negb]; [|reflexivity].
  symmetry in Hl. apply Z.eqb_eq in Hl. rewrite Hl. reflexivity.
Qed.

(** Reading a slot after writing one: the value written when it is the
    same slot (the empty buffer when the slot was deleted), the former value
    otherwise. *)
Lemma getContractStorage_putContractStorage sm address key value key' :
  fst (StateManager.getContractStorage
         (StateManager.putContractStorage sm address key value) address key')
  = if bool_decide (key = key') then value
    else fst (StateManager.getContractStorage sm address key').
Proof.
  unfold StateManager.getContractStorage, StateManager.putContractStorage.
  destruct (StateManager._getStorageTrie sm address) as [storageTrie sm1] eqn:E.
  unfold StateManager._putAccount, StateManager._getStorageTrie.
  cbn [StateManager.with_cache StateManager._storageTries StateManager.cache
       StateManager.trie].
  rewrite lookup_insert_eq. cbn [fst].
  case_bool_decide as Hk.
  - subst key'. destruct value as [|x value]; cbn [length Nat.eqb negb].
    + rewrite lookup_delete_eq. reflexivity.
    + rewrite lookup_insert_eq. reflexivity.
  - destruct (length value =? 0)%nat; cbn [negb];
      [rewrite lookup_delete_ne by exact Hk | rewrite lookup_insert_ne by exact Hk];
      reflexivity.
Qed.

(** X24.  [SSTORE] keeps the slots of the frame's storage unpadded: when
    every slot of the frame's address holds a buffer of bytes without a
    leading zero byte, so does every slot after an [SSTORE] that
    completes. *)
Lemma SSTORE_keeps_unpadded fees key v rs rs' :
  (forall k, unpadded (fst (StateManager.getContractStorage
                              (OpFns.stateManager rs) (OpFns.address rs) k))) ->
  OpFns.SSTORE fees key v rs = OpFns.Ok tt rs' ->
  forall k, unpadded (fst (StateManager.getContractStorage
                             (OpFns.stateManager rs') (OpFns.address rs) k)).
Proof.
  intros Hall Hs k.
  unfold OpFns.SSTORE in Hs.
  destruct (StateManager.getContractStorage (OpFns.stateManager rs)
              (OpFns.address rs) key) as [found sm] eqn:E.
  assert (Hrs' : OpFns.stateManager rs'
                 = StateManager.putContractStorage sm (OpFns.address rs) key
                     (unpad (toArrayLike_be 32 v))).
  { revert Hs. unfold OpFns.subGas.
    repeat match goal with
           | |- context [if ?b then _ else _] => destruct b; cbn [OpFns.bind]
           end;
      intros H; try discriminate; inversion H; reflexivity. }
  rewrite Hrs', getContractStorage_putContractStorage.
  case_bool_decide.
  - apply unpad_unpadded, toArrayLike_be_bytes.
  - specialize (Hall k).
    unfold StateManager.getContractStorage, StateManager._getStorageTrie,
      StateManager._lookupStorageTrie, StateManager.getAccount, Cache.getOrLoad,
      Cache.lookup, Cache._lookupAccount, Cache._update in *.
    destruct (StateManager._storageTries (OpFns.stateManager rs) !! OpFns.address rs)
      as [st|] eqn:Est.
    + inversion E; subst. rewrite Est. exact Hall.
    + destruct (Cache._cache (StateManager.cache (OpFns.stateManager rs))
                !! OpFns.address rs) as [e|] eqn:Ec;
        inversion E; subst;
        cbn [StateManager._storageTries StateManager.with_cache StateManager.cache
             Cache._cache StateManager.trie fst] in *;
        rewrite Est; rewrite ?Ec, ?lookup_insert_eq; cbn; exact Hall.
Qed.

(** C5.  [SSTORE] of the word [v] into a slot whose current value (what
    [SLOAD] reports) is [w], the slot holding an unpadded buffer as
    [SSTORE] writes them: clearing a set slot charges Gsreset and adds
    Gsrefund to the refund; setting a clear slot charges Gsset without
    refund; the two remaining cases charge Gsreset without refund. *)
Theorem SSTORE_pricing fees key v rs w rs1 :
  0 <= v < 2 ^ 256 ->
  unpadded (fst (StateManager.getContractStorage (OpFns.stateManager rs)
                   (OpFns.address rs) key)) ->
  OpFns.SLOAD key rs = OpFns.Ok w rs1 ->
  (v = 0 /\ w <> 0 ->
   charges rs (OpFns.SSTORE fees key v rs) (sstoreResetGas fees) (sstoreRefundGas fees))
  /\ (v <> 0 /\ w = 0 ->
      charges rs (OpFns.SSTORE fees key v rs) (sstoreSetGas fees) 0)
  /\ ((v = 0 /\ w = 0) \/ (v <> 0 /\ w <> 0) ->
      charges rs (OpFns.SSTORE fees key v rs) (sstoreResetGas fees) 0).
Proof.
  intros Hv Hu Hload.
  destruct (StateManager.getContractStorage (OpFns.stateManager rs)
              (OpFns.address rs) key) as [found sm] eqn:E.
  cbn [fst] in Hu.
  destruct (SLOAD_value key rs found sm E Hu) as (rs1' & Hload' & Hlen).
  rewrite Hload in Hload'. inversion Hload'; subst w rs1'. clear Hload'.
  unfold OpFns.SSTORE. rewrite E.
  rewrite (sstore_value_empty v Hv), Hlen.
  set (rs0 := OpFns.set_stateManager rs sm).
  assert (Hfin : forall rs1, exists rs2,
            (fun (_ : unit) (rs : OpFns.runState) =>
               let sm := StateManager.putContractStorage (OpFns.stateManager rs)
                           (OpFns.address rs0) key (unpad (toArrayLike_be 32 v)) in
               let rs := OpFns.set_stateManager rs sm in
               OpFns.Ok tt (OpFns.set_contract rs
                              (Cache.get (StateManager.cache sm) (OpFns.address rs0))))
              tt rs1 = OpFns.Ok tt rs2
            /\ OpFns.gasLeft rs2 = OpFns.gasLeft rs1
            /\ OpFns.gasRefund rs2 = OpFns.gasRefund rs1 + 0).
  { intros r. eexists. split; [reflexivity|]. cbn. split; lia. }
  assert (Hsub : forall amount, charges rs (OpFns.subGas rs0 amount) amount 0).
  { intros amount. exact (subGas_charges rs0 amount). }
  assert (Hrefund : charges rs
            (OpFns.bind (OpFns.subGas rs0 (sstoreResetGas fees))
               (fun _ rs => OpFns.Ok tt
                  (OpFns.set_gasRefund rs (OpFns.gasRefund rs + sstoreRefundGas fees))))
            (sstoreResetGas fees) (sstoreRefundGas fees)).
  { apply (charges_bind rs _ _ 0 _ (sstoreRefundGas fees)); [lia | apply Hsub |].
    intros r. eexists. split; [reflexivity|]. cbn. split; lia. }
  split; [|split].
  - intros [-> Hw]. apply Z.eqb_neq in Hw. rewrite Hw. cbn [Z.eqb andb negb].
    apply (charges_bind rs _ _ (sstoreRefundGas fees) _ 0); [lia | exact Hrefund | exact Hfin].
  - intros [Hv0 ->]. apply Z.eqb_neq in Hv0. rewrite Hv0. cbn [Z.eqb andb negb].
    apply (charges_bind rs _ _ 0 _ 0); [lia | apply Hsub | exact Hfin].
  - intros [[-> ->]|[Hv0 Hw]].
    + cbn [Z.eqb andb negb].
      apply (charges_bind rs _ _ 0 _ 0); [lia | apply Hsub | exact Hfin].
    + apply Z.eqb_neq in Hv0, Hw. rewrite Hv0, Hw. cbn [andb negb].
      apply (charges_bind rs _ _ 0 _ 0); [lia | apply Hsub | exact Hfin].
Qed.

Lemma SSTORE_pricing_witness :
  charges (frame_slot0 100000) (OpFns.SSTORE homestead 0 0 (frame_slot0 100000))
          5000 15000.
Proof.
  eapply (proj1 (SSTORE_pricing homestead 0 0 (frame_slot0 100000) 1 _ _ _ _)).
  Unshelve.
  - split; [reflexivity | discriminate].
  - shelve.
  - split; [discriminate | reflexivity].
  - vm_compute. split; [repeat constructor; discriminate | reflexivity].
  - vm_compute. reflexivity.
Defined.

(** Scenario 3 of the spec: with storage[0] = 1, [SSTORE] of 0 at 0 leaves
    the slot empty, the refund at 15000 and takes 5000 gas. *)
Example SSTORE_clear_refund :
  exists rs', OpFns.SSTORE homestead 0 0 (frame_slot0 100000) = OpFns.Ok tt rs'
    /\ OpFns.gasLeft rs' = 100000 - 5000
    /\ OpFns.gasRefund rs' = 15000
    /\ OpFns.SLOAD 0 rs' = OpFns.Ok 0 rs'.
Proof. eexists. split; [reflexivity|]. vm_compute. repeat split; reflexivity. Qed.

(** ** Calls that are not entered *)

(** C6.  When the frame is at the depth limit, or when the call transfers
    value (it is not a DELEGATECALL) and the balance of the frame's account
    is below the value, [makeCall] does not call [runCall]: whatever
    [runCall] is, it pushes 0 on the stack of the frame and leaves the
    state, the frame's account and every balance as they were. *)
Theorem makeCall_not_entered fees rs args lo :
  stackLimit fees <= OpFns.depth rs
  \/ (OpFns.a_delegatecall args = false
      /\ balance (OpFns.contract rs) < OpFns.a_value args) ->
  exists rs',
    (forall runCall, OpFns.makeCall fees runCall rs args lo = OpFns.Ok None rs')
    /\ OpFns.stack rs' = OpFns.stack rs ++ [0]
    /\ OpFns.stateManager rs' = OpFns.stateManager rs
    /\ OpFns.contract rs' = OpFns.contract rs
    /\ OpFns.gasLeft rs' = OpFns.gasLeft rs
    /\ (forall a, fst (OpFns.BALANCE a rs') = fst (OpFns.BALANCE a rs)).
Proof.
  intros H.
  exists (OpFns.set_stack rs (OpFns.stack rs ++ [0])).
  split; [|split; [|split; [|split; [|split]]]]; try reflexivity.
  - intros runCall. unfold OpFns.makeCall.
    destruct H as [H|[Hd H]].
    + apply Z.leb_le in H. rewrite H. reflexivity.
    + apply Z.ltb_lt in H. rewrite Hd, H. cbn [negb andb].
      rewrite orb_true_r. reflexivity.
  - intros a. unfold OpFns.BALANCE.
    cbn [OpFns.address OpFns.contract OpFns.stateManager OpFns.set_stack].
    destruct (bool_decide (a = OpFns.address rs)); [reflexivity|].
    destruct (StateManager.getAccountBalance (OpFns.stateManager rs) a).
    reflexivity.
Qed.

Lemma makeCall_not_entered_witness :
  exists rs',
    (forall runCall,
        OpFns.makeCall homestead runCall (frame0 100) args_10wei lo0 = OpFns.Ok None rs')
    /\ OpFns.stack rs' = OpFns.stack (frame0 100) ++ [0]
    /\ OpFns.stateManager rs' = OpFns.stateManager (frame0 100)
    /\ OpFns.contract rs' = OpFns.contract (frame0 100)
    /\ OpFns.gasLeft rs' = OpFns.gasLeft (frame0 100)
    /\ (forall a, fst (OpFns.BALANCE a rs') = fst (OpFns.BALANCE a (frame0 100))).
Proof.
  apply (makeCall_not_entered homestead (frame0 100) args_10wei lo0).
  right. split; reflexivity.
Defined.

(** At depth 1024 a DELEGATECALL pushes 0 and enters nothing, whatever
    [runCall] would do. *)
Example DELEGATECALL_at_depth_limit runCall :
  OpFns.DELEGATECALL homestead runCall 1000 0xcc 0 0 0 0 (frame_at 1024 100)
  = OpFns.Ok None
      (OpFns.set_stateManager
         (OpFns.set_stack (frame_at 1024 100) [0])
         (snd (StateManager.getContractCode
                 (OpFns.stateManager (frame_at 1024 100)) 0xcc))).
Proof. reflexivity. Qed.

(** With 7 wei, a CALLCODE of 10 wei pushes 0 and enters nothing. *)
Example CALLCODE_insufficient_balance runCall :
  exists rs', OpFns.CALLCODE homestead runCall 1000 0xcc 10 0 0 0 0 (frame0 100000)
              = OpFns.Ok None rs'
    /\ OpFns.stack rs' = [0]
    /\ balance (Cache.get (StateManager.cache (OpFns.stateManager rs')) 0xaa) = 7.
Proof. eexists. split; [reflexivity|]. split; reflexivity. Qed.

(** ** Contract creation *)

(** [putContractCode] leaves the account with the hash of the code, and the
    code in the raw store under that hash. *)
Lemma putContractCode_stores sm address code :
  let sm' := StateManager.putContractCode sm address code in
  codeHash (Cache.get (StateManager.cache sm') address) = sha3 code
  /\ Trie.getRaw (StateManager.trie sm') (sha3 code) = Some code.
Proof.
  cbn zeta. unfold StateManager.putContractCode.
  destruct (StateManager.getAccount sm address) as [account sm1].
  unfold setCode, StateManager._putAccount, StateManager.with_cache,
    StateManager.with_trie, Cache.put, Cache._update, Cache.get, Cache.lookup.
  cbn [StateManager.cache StateManager.trie].
  split.
  - destruct (Cache._cache (StateManager.cache sm1) !! address);
      cbn [Cache._cache]; rewrite lookup_insert_eq; reflexivity.
  - unfold Trie.getRaw, Trie.putRaw. cbn [Trie.raw]. apply lookup_insert_eq.
Qed.

(** The code the state manager then reports for the address is that code,
    unless its hash is the hash of the empty code. *)
Lemma getContractCode_putContractCode sm address code :
  sha3 code <> SHA3_NULL ->
  fst (StateManager.getContractCode (StateManager.putContractCode sm address code) address)
  = code.
Proof.
  intros Hne.
  destruct (putContractCode_stores sm address code) as [Hh Hr].
  set (sm' := StateManager.putContractCode sm address code) in *.
  unfold StateManager.getContractCode, StateManager.getAccount, Cache.getOrLoad.
  unfold Cache.get in Hh.
  assert (Hsome : exists acc, Cache.lookup (StateManager.cache sm') address = Some acc).
  { subst sm'. unfold StateManager.putContractCode.
    destruct (StateManager.getAccount sm address) as [account sm1].
    unfold setCode, StateManager._putAccount, StateManager.with_cache,
      StateManager.with_trie, Cache.put, Cache._update, Cache.lookup.
    cbn [StateManager.cache].
    destruct (Cache._cache (StateManager.cache sm1) !! address);
      cbn [Cache._cache]; rewrite lookup_insert_eq; eauto. }
  destruct Hsome as [acc Hacc]. rewrite Hacc in Hh |- *.
  cbn [fst StateManager.trie StateManager.with_cache].
  unfold getCode, isContract. rewrite Hh.
  rewrite bool_decide_eq_false_2 by exact Hne. cbn [negb].
  rewrite Hr. reflexivity.
Qed.



(** A creation is a call without destination: [runCall] derives the
    address from the caller and its nonce, runs the data as code with no
    call data, and hands the answer of the runner to [integrate]. *)
Lemma runCall_creation fees gen runner opts caller init sm :
  o_to opts = None -> o_caller opts = Some caller -> o_data opts = Some init ->
  let created := gen caller (nonce (Cache.get (StateManager.cache sm) caller) - 1) in
  exists c sm1,
    RunCall.setup gen opts caller sm = (c, sm1)
    /\ RunCall.x_createdAddress c = Some created
    /\ RunCall.runCall fees gen runner opts sm
       = RunCall.integrate fees opts c
           (runner (RunCall.isCompiled c)
                   (RunCall.runCodeOpts_of opts caller c created (Bytecode init)) sm1).
Proof.
  intros Hto Hcaller Hdata created.
  unfold RunCall.runCall. rewrite Hcaller.
  unfold RunCall.setup.
  destruct (RunCall.subTxValue (o_delegatecall opts) caller
              (Cache.get (StateManager.cache sm) caller) (o_value opts)
              (StateManager.checkpoint sm)) as [account sm1] eqn:Esub.
  assert (Hn : nonce account = nonce (Cache.get (StateManager.cache sm) caller)).
  { unfold RunCall.subTxValue in Esub.
    destruct (o_delegatecall opts); inversion Esub; reflexivity. }
  unfold RunCall.loadToAccount. cbn [RunCall.toAddress]. rewrite Hto, Hdata, Hn.
  fold created.
  destruct (StateManager.getAccount sm1 created) as [acc sm2].
  cbn [option_map RunCall.txData].
  unfold RunCall.loadCode, RunCall.addTxValue.
  destruct (o_delegatecall opts); cbn [RunCall.toAddress RunCall.x_code is_Some];
    (rewrite bool_decide_eq_true_2 by eauto); cbn [orb];
    eexists; eexists; (split; [reflexivity|]); (split; [reflexivity|]);
    unfold RunCall.run; reflexivity.
Qed.

(** Scenario 5 of the spec: the init-code returns 24577 bytes.  The whole
    gas limit is used, the exception code is 0, nothing is returned, and
    the created address has no code. *)
Example CREATE_oversize_return :
  exists r' sm',
    RunCall.runCall homestead gen_dd (runner_returning (Z.to_nat 24577))
      (creation_opts 10000000) sm0
    = Some ({| gasUsed := 10000000; createdAddress := Some 0xdd; vm := Ran r' |}, sm')
    /\ v_return r' = [] /\ v_exception r' = 0
    /\ Cache.lookup (StateManager.cache sm') 0xdd = None
    /\ fst (StateManager.getContractCode sm' 0xdd) = [].
Proof.
  eexists. eexists. split; [vm_compute; reflexivity|].
  repeat split; vm_compute; reflexivity.
Qed.

(** ** Balances as the state manager reports them *)

(** The balance [getAccountBalance] reports: the one in the cache, else the
    one in the trie, else 0. *)
Lemma getAccountBalance_eq sm a :
  fst (StateManager.getAccountBalance sm a)
  = match Cache._cache (StateManager.cache sm) !! a with
    | Some e => balance (Cache.val e)
    | None => balance (Account_of_raw (Trie.get (StateManager.trie sm) a))
    end.
Proof.
  unfold StateManager.getAccountBalance, StateManager.getAccount, Cache.getOrLoad,
    Cache.lookup, Cache._lookupAccount.
  destruct (Cache._cache (StateManager.cache sm) !! a); reflexivity.
Qed.

(** Loading an account into the cache changes no balance. *)
Lemma getAccountBalance_getAccount sm b a :
  fst (StateManager.getAccountBalance (snd (StateManager.getAccount sm b)) a)
  = fst (StateManager.getAccountBalance sm a).
Proof.
  rewrite !getAccountBalance_eq.
  unfold StateManager.getAccount, Cache.getOrLoad, Cache.lookup, Cache._lookupAccount.
  destruct (Cache._cache (StateManager.cache sm) !! b) eqn:Eb; [reflexivity|].
  unfold Cache._update. rewrite Eb.
  cbn [snd StateManager.with_cache StateManager.cache StateManager.trie Cache._cache].
  destruct (decide (b = a)) as [->|Hne].
  - rewrite lookup_insert_eq, Eb. reflexivity.
  - rewrite lookup_insert_ne by exact Hne. reflexivity.
Qed.

Lemma getContractCode_state sm b :
  snd (StateManager.getContractCode sm b) = snd (StateManager.getAccount sm b).
Proof.
  unfold StateManager.getContractCode.
  destruct (StateManager.getAccount sm b). reflexivity.
Qed.

Lemma getAccountBalance_checkpoint sm a :
  fst (StateManager.getAccountBalance (StateManager.checkpoint sm) a)
  = fst (StateManager.getAccountBalance sm a).
Proof. rewrite !getAccountBalance_eq. reflexivity. Qed.

(** Writing an account sets its balance and no other. *)
Lemma getAccountBalance_put sm b acc a :
  fst (StateManager.getAccountBalance
         (StateManager.with_cache sm (Cache.put (StateManager.cache sm) b acc false)) a)
  = if bool_decide (a = b) then balance acc
    else fst (StateManager.getAccountBalance sm a).
Proof.
  rewrite !getAccountBalance_eq.
  unfold Cache.put, Cache._update.
  cbn [StateManager.with_cache StateManager.cache StateManager.trie].
  case_bool_decide as Hab.
  - subst a. destruct (Cache._cache (StateManager.cache sm) !! b);
      cbn [Cache._cache]; rewrite lookup_insert_eq; reflexivity.
  - destruct (Cache._cache (StateManager.cache sm) !! b);
      cbn [Cache._cache]; rewrite lookup_insert_ne by congruence; reflexivity.
Qed.

(** ** DELEGATECALL *)

(** A delegate call that [makeCall] lets through: the frame's account is
    written to the cache, the state is checkpointed, nothing is debited or
    credited, and the runner is called with the destination, the caller and
    the value of the options. *)
Lemma makeCall_delegate fees gen runner rs args lo code cl :
  OpFns.a_delegatecall args = true ->
  OpFns.a_to args = Some (OpFns.address rs) ->
  OpFns.a_code args = Some code ->
  OpFns.a_caller args = Some cl ->
  OpFns.depth rs < stackLimit fees ->
  let sm_put :=
    StateManager.with_cache (OpFns.stateManager rs)
      (Cache.put (StateManager.cache (OpFns.stateManager rs)) (OpFns.address rs)
                 (OpFns.contract rs) false) in
  let sm_in := StateManager.checkpoint sm_put in
  let opts := OpFns.complete rs args in
  let c := {| RunCall.toAccount := Cache.get (StateManager.cache sm_in) (OpFns.address rs);
              RunCall.toAddress := Some (OpFns.address rs);
              RunCall.x_createdAddress := None;
              RunCall.x_code := Some code;
              RunCall.txData := OpFns.a_data args;
              RunCall.isCompiled := OpFns.a_compiled args |} in
  OpFns.makeCall fees (RunCall.runCall fees gen runner) rs args lo
  = match RunCall.integrate fees opts c
            (runner (OpFns.a_compiled args)
                    (RunCall.runCodeOpts_of opts cl c (OpFns.address rs) code) sm_in) with
    | Some (results, sm) =>
        OpFns.parseCallResults fees (OpFns.set_stateManager rs sm) lo results
    | None => OpFns.Throw JS_EXCEPTION (OpFns.set_stateManager rs sm_put)
    end.
Proof.
  intros Hd Hto Hcode Hcl Hdepth. cbn zeta.
  unfold OpFns.makeCall.
  rewrite Hd, Hto. cbn [negb andb]. rewrite orb_false_r.
  apply Z.leb_gt in Hdepth. rewrite Hdepth.
  unfold RunCall.runCall, OpFns.complete. cbn [o_caller]. rewrite Hcl.
  unfold RunCall.setup. cbn [o_delegatecall o_to o_code o_data o_compiled o_value].
  rewrite Hd, Hto, Hcode.
  unfold RunCall.subTxValue, RunCall.loadToAccount. cbn [RunCall.toAddress].
  unfold RunCall.loadCode, RunCall.addTxValue.
  cbn [RunCall.toAddress RunCall.x_code].
  rewrite bool_decide_eq_true_2 by eauto. cbn [orb].
  unfold RunCall.run. cbn [RunCall.x_code RunCall.toAddress].
  reflexivity.
Qed.

Lemma same_context_refl rs : same_context rs rs.
Proof. unfold same_context. tauto. Qed.

Lemma same_context_trans rs1 rs2 rs3 :
  same_context rs1 rs2 -> same_context rs2 rs3 -> same_context rs1 rs3.
Proof.
  unfold same_context. intros H1 H2.
  destruct H1 as (?&?&?&?&?&?&?&?&?), H2 as (?&?&?&?&?&?&?&?&?).
  repeat split; congruence.
Qed.

Lemma subGas_context rs amount :
  same_context rs (OpFns.frame_of (OpFns.subGas rs amount)).
Proof.
  unfold OpFns.subGas.
  match goal with |- context [if ?b then _ else _] => destruct b end;
    cbn; unfold same_context; cbn; tauto.
Qed.

Lemma subMemUsage_context fees rs offset length :
  same_context rs (OpFns.frame_of (OpFns.subMemUsage fees rs offset length)).
Proof.
  unfold OpFns.subMemUsage, bn_not.
  match goal with |- context [if ?b then _ else _] => destruct b end;
    [cbn; apply same_context_refl|].
  cbn zeta.
  match goal with |- context [if ?b then _ else _] => destruct b end;
    [|cbn; unfold same_context; cbn; tauto].
  unfold OpFns.subGas. cbn.
  match goal with |- context [if ?b then _ else _] => destruct b end;
    cbn; unfold same_context; cbn; tauto.
Qed.

Lemma memLoad_context fees rs offset length :
  same_context rs (OpFns.frame_of (OpFns.memLoad fees rs offset length)).
Proof.
  unfold OpFns.memLoad.
  pose proof (subMemUsage_context fees rs offset length) as H.
  destruct (OpFns.subMemUsage fees rs offset length); exact H.
Qed.

(** A second [getAccount] of the same address finds what the first one
    left in the cache. *)
Lemma getAccount_again sm b :
  StateManager.getAccount (snd (StateManager.getAccount sm b)) b
  = (fst (StateManager.getAccount sm b), snd (StateManager.getAccount sm b)).
Proof.
  unfold StateManager.getAccount, Cache.getOrLoad, Cache.lookup.
  destruct (Cache._cache (StateManager.cache sm) !! b) as [e|] eqn:Eb.
  - cbn [snd fst StateManager.with_cache StateManager.cache]. rewrite Eb.
    destruct sm as [tr st [c cp dl]]. reflexivity.
  - unfold Cache._lookupAccount, Cache._update. rewrite Eb.
    cbn [snd fst StateManager.with_cache StateManager.cache StateManager.trie Cache._cache].
    rewrite lookup_insert_eq. reflexivity.
Qed.

(** [SSTORE] writes the storage of the address of the frame. *)
Lemma SSTORE_target fees key v f f' :
  OpFns.SSTORE fees key v f = OpFns.Ok tt f' ->
  OpFns.stateManager f'
  = StateManager.putContractStorage
      (snd (StateManager.getContractStorage (OpFns.stateManager f) (OpFns.address f) key))
      (OpFns.address f) key (unpad (toArrayLike_be 32 v)).
Proof.
  unfold OpFns.SSTORE.
  destruct (StateManager.getContractStorage (OpFns.stateManager f) (OpFns.address f) key)
    as [found sm].
  cbn [snd]. unfold OpFns.subGas.
  repeat match goal with
         | |- context [if ?b then _ else _] => destruct b; cbn [OpFns.bind]
         end;
    intros H; try discriminate; inversion H; reflexivity.
Qed.

(** C7.  A DELEGATECALL from the frame [rs] that pays for the memory of
    its input and output, below the depth limit.  Whatever the code runner
    is, the result of the DELEGATECALL is what [parseCallResults] makes of
    the answer the runner gives when it is run, once, on the options
    [ropts] and the state [sm_in]: the answer is committed when it carries
    no error and reverted when it carries one.  The address, the caller and
    the value of [ropts] are those of [rs], its code is the code of the
    callee, its data the input read from the memory.  When the runner
    reports no error, the DELEGATECALL pushes the exception flag of the
    run, takes the gas the run used from the gas left, appends its logs,
    and goes on in the state the runner left, at the address, with the
    caller and the value of [rs].  In every frame that carries the
    address, the caller and the value of [ropts], ADDRESS, CALLER and
    CALLVALUE are those of [rs] and SSTORE writes the storage of the
    address of [rs]; and every balance in [sm_in] is the one the frame
    [rs] saw before the call: nothing is debited or credited. *)
Theorem DELEGATECALL_context fees gen gas toAddress inOffset inLength
    outOffset outLength rs data rs0 rs1 :
  OpFns.depth rs < stackLimit fees ->
  OpFns.memLoad fees rs inOffset inLength = OpFns.Ok data rs0 ->
  OpFns.subMemUsage fees rs0 outOffset outLength = OpFns.Ok tt rs1 ->
  let callee := Z.land toAddress OpFns.MASK_160 in
  let smA := snd (StateManager.getAccount (OpFns.stateManager rs) callee) in
  let sm_put :=
    StateManager.with_cache smA
      (Cache.put (StateManager.cache smA) (OpFns.address rs) (OpFns.contract rs) false) in
  let sm_in := StateManager.checkpoint sm_put in
  let ropts :=
    {| c_code := if isPrecompiled callee then Precompiled callee
                 else Bytecode (fst (StateManager.getContractCode (OpFns.stateManager rs) callee));
       c_data := Some data;
       c_gasLimit := Z.min gas (OpFns.gasLeft rs1 - Z.quot (OpFns.gasLeft rs1) 64);
       c_gasPrice := OpFns.gasPrice rs;
       c_address := OpFns.address rs;
       c_origin := OpFns.origin rs;
       c_caller := OpFns.caller rs;
       c_value := OpFns.callValue rs;
       c_block := OpFns.block rs;
       c_depth := OpFns.depth rs + 1 |} in
  let lo := {| OpFns.inOffset := inOffset; OpFns.inLength := inLength;
               OpFns.outOffset := OpFns.Big outOffset;
               OpFns.outLength := OpFns.Big outLength |} in
  let rs2 := OpFns.set_stateManager rs1 smA in
  (forall runner,
      OpFns.DELEGATECALL fees (RunCall.runCall fees gen runner) gas toAddress
        inOffset inLength outOffset outLength rs
      = match runner (isPrecompiled callee) ropts sm_in with
        | (None, r, sm_r) =>
            OpFns.parseCallResults fees
              (OpFns.set_stateManager rs2 (StateManager.commit sm_r)) lo
              {| gasUsed := v_gasUsed r; createdAddress := None; vm := Ran r |}
        | (Some _, r, sm_r) =>
            match StateManager.revert sm_r with
            | Some sm' =>
                OpFns.parseCallResults fees (OpFns.set_stateManager rs2 sm') lo
                  {| gasUsed := v_gasUsed r; createdAddress := None;
                     vm := Ran (RunCall.clear_logs r) |}
            | None => OpFns.Throw JS_EXCEPTION (OpFns.set_stateManager rs2 sm_put)
            end
        end)
  /\ (forall runner r sm_r,
        runner (isPrecompiled callee) ropts sm_in = (None, r, sm_r) ->
        v_exceptionError r = None ->
        exists rs',
          OpFns.DELEGATECALL fees (RunCall.runCall fees gen runner) gas toAddress
            inOffset inLength outOffset outLength rs
          = OpFns.Ok (Some (v_exception r)) rs'
          /\ OpFns.gasLeft rs' = OpFns.gasLeft rs1 - v_gasUsed r
          /\ OpFns.logs rs' = OpFns.logs rs1 ++ v_logs r
          /\ OpFns.stateManager rs'
             = snd (StateManager.getAccount (StateManager.commit sm_r) (OpFns.address rs))
          /\ OpFns.contract rs'
             = fst (StateManager.getAccount (StateManager.commit sm_r) (OpFns.address rs))
          /\ OpFns.address rs' = OpFns.address rs
          /\ OpFns.caller rs' = OpFns.caller rs
          /\ OpFns.callValue rs' = OpFns.callValue rs)
  /\ (forall f,
        OpFns.address f = c_address ropts ->
        OpFns.caller f = c_caller ropts ->
        OpFns.callValue f = c_value ropts ->
        OpFns.ADDRESS f = OpFns.ADDRESS rs
        /\ OpFns.CALLER f = OpFns.CALLER rs
        /\ OpFns.CALLVALUE f = OpFns.CALLVALUE rs
        /\ forall key v f',
            OpFns.SSTORE fees key v f = OpFns.Ok tt f' ->
            OpFns.stateManager f'
            = StateManager.putContractStorage
                (snd (StateManager.getContractStorage (OpFns.stateManager f)
                        (OpFns.address rs) key))
                (OpFns.address rs) key (unpad (toArrayLike_be 32 v)))
  /\ (forall a, fst (StateManager.getAccountBalance sm_in a) = fst (OpFns.BALANCE a rs)).
Proof.
  intros Hdepth Hload Hsub callee smA sm_put sm_in ropts lo rs2.
  assert (Hctx : same_context rs rs1).
  { eapply same_context_trans.
    - pose proof (memLoad_context fees rs inOffset inLength) as H.
      rewrite Hload in H. exact H.
    - pose proof (subMemUsage_context fees rs0 outOffset outLength) as H.
      rewrite Hsub in H. exact H. }
  destruct Hctx as (Haddr & Hcaller & Horigin & Hvalue & Hprice & Hd & Hcontract & Hsm & Hblock).
  set (code := c_code ropts).
  set (args := {| OpFns.a_gasLimit :=
                    Some (Z.min gas (OpFns.gasLeft rs1 - Z.quot (OpFns.gasLeft rs1) 64));
                  OpFns.a_value := OpFns.callValue rs;
                  OpFns.a_to := Some (OpFns.address rs); OpFns.a_data := Some data;
                  OpFns.a_caller := Some (OpFns.caller rs); OpFns.a_code := Some code;
                  OpFns.a_compiled := isPrecompiled callee;
                  OpFns.a_delegatecall := true |}).
  assert (HsmA : snd (StateManager.getContractCode smA callee) = smA).
  { rewrite getContractCode_state. subst smA. rewrite getAccount_again. reflexivity. }
  assert (Hcode : fst (StateManager.getContractCode smA callee)
                  = fst (StateManager.getContractCode (OpFns.stateManager rs) callee)).
  { subst smA. unfold StateManager.getContractCode at 1. rewrite getAccount_again.
    unfold StateManager.getContractCode.
    destruct (StateManager.getAccount (OpFns.stateManager rs) callee). reflexivity. }
  assert (Hmake : forall runner,
    OpFns.DELEGATECALL fees (RunCall.runCall fees gen runner) gas toAddress
      inOffset inLength outOffset outLength rs
    = OpFns.makeCall fees (RunCall.runCall fees gen runner) rs2 args lo).
  { intros runner. unfold OpFns.DELEGATECALL, OpFns.checkCallMemCost.
    cbn [OpFns.inOffset OpFns.inLength OpFns.outOffset OpFns.outLength OpFns.truthy].
    rewrite Hload. cbn [OpFns.bind]. rewrite Hsub. cbn [OpFns.bind].
    cbn [OpFns.set_data OpFns.a_gasLimit].
    cbv beta iota zeta delta
      [OpFns.bind OpFns.checkOutOfGas OpFns.set_data OpFns.set_gasLimit OpFns.set_code
       OpFns.a_gasLimit OpFns.a_value OpFns.a_to OpFns.a_data OpFns.a_caller
       OpFns.a_code OpFns.a_compiled OpFns.a_delegatecall].
    fold callee.
    assert (Hmin : (if OpFns.gasLeft rs1 - Z.quot (OpFns.gasLeft rs1) 64 <? gas
                    then OpFns.gasLeft rs1 - Z.quot (OpFns.gasLeft rs1) 64 else gas)
                   = Z.min gas (OpFns.gasLeft rs1 - Z.quot (OpFns.gasLeft rs1) 64)).
    { destruct (Z.ltb_spec (OpFns.gasLeft rs1 - Z.quot (OpFns.gasLeft rs1) 64) gas); lia. }
    destruct (OpFns.gasLeft rs1 - Z.quot (OpFns.gasLeft rs1) 64 <? gas);
      cbn [OpFns.bind]; rewrite Hsm;
      (destruct (StateManager.getAccount (OpFns.stateManager rs) callee) as [acc smA'] eqn:EA);
      cbn [snd OpFns.stateManager OpFns.set_stateManager];
      change smA' with smA;
      unfold args, rs2, code; cbn [c_code ropts]; rewrite <- Hmin;
      destruct (isPrecompiled callee); try reflexivity;
      (destruct (StateManager.getContractCode smA callee) as [cd smB] eqn:EC);
      cbn [fst snd] in HsmA, Hcode; subst smB; rewrite <- Hcode; reflexivity. }
  assert (Haddr2 : OpFns.address rs2 = OpFns.address rs) by exact Haddr.
  pose proof (fun runner =>
    makeCall_delegate fees gen runner rs2 args lo code (OpFns.caller rs)
      eq_refl (f_equal Some (eq_sym Haddr2)) eq_refl eq_refl
      ltac:(change (OpFns.depth rs2) with (OpFns.depth rs1); rewrite Hd; exact Hdepth))
    as Hdel.
  cbn zeta in Hdel.
  assert (Hput : StateManager.with_cache (OpFns.stateManager rs2)
                   (Cache.put (StateManager.cache (OpFns.stateManager rs2))
                      (OpFns.address rs2) (OpFns.contract rs2) false) = sm_put).
  { subst sm_put rs2. cbn [OpFns.stateManager OpFns.set_stateManager OpFns.address
                           OpFns.contract]. rewrite Haddr, Hcontract. reflexivity. }
  rewrite Hput in Hdel. fold sm_in in Hdel.
  assert (Hropts : RunCall.runCodeOpts_of (OpFns.complete rs2 args) (OpFns.caller rs)
                     {| RunCall.toAccount := Cache.get (StateManager.cache sm_in) (OpFns.address rs2);
                        RunCall.toAddress := Some (OpFns.address rs2);
                        RunCall.x_createdAddress := None; RunCall.x_code := Some code;
                        RunCall.txData := OpFns.a_data args;
                        RunCall.isCompiled := OpFns.a_compiled args |}
                     (OpFns.address rs2) code = ropts).
  { subst ropts rs2 args code. unfold RunCall.runCodeOpts_of, OpFns.complete, RunCall.gasLimit_of.
    cbn. rewrite Haddr, Horigin, Hprice, Hblock, Hd. reflexivity. }
  rewrite Hropts in Hdel.
  assert (Hmain : forall runner,
      OpFns.DELEGATECALL fees (RunCall.runCall fees gen runner) gas toAddress
        inOffset inLength outOffset outLength rs
      = match runner (isPrecompiled callee) ropts sm_in with
        | (None, r, sm_r) =>
            OpFns.parseCallResults fees
              (OpFns.set_stateManager rs2 (StateManager.commit sm_r)) lo
              {| gasUsed := v_gasUsed r; createdAddress := None; vm := Ran r |}
        | (Some _, r, sm_r) =>
            match StateManager.revert sm_r with
            | Some sm' =>
                OpFns.parseCallResults fees (OpFns.set_stateManager rs2 sm') lo
                  {| gasUsed := v_gasUsed r; createdAddress := None;
                     vm := Ran (RunCall.clear_logs r) |}
            | None => OpFns.Throw JS_EXCEPTION (OpFns.set_stateManager rs2 sm_put)
            end
        end).
  { intros runner. rewrite Hmake, Hdel.
    change (OpFns.a_compiled args) with (isPrecompiled callee).
    destruct (runner (isPrecompiled callee) ropts sm_in) as [[err r] sm_r].
    unfold RunCall.integrate, RunCall.parseRunResult.
    cbn [RunCall.x_createdAddress RunCall.saveCode].
    destruct err as [e|]; [|reflexivity].
    destruct (StateManager.revert sm_r); reflexivity. }
  split; [exact Hmain|].
  split.
  { intros runner r sm_r Hr Hnone. rewrite Hmain, Hr.
    unfold OpFns.parseCallResults. cbn [vm gasUsed createdAddress]. rewrite Hnone.
    cbn [OpFns.outOffset OpFns.outLength lo]. unfold OpFns.memStore.
    destruct (v_gasRefund r) as [g|];
      cbn [OpFns.bind OpFns.stateManager OpFns.address OpFns.set_memory OpFns.set_gasLeft
           OpFns.set_gasRefund OpFns.set_logs OpFns.set_stateManager];
      rewrite ?Haddr2, ?Haddr;
      (destruct (StateManager.getAccount (StateManager.commit sm_r) (OpFns.address rs))
         as [account sm']);
      (eexists; split; [reflexivity|]);
      cbn; rewrite ?Haddr, ?Hcaller, ?Hvalue; auto 10. }
  split.
  { intros f Hfa Hfc Hfv. cbn [ropts c_address c_caller c_value] in Hfa, Hfc, Hfv.
    unfold OpFns.ADDRESS, OpFns.CALLER, OpFns.CALLVALUE.
    repeat split; try assumption.
    intros key v f' Hs. apply SSTORE_target in Hs. rewrite Hfa in Hs. exact Hs. }
  intros a. subst sm_in sm_put.
  rewrite getAccountBalance_checkpoint, getAccountBalance_put.
  unfold OpFns.BALANCE.
  destruct (bool_decide (a = OpFns.address rs)); [reflexivity|].
  destruct (StateManager.getAccountBalance (OpFns.stateManager rs) a) as [bal smx] eqn:E.
  cbn [fst]. change bal with (fst (bal, smx)). rewrite <- E.
  subst smA. apply getAccountBalance_getAccount.
Qed.

Lemma DELEGATECALL_context_witness :
  exists rs',
    OpFns.DELEGATECALL homestead (RunCall.runCall homestead gen_dd (runner_returning 3))
      1000 0xcc 0 0 0 3 (frame0 100000)
    = OpFns.Ok (Some 1) rs'
    /\ OpFns.gasLeft rs' = 100000 - 100
    /\ OpFns.address rs' = 0xaa /\ OpFns.caller rs' = 0xbb /\ OpFns.callValue rs' = 7.
Proof.
  destruct (proj1 (proj2
              (DELEGATECALL_context homestead gen_dd 1000 0xcc 0 0 0 3 (frame0 100000)
                 [] (frame0 100000) (frame0 100000)
                 ltac:(reflexivity) ltac:(reflexivity) ltac:(reflexivity)))
              (runner_returning 3) (results_returning 3) _ eq_refl eq_refl)
    as (rs' & H & Hg & _ & _ & _ & Ha & Hc & Hv).
  exists rs'. split; [exact H|]. split; [exact Hg|]. split; [exact Ha|].
  split; [exact Hc | exact Hv].
Defined.

(** Scenario 6 of the spec, with the runner that reports what the callee
    sees: the frame at [0xaa], called by [0xbb] with 7 wei, delegate-calls
    [0xcc]; the callee sees ADDRESS = [0xaa], CALLER = [0xbb] and
    CALLVALUE = 7, and the call reports success. *)
Example DELEGATECALL_preserves_context :
  exists rs',
    OpFns.DELEGATECALL homestead (RunCall.runCall homestead gen_dd runner_spy)
      1000 0xcc 0 0 0 3 (frame0 100000)
    = OpFns.Ok (Some 1) rs'
    /\ OpFns.memory rs' = [0xaa; 0xbb; 7]
    /\ balance (OpFns.contract rs') = 7.
Proof. eexists. split; [vm_compute; reflexivity|]. split; reflexivity. Qed.

(** ** Checkpoint and revert *)

(** The calls other than [Checkpoint], [Commit] and [Revert] touch neither
    the trie, nor the storage tries, nor the stack of snapshots; only [Del]
    touches the journal of deletions, which it extends. *)
Lemma step_write_frame o sm :
  match o with
  | Journal.Checkpoint | Journal.Commit | Journal.Revert => True
  | _ =>
      exists sm', Journal.step o sm = Some sm'
        /\ StateManager.trie sm' = StateManager.trie sm
        /\ StateManager._storageTries sm' = StateManager._storageTries sm
        /\ Cache._checkpoints (StateManager.cache sm')
           = Cache._checkpoints (StateManager.cache sm)
        /\ Cache._deletes (StateManager.cache sm')
           = Cache._deletes (StateManager.cache sm) ++ Journal.deleted [o]
  end.
Proof.
  destruct o as [a acc|a b|a|a| | |]; try exact I; cbn [Journal.step Journal.deleted flat_map app].
  - eexists. split; [reflexivity|].
    unfold StateManager._putAccount, Cache.put, Cache._update. cbn.
    destruct (Cache._cache (StateManager.cache sm) !! a); cbn;
      rewrite app_nil_r; auto.
  - eexists. split; [reflexivity|].
    unfold StateManager.putAccountBalance, StateManager.getAccount, Cache.getOrLoad,
      StateManager._putAccount, Cache.put, Cache._update, Cache.lookup,
      Cache._lookupAccount.
    destruct (Cache._cache (StateManager.cache sm) !! a) eqn:E; cbn; rewrite ?E; cbn;
      rewrite ?lookup_insert_eq; cbn; rewrite app_nil_r; auto.
  - eexists. split; [reflexivity|].
    unfold StateManager.getAccount, Cache.getOrLoad, Cache._update, Cache.lookup,
      Cache._lookupAccount.
    destruct (Cache._cache (StateManager.cache sm) !! a) eqn:E; cbn; rewrite ?E; cbn;
      rewrite app_nil_r; auto.
  - eexists. split; [reflexivity|]. cbn. auto.
Qed.

Lemma run_app ops o sm :
  Journal.run (ops ++ [o]) sm
  = match Journal.run ops sm with
    | Some sm' => Journal.step o sm'
    | None => None
    end.
Proof. unfold Journal.run. rewrite fold_left_app. reflexivity. Qed.

Lemma nesting_app ops o :
  Journal.nesting (ops ++ [o]) = Journal.nest (Journal.nesting ops) o.
Proof. unfold Journal.nesting. rewrite fold_left_app. reflexivity. Qed.

Lemma deleted_app ops o :
  Journal.deleted (ops ++ [o]) = Journal.deleted ops ++ Journal.deleted [o].
Proof. unfold Journal.deleted. rewrite flat_map_app. reflexivity. Qed.

(** The state after a sequence of calls that closes no checkpoint it has
    not opened, with [d] checkpoints still open: the content of the trie
    and the storage tries are those of the start, the two stacks have [d]
    more snapshots, and the journal has the deletions of the sequence. *)
Lemma run_invariant ops : forall sm d,
  Journal.nesting ops = Some d ->
  exists sm',
    Journal.run ops sm = Some sm'
    /\ Trie.content (StateManager.trie sm') = Trie.content (StateManager.trie sm)
    /\ Trie.raw (StateManager.trie sm') = Trie.raw (StateManager.trie sm)
    /\ Trie.checkpoints (StateManager.trie sm')
       = repeat (Trie.content (StateManager.trie sm)) d
         ++ Trie.checkpoints (StateManager.trie sm)
    /\ StateManager._storageTries sm' = StateManager._storageTries sm
    /\ (exists snaps, length snaps = d
          /\ Cache._checkpoints (StateManager.cache sm')
             = snaps ++ Cache._checkpoints (StateManager.cache sm))
    /\ Cache._deletes (StateManager.cache sm')
       = Cache._deletes (StateManager.cache sm) ++ Journal.deleted ops.
Proof.
  induction ops as [|o ops IH] using rev_ind; intros sm d Hn.
  - unfold Journal.nesting in Hn. cbn in Hn. injection Hn as <-. exists sm. cbn.
    rewrite app_nil_r. repeat split; try reflexivity.
    exists []. split; reflexivity.
  - rewrite nesting_app in Hn.
    destruct (Journal.nesting ops) as [d1|] eqn:Hd1; [|discriminate].
    destruct (IH sm d1 eq_refl) as (sm1 & Hrun & Hc & Hr & Hcp & Hst & (snaps & Hlen & Hsn) & Hdel).
    rewrite run_app, Hrun, deleted_app, app_assoc, <- Hdel.
    pose proof (step_write_frame o sm1) as Hw.
    destruct o as [a acc|a b|a|a| | |];
      try (unfold Journal.nest in Hn; destruct d1; injection Hn as <-;
           destruct Hw as (sm' & Hs & Ht & Hst' & Hcp' & Hdel');
           exists sm'; rewrite Ht, Hst', Hcp', Hdel';
           repeat split; try assumption; eauto).
    + (* Checkpoint *)
      unfold Journal.nest in Hn. destruct d1; injection Hn as <-.
      all: eexists; (split; [reflexivity|]);
        cbn; rewrite Hc, Hr, Hcp, Hst, app_nil_r.
      all: repeat split.
      all: exists (Cache._cache (StateManager.cache sm1) :: snaps).
      all: cbn; rewrite Hlen, Hsn; split; reflexivity.
    + (* Commit *)
      destruct d1 as [|d1]; cbn in Hn; [discriminate|]. injection Hn as <-.
      eexists. split; [reflexivity|].
      cbn. rewrite Hc, Hr, Hcp, Hst, Hsn, app_nil_r.
      destruct snaps as [|s snaps]; [discriminate|]. cbn in Hlen.
      repeat split.
      exists snaps. split; [lia|reflexivity].
    + (* Revert *)
      destruct d1 as [|d1]; cbn in Hn; [discriminate|]. injection Hn as <-.
      destruct snaps as [|s snaps]; [discriminate|]. cbn in Hlen.
      cbn [Journal.step]. unfold StateManager.revert, Cache.revert, Trie.revert.
      rewrite Hsn, Hcp. cbn.
      eexists. split; [reflexivity|].
      cbn. rewrite Hr, Hst, app_nil_r.
      repeat split.
      exists snaps. split; [lia|reflexivity].
Qed.

(** C1, as the code has it.  After [checkpoint()], any sequence of account
    writes, reads and deletions with its own checkpoints closed, and
    [revert()], the state is the one before the checkpoint (trie, storage
    tries, accounts of the cache and stack of snapshots), except for the
    journal of deletions, which keeps the addresses deleted in between; a
    sequence without deletions restores the state exactly. *)
Theorem checkpoint_revert_restores ops sm :
  Journal.balanced ops ->
  Journal.checkpoint_run_revert ops sm = Some (with_deletions sm (Journal.deleted ops))
  /\ (Journal.deleted ops = [] -> Journal.checkpoint_run_revert ops sm = Some sm).
Proof.
  intros Hb.
  assert (H : Journal.checkpoint_run_revert ops sm
              = Some (with_deletions sm (Journal.deleted ops))).
  { unfold Journal.checkpoint_run_revert.
    destruct (run_invariant ops (StateManager.checkpoint sm) O Hb)
      as (sm' & Hrun & Hc & Hr & Hcp & Hst & (snaps & Hlen & Hsn) & Hdel).
    rewrite Hrun.
    destruct snaps; [|discriminate].
    destruct sm as [[tc tcp tr] st [c cp dl]].
    destruct sm' as [[tc' tcp' tr'] st' [c' cp' dl']].
    cbn in *. subst.
    reflexivity. }
  split; [exact H|].
  intros Hnil. rewrite H, Hnil.
  unfold with_deletions. rewrite app_nil_r.
  destruct sm as [tr st [c cp dl]]. reflexivity.
Qed.

Lemma checkpoint_revert_restores_witness :
  Journal.checkpoint_run_revert
    [Journal.PutBalance 1 9; Journal.Checkpoint; Journal.Del 1; Journal.Commit;
     Journal.GetAccount 3]
    sm_one_account
  = Some (with_deletions sm_one_account [1]).
Proof.
  apply (checkpoint_revert_restores
           [Journal.PutBalance 1 9; Journal.Checkpoint; Journal.Del 1; Journal.Commit;
            Journal.GetAccount 3]
           sm_one_account).
  reflexivity.
Defined.

(** C1 as stated fails on a deletion: after [checkpoint(); del(1);
    revert()] on the fresh state, the journal of deletions holds [1]. *)
Lemma checkpoint_revert_keeps_deletion :
  Journal.balanced [Journal.Del 1]
  /\ Journal.checkpoint_run_revert [Journal.Del 1] sm0 <> Some sm0.
Proof.
  split; [reflexivity|].
  vm_compute. intros H. inversion H.
Qed.

(** The difference shows at the next flush: before the checkpoint a flush
    keeps the account [1] in the trie; after [checkpoint(); del(1);
    revert()] the flush deletes it. *)
Example deletion_survives_revert_at_flush :
  (exists s, StateManager.cacheFlush sm_one_account = Some s
             /\ is_Some (Trie.get (StateManager.trie s) 1))
  /\ (exists s1 s2,
         Journal.checkpoint_run_revert [Journal.Del 1] sm_one_account = Some s1
         /\ StateManager.cacheFlush s1 = Some s2
         /\ Trie.get (StateManager.trie s2) 1 = None).
Proof.
  split.
  - eexists. split; [vm_compute; reflexivity|]. vm_compute. eauto.
  - eexists. eexists. split; [vm_compute; reflexivity|].
    split; [vm_compute; reflexivity|]. vm_compute. reflexivity.
Qed.

(** ** Block processing *)

(** C8.  A block with at least one transaction that fits the block gas
    limit and that [runTx] applies without error: whether or not the nested
    functions see the VM as [this], [processTransactions] ends in a thrown
    exception while it handles the first transaction, its callback is never
    called, and at most one receipt has been appended.  (With [this] bound,
    the receipt is appended and the increment of the constant
    [validReceiptCount] throws; as written, [this.runTx] throws before.) *)
Theorem processTransactions_throws runTx this_vm generate block tx txs s :
  transactions block = tx :: txs ->
  tx_gasLimit tx + RunBlock.gasUsed s <= header_gasLimit block ->
  (runTx tx block (RunBlock.vmState s)).1.1 = None ->
  exists s',
    RunBlock.processTransactions runTx this_vm generate block s = RunBlock.Thrown s'
    /\ (length (RunBlock.receipts s') <= length (RunBlock.receipts s) + 1)%nat.
Proof.
  intros Htx Hfit Hok.
  unfold RunBlock.processTransactions. rewrite Htx. cbn [RunBlock.eachSeries].
  unfold RunBlock.processTx.
  assert (Hlt : (header_gasLimit block <? tx_gasLimit tx + RunBlock.gasUsed s) = false)
    by (apply Z.ltb_ge; lia).
  rewrite Hlt.
  destruct this_vm.
  - destruct (runTx tx block (RunBlock.vmState s)) as [[err result] sm] eqn:E.
    cbn in Hok. subst err.
    unfold RunBlock.parseTxResult.
    destruct result as [result|].
    + eexists. split; [reflexivity|]. cbn [RunBlock.receipts].
      rewrite length_app. cbn [length]. lia.
    + eexists. split; [reflexivity|]. cbn [RunBlock.receipts]. lia.
  - eexists. split; [reflexivity|]. lia.
Qed.

Lemma processTransactions_throws_witness :
  exists s',
    RunBlock.processTransactions runTx_ok true false block2 (RunBlock.initial sm0)
    = RunBlock.Thrown s'
    /\ (length (RunBlock.receipts s') <= 1)%nat.
Proof.
  destruct (processTransactions_throws runTx_ok true false block2
              (transfer 0xaa) [transfer 0xcc] (RunBlock.initial sm0)
              eq_refl ltac:(vm_compute; discriminate) eq_refl)
    as (s' & H & Hlen).
  exists s'. split; [exact H | exact Hlen].
Defined.

(** The block of two transfers, both successful: one receipt, the second
    transaction never run. *)
Example two_transfers_one_receipt :
  exists s',
    RunBlock.processTransactions runTx_ok true false block2 (RunBlock.initial sm0)
    = RunBlock.Thrown s'
    /\ length (RunBlock.receipts s') = 1%nat
    /\ length (RunBlock.txResults s') = 1%nat
    /\ length (transactions block2) = 2%nat.
Proof. eexists. split; [reflexivity|]. repeat split. Qed.

(** As the source is written, [runBlock] throws in [beforeBlock], before
    any transaction is processed. *)
Lemma runBlock_tasks_throws runTx generate block sm :
  exists s, RunBlock.runBlock_tasks runTx generate block sm = RunBlock.Thrown s
            /\ RunBlock.receipts s = [].
Proof. eexists. split; reflexivity. Qed.

(** A block without transactions is processed without a receipt. *)
Lemma processTransactions_empty runTx this_vm generate block s :
  transactions block = [] ->
  RunBlock.processTransactions runTx this_vm generate block s = RunBlock.Done s.
Proof. intros H. unfold RunBlock.processTransactions. rewrite H. reflexivity. Qed.

(** ** More on the Bloom filter *)

Lemma bloom_check_after_add_low_slices_witness :
  Bloom.check [40] (Bloom.add [40] Bloom.empty) = true.
Proof.
  apply (bloom_check_after_add_low_slices [40] Bloom.empty).
  - reflexivity.
  - intros i [<-|[<-|[<-|[]]]]; vm_compute; reflexivity.
Defined.

Lemma land_bit_zero x k :
  0 <= k -> (Z.land x (Z.shiftl 1 k) =? 0) = negb (Z.testbit x k).
Proof.
  intros Hk. rewrite Z.shiftl_1_l.
  destruct (Z.testbit x k) eqn:Hb; cbn [negb].
  - apply Z.eqb_neq. intros Hz.
    apply (f_equal (fun y => Z.testbit y k)) in Hz.
    rewrite Z.land_spec, Z.pow2_bits_eqb, Hb, Z.eqb_refl, Z.bits_0 in Hz by lia.
    discriminate.
  - apply Z.eqb_eq. apply Z.bits_inj'. intros n Hn.
    rewrite Z.land_spec, Z.pow2_bits_eqb, Z.bits_0 by lia.
    destruct (Z.eqb_spec k n) as [->|]; [rewrite Hb; reflexivity | apply andb_false_r].
Qed.

(** [check] answers [true] exactly when the three bits it looks at are
    set. *)
Lemma check_loop_spec h bv idxs m :
  Bloom.check_loop h bv idxs m <> 0
  <-> m <> 0 /\ Forall (fun i => has_bit bv (Z.land 511 (readUInt16BE h (i * 2)))) idxs.
Proof.
  revert m. induction idxs as [|i idxs IH]; intros m; cbn [Bloom.check_loop].
  - split; [intros H; split; [exact H | constructor] | intros [H _]; exact H].
  - destruct (Z.eqb_spec m 0) as [->|Hm].
    + split; [intros H; contradiction | intros [H _]; contradiction].
    + rewrite IH.
      set (s := Z.land 511 (readUInt16BE h (i * 2))).
      assert (Hk : 0 <= s mod 8 < 8) by (apply Z.mod_pos_bound; lia).
      assert (Hbit : Z.land (buf_get bv (Bloom.byteSize - Z.shiftr s 3 - 1))
                       (Z.shiftl 1 (s mod 8)) <> 0 <-> has_bit bv s).
      { unfold has_bit. rewrite <- Z.eqb_neq, land_bit_zero by lia.
        destruct (Z.testbit _ _); cbn; split; congruence. }
      rewrite Hbit. split.
      * intros [H1 H2]. split; [exact Hm | constructor; assumption].
      * intros [_ H]. inversion H; subst. split; assumption.
Qed.

Lemma check_spec e bv :
  Bloom.check e bv = true
  <-> Forall (fun i => has_bit bv (Z.land 511 (readUInt16BE (sha3 e) (i * 2)))) [0; 1; 2].
Proof.
  unfold Bloom.check. rewrite negb_true_iff, Z.eqb_neq, check_loop_spec.
  split; [intros [_ H]; exact H | intros H; split; [discriminate | exact H]].
Qed.

Lemma slice9_bounds x : 0 <= Z.land 511 x < 2048.
Proof.
  rewrite Z.land_comm. change 511 with (Z.ones 9). rewrite Z.land_ones by lia.
  pose proof (Z.mod_pos_bound x (2 ^ 9) ltac:(reflexivity)). 
  change (2 ^ 9) with 512 in *. lia.
Qed.

(** X2.  [add] only sets bits: an element that [check] finds in the filter is
    still found after any other element is added. *)
Theorem bloom_add_keeps_members e e' bv :
  length bv = 256%nat ->
  Bloom.check e' bv = true ->
  Bloom.check e' (Bloom.add e bv) = true
  /\ length (Bloom.add e bv) = 256%nat.
Proof.
  intros Hlen Hc. split.
  - rewrite check_spec in *. unfold Bloom.add. cbn [fold_left].
    eapply Forall_impl; [exact Hc|]. intros i Hi. cbn beta in *.
    pose proof (slice9_bounds (readUInt16BE (sha3 e') (i * 2))) as Hb.
    apply add_step_has_bit; [rewrite !add_step_length; exact Hlen | exact Hb | right].
    apply add_step_has_bit; [rewrite !add_step_length; exact Hlen | exact Hb | right].
    apply add_step_has_bit; [exact Hlen | exact Hb | right; exact Hi].
  - unfold Bloom.add. cbn [fold_left]. rewrite !add_step_length. exact Hlen.
Qed.

Lemma bloom_add_keeps_members_witness :
  Bloom.check [40] (Bloom.add [] (Bloom.add [40] Bloom.empty)) = true.
Proof.
  apply (bloom_add_keeps_members [] [40] (Bloom.add [40] Bloom.empty)).
  - reflexivity.
  - vm_compute. reflexivity.
Defined.

(** The bytes of [a.or(b)]: the bitwise or of the bytes of [a] and [b], in
    the 256 places of [a]; the store at index 256 changes nothing. *)
Lemma or_loop_get (a b : list Z) n :
  let r := fold_left (fun bv i => let i := Z.of_nat i in
                        buf_set bv i (Z.lor (buf_get bv i) (buf_get b i)))
                     (seq 0 n) a in
  length r = length a
  /\ forall j, 0 <= j ->
       buf_get r j = if (j <? Z.of_nat n) && (j <? Z.of_nat (length a))
                     then Z.land (Z.lor (buf_get a j) (buf_get b j)) 255
                     else buf_get a j.
Proof.
  induction n as [|n [IHl IHg]]; cbn zeta in *.
  - split; [reflexivity|]. intros j Hj. destruct (Z.ltb_spec j (Z.of_nat 0)); [lia|reflexivity].
  - rewrite seq_S, fold_left_app. cbn [fold_left Nat.add].
    set (r := fold_left _ (seq 0 n) a) in *.
    split; [rewrite buf_set_length; exact IHl|].
    intros j Hj.
    assert (Hrn : buf_get r (Z.of_nat n) = buf_get a (Z.of_nat n)).
    { rewrite IHg by lia. destruct (Z.ltb_spec (Z.of_nat n) (Z.of_nat n)); [lia|reflexivity]. }
    destruct (Z.eq_dec j (Z.of_nat n)) as [->|Hne].
    + destruct (Z.ltb_spec (Z.of_nat n) (Z.of_nat (S n))); [|lia]. cbn [andb].
      destruct (Z.ltb_spec (Z.of_nat n) (Z.of_nat (length a))).
      * rewrite buf_get_set_eq by lia. rewrite Hrn. reflexivity.
      * unfold buf_set. destruct (Z.ltb_spec (Z.of_nat n) 0); [lia|].
        rewrite list_insert_ge by lia. exact Hrn.
    + rewrite buf_get_set_ne by lia. rewrite IHg by lia.
      destruct (Z.ltb_spec j (Z.of_nat n)), (Z.ltb_spec j (Z.of_nat (S n))); try lia; reflexivity.
Qed.

(** X3.  [or] keeps the members of both filters: what [check] finds in [a] or
    in [b] it finds in [a.or(b)], which still has 256 bytes. *)
Theorem bloom_or_keeps_members e a b :
  length a = 256%nat ->
  Bloom.check e a = true \/ Bloom.check e b = true ->
  Bloom.check e (Bloom.or a (Some b)) = true
  /\ length (Bloom.or a (Some b)) = 256%nat.
Proof.
  intros Hlen H.
  destruct (or_loop_get a b 257) as [Hl Hg]. cbn zeta in *.
  unfold Bloom.or. split; [|rewrite Hl; exact Hlen].
  rewrite !check_spec in *.
  assert (Himp : forall loc, 0 <= loc < 2048 ->
            has_bit a loc \/ has_bit b loc ->
            has_bit (fold_left (fun bv i => let i := Z.of_nat i in
                        buf_set bv i (Z.lor (buf_get bv i) (buf_get b i)))
                     (seq 0 257) a) loc).
  { intros loc Hloc Hab. unfold has_bit, Bloom.byteSize in *.
    rewrite Z.shiftr_div_pow2 in * by lia. change (2 ^ 3) with 8 in *.
    assert (0 <= loc / 8 < 256) by (split; [apply Z.div_pos; lia | apply Z.div_lt_upper_bound; lia]).
    pose proof (Z.mod_pos_bound loc 8 ltac:(lia)).
    rewrite Hg by lia. rewrite Hlen.
    destruct (Z.ltb_spec (256 - loc / 8 - 1) (Z.of_nat 257)); [|lia].
    destruct (Z.ltb_spec (256 - loc / 8 - 1) (Z.of_nat 256)); [|lia].
    cbn [andb].
    rewrite Z.land_spec, Z.lor_spec. change 255 with (Z.ones 8).
    rewrite Z.ones_spec_low by lia. rewrite andb_true_r.
    apply orb_true_iff. exact Hab. }
  destruct H as [H|H]; (eapply Forall_impl; [exact H|]); intros i Hi; cbn beta in *;
    (apply Himp; [apply slice9_bounds|]); tauto.
Qed.

Lemma bloom_or_keeps_members_witness :
  Bloom.check [40] (Bloom.or Bloom.empty (Some (Bloom.add [40] Bloom.empty))) = true.
Proof.
  apply (bloom_or_keeps_members [40] Bloom.empty (Bloom.add [40] Bloom.empty)).
  - reflexivity.
  - right. vm_compute. reflexivity.
Defined.

(** X4.  [multiCheck] answers [true] whatever the topics and the filter, also
    for a topic that [check] does not find. *)
Theorem multiCheck_always_true topics bv :
  Bloom.multiCheck topics bv = true
  /\ Bloom.check [] Bloom.empty = false.
Proof.
  split; [|vm_compute; reflexivity].
  unfold Bloom.multiCheck.
  induction topics as [|t topics IH]; [reflexivity|]. exact IH.
Qed.

(** ** Writing the cache back *)

Lemma fold_del_get (dels : list Z) : forall tr k,
  Trie.get (fold_left Trie.del dels tr) k
  = if bool_decide (k ∈ dels) then None else Trie.get tr k.
Proof.
  induction dels as [|d dels IH]; intros tr k; cbn [fold_left].
  - rewrite bool_decide_eq_false_2 by (apply not_elem_of_nil). reflexivity.
  - rewrite IH. unfold Trie.get, Trie.del. cbn [Trie.content].
    destruct (decide (k = d)) as [->|Hne].
    + rewrite lookup_delete_eq.
      rewrite (bool_decide_eq_true_2 (d ∈ d :: dels)) by (left).
      destruct (bool_decide (d ∈ dels)); reflexivity.
    + rewrite lookup_delete_ne by congruence.
      destruct (bool_decide (k ∈ dels)) eqn:E.
      * apply bool_decide_eq_true_1 in E.
        rewrite bool_decide_eq_true_2 by (right; exact E). reflexivity.
      * apply bool_decide_eq_false_1 in E.
        rewrite bool_decide_eq_false_2; [reflexivity|].
        intros H. apply elem_of_cons in H. destruct H; [congruence|contradiction].
Qed.

Lemma fold_del_rest (dels : list Z) tr :
  Trie.checkpoints (fold_left Trie.del dels tr) = Trie.checkpoints tr
  /\ Trie.raw (fold_left Trie.del dels tr) = Trie.raw tr.
Proof.
  revert tr. induction dels as [|d dels IH]; intros tr; cbn [fold_left]; [auto|].
  destruct (IH (Trie.del tr d)) as [-> ->]. auto.
Qed.

Lemma fold_put_get (l : list (Z * Cache.entry)) : forall tr k,
  NoDup (l.*1) ->
  Trie.get (fold_left (fun tr '(key, e) =>
                         if Cache.modified e then Trie.put tr key (serialize (Cache.val e))
                         else tr) l tr) k
  = match (list_to_map l : gmap Z Cache.entry) !! k with
    | Some e => if Cache.modified e then Some (serialize (Cache.val e)) else Trie.get tr k
    | None => Trie.get tr k
    end.
Proof.
  induction l as [|[k0 e0] l IH]; intros tr k Hnd; cbn [fold_left].
  - reflexivity.
  - cbn in Hnd. apply NoDup_cons in Hnd. destruct Hnd as [Hnotin Hnd].
    rewrite IH by exact Hnd. cbn [list_to_map foldr]. 
    destruct (decide (k0 = k)) as [->|Hne].
    + rewrite lookup_insert_eq.
      rewrite (not_elem_of_list_to_map_1 _ _ Hnotin).
      cbn [snd fst]. destruct (Cache.modified e0); [|reflexivity].
      unfold Trie.get, Trie.put. cbn. apply lookup_insert_eq.
    + rewrite lookup_insert_ne by exact Hne.
      assert (Hget : Trie.get (if Cache.modified e0
                               then Trie.put tr k0 (serialize (Cache.val e0)) else tr) k
                     = Trie.get tr k).
      { destruct (Cache.modified e0); [|reflexivity].
        unfold Trie.get, Trie.put. cbn. apply lookup_insert_ne. exact Hne. }
      rewrite Hget. reflexivity.
Qed.

Lemma fold_put_rest (l : list (Z * Cache.entry)) : forall tr,
  let tr' := fold_left (fun tr '(key, e) =>
                         if Cache.modified e then Trie.put tr key (serialize (Cache.val e))
                         else tr) l tr in
  Trie.checkpoints tr' = Trie.checkpoints tr /\ Trie.raw tr' = Trie.raw tr.
Proof.
  induction l as [|[k0 e0] l IH]; intros tr; cbn [fold_left]; [auto|].
  cbv zeta in *. destruct (IH (if Cache.modified e0
                               then Trie.put tr k0 (serialize (Cache.val e0)) else tr)) as [-> ->].
  destruct (Cache.modified e0); auto.
Qed.

Lemma fold_put_clean (l : list (Z * Cache.entry)) : forall tr,
  Forall (fun ke => Cache.modified ke.2 = false) l ->
  fold_left (fun tr '(key, e) =>
               if Cache.modified e then Trie.put tr key (serialize (Cache.val e))
               else tr) l tr = tr.
Proof.
  induction l as [|[k0 e0] l IH]; intros tr H; cbn [fold_left]; [reflexivity|].
  apply Forall_cons in H. destruct H as [H0 H]. cbn in H0. rewrite H0. apply IH, H.
Qed.

(** X5.  [flush] writes every modified entry of the cache to the trie, leaves
    the trie's other accounts as they are, then deletes the journaled
    addresses, also those put again after their deletion; the accounts
    the cache hands out stay the same, its entries are clean and its
    journal is empty. *)
Theorem flush_writes_back c tr c' tr' :
  Cache.flush c tr = Some (c', tr') ->
  (forall k, Trie.get tr' k =
     if bool_decide (k ∈ Cache._deletes c) then None
     else match Cache._cache c !! k with
          | Some e => if Cache.modified e then Some (serialize (Cache.val e))
                      else Trie.get tr k
          | None => Trie.get tr k
          end)
  /\ Cache._deletes c' = []
  /\ (forall k, Cache.lookup c' k = Cache.lookup c k)
  /\ (forall k e, Cache._cache c' !! k = Some e -> Cache.modified e = false)
  /\ Trie.checkpoints tr' = Trie.checkpoints tr
  /\ Trie.raw tr' = Trie.raw tr.
Proof.
  unfold Cache.flush. case_bool_decide as Hne; [discriminate|].
  intros H. injection H as <- <-. cbn [Cache._deletes Cache._cache].
  split; [|split; [|split; [|split]]].
  - intros k. rewrite fold_del_get.
    rewrite fold_put_get by apply NoDup_fst_map_to_list.
    rewrite list_to_map_to_list. reflexivity.
  - reflexivity.
  - intros k. unfold Cache.lookup. cbn [Cache._cache]. rewrite lookup_fmap.
    destruct (Cache._cache c !! k); reflexivity.
  - intros k e. rewrite lookup_fmap.
    destruct (Cache._cache c !! k); cbn; [|discriminate].
    intros H. injection H as <-. reflexivity.
  - destruct (fold_del_rest (Cache._deletes c)
               (fold_left (fun tr '(key, e) =>
                  if Cache.modified e then Trie.put tr key (serialize (Cache.val e))
                  else tr) (map_to_list (Cache._cache c)) tr)) as [-> ->].
    apply fold_put_rest.
Qed.

Lemma flush_writes_back_witness :
  let c := Cache.del (Cache.put (Cache.put Cache.empty 1 (set_balance new_Account 5) false)
                                2 (set_balance new_Account 7) false) 3 in
  let tr := Trie.put (Trie.put Trie.empty 3 (serialize new_Account)) 4 (serialize new_Account) in
  exists c' tr', Cache.flush c tr = Some (c', tr')
    /\ Trie.get tr' 1 = Some (serialize (set_balance new_Account 5))
    /\ Trie.get tr' 3 = None
    /\ Trie.get tr' 4 = Some (serialize new_Account).
Proof.
  intros c tr.
  destruct (Cache.flush c tr) as [[c' tr']|] eqn:E; [|vm_compute in E; discriminate].
  exists c', tr'. split; [reflexivity|].
  destruct (flush_writes_back c tr c' tr' E) as [H _].
  rewrite (H 1), (H 3), (H 4). vm_compute. auto.
Defined.

(** X6.  A second [flush] right after a [flush] changes neither the trie nor
    the cache. *)
Theorem flush_twice c tr c' tr' :
  Cache.flush c tr = Some (c', tr') ->
  Cache.flush c' tr' = Some (c', tr').
Proof.
  unfold Cache.flush. case_bool_decide as Hne; [discriminate|].
  intros H. injection H as <- <-. cbn [Cache._deletes Cache._cache Cache._checkpoints].
  rewrite bool_decide_eq_false_2.
  2:{ intros H. apply fmap_empty_inv in H. contradiction. }
  cbn [fold_left]. rewrite <- map_fmap_compose.
  rewrite fold_put_clean.
  2:{ apply Forall_forall. intros [k e] Hin. apply elem_of_map_to_list in Hin.
      rewrite lookup_fmap in Hin. cbn.
      destruct (Cache._cache c !! k); cbn in Hin; [|discriminate].
      injection Hin as <-. reflexivity. }
  reflexivity.
Qed.

Lemma flush_twice_witness :
  let c := Cache.put Cache.empty 1 (set_balance new_Account 5) false in
  exists c' tr', Cache.flush c Trie.empty = Some (c', tr')
                 /\ Cache.flush c' tr' = Some (c', tr').
Proof.
  intros c.
  destruct (Cache.flush c Trie.empty) as [[c' tr']|] eqn:E; [|vm_compute in E; discriminate].
  exists c', tr'. split; [reflexivity|].
  exact (flush_twice c Trie.empty c' tr' E).
Defined.

(** ** Warming the cache *)

Lemma update_lookup c key v m ex k :
  Cache._cache (Cache._update c key v m ex) !! k
  = if bool_decide (k = key)
    then Some {| Cache.val := v; Cache.modified := m;
                 Cache.exists_e := match Cache._cache c !! key with
                                   | Some _ => true | None => ex end |}
    else Cache._cache c !! k.
Proof.
  unfold Cache._update. case_bool_decide as Hk.
  - subst k. destruct (Cache._cache c !! key); cbn [Cache._cache];
      rewrite lookup_insert_eq; reflexivity.
  - destruct (Cache._cache c !! key); cbn [Cache._cache];
      rewrite lookup_insert_ne by congruence; reflexivity.
Qed.

Lemma update_rest c key v m ex :
  Cache._checkpoints (Cache._update c key v m ex) = Cache._checkpoints c
  /\ Cache._deletes (Cache._update c key v m ex) = Cache._deletes c.
Proof. unfold Cache._update. destruct (Cache._cache c !! key); auto. Qed.

(** X7.  After [warm], every listed address has a clean entry in the cache
    holding the account the trie has for it (the empty account when the
    trie has none), whatever the cache held for it before, unsaved changes
    included; an address that is not listed keeps its entry. *)
Theorem warm_overwrites tr addresses : forall c a,
  (a ∈ addresses ->
     exists e, Cache._cache (Cache.warm c tr addresses) !! a = Some e
       /\ Cache.modified e = false
       /\ Cache.val e = fst (Cache._lookupAccount tr a))
  /\ (a ∉ addresses ->
        Cache._cache (Cache.warm c tr addresses) !! a = Cache._cache c !! a).
Proof.
  unfold Cache.warm.
  induction addresses as [|x l IH]; intros c a; cbn [fold_left].
  - split; [intros H; apply elem_of_nil in H; contradiction | reflexivity].
  - set (c1 := let '(account, _) := Cache._lookupAccount tr x in
               Cache._update c x account false (exists_ account)).
    destruct (IH c1 a) as [IHin IHout].
    assert (Hc1 : forall k, Cache._cache c1 !! k
                  = if bool_decide (k = x)
                    then Some {| Cache.val := fst (Cache._lookupAccount tr x);
                                 Cache.modified := false;
                                 Cache.exists_e :=
                                   match Cache._cache c !! x with
                                   | Some _ => true
                                   | None => exists_ (fst (Cache._lookupAccount tr x))
                                   end |}
                    else Cache._cache c !! k).
    { intros k. subst c1. unfold Cache._lookupAccount. cbn [fst]. apply update_lookup. }
    split.
    + intros Hin. destruct (decide (a ∈ l)) as [Hl|Hl]; [exact (IHin Hl)|].
      apply elem_of_cons in Hin. destruct Hin as [->|Hin]; [|contradiction].
      rewrite (IHout Hl), Hc1, bool_decide_eq_true_2 by reflexivity.
      eexists. split; [reflexivity|]. split; reflexivity.
    + intros Hout. apply not_elem_of_cons in Hout. destruct Hout as [Hne Hl].
      rewrite (IHout Hl), Hc1, bool_decide_eq_false_2 by exact Hne. reflexivity.
Qed.

Lemma warm_overwrites_witness :
  exists e,
    Cache._cache (Cache.warm (Cache.put Cache.empty 1 (set_balance new_Account 5) false)
                    Trie.empty [1; 2]) !! 1 = Some e
    /\ Cache.modified e = false
    /\ Cache.val e = fst (Cache._lookupAccount Trie.empty 1).
Proof.
  apply (warm_overwrites Trie.empty [1; 2]). left.
Defined.

(** ** Balances *)

(** X8.  After [putAccountBalance] the state manager reports the new balance
    for the address, which now exists, and the former balance for every
    other address. *)
Theorem putAccountBalance_getAccountBalance sm a b a' :
  fst (StateManager.getAccountBalance (StateManager.putAccountBalance sm a b) a')
  = (if bool_decide (a' = a) then b else fst (StateManager.getAccountBalance sm a'))
  /\ fst (StateManager.exists' (StateManager.putAccountBalance sm a b) a) = true.
Proof.
  unfold StateManager.putAccountBalance.
  pose proof (getAccountBalance_getAccount sm a a') as Hload.
  destruct (StateManager.getAccount sm a) as [account sm1] eqn:E. cbn [snd] in Hload.
  unfold StateManager._putAccount. split.
  - rewrite getAccountBalance_put. cbn [balance set_balance]. rewrite Hload. reflexivity.
  - unfold StateManager.exists', StateManager.getAccount, Cache.getOrLoad, Cache.lookup,
      Cache.put. cbn [StateManager.cache StateManager.with_cache].
    rewrite update_lookup, bool_decide_eq_true_2 by reflexivity. cbn.
    destruct (Cache._cache (StateManager.cache sm1) !! a); reflexivity.
Qed.

(** ** Contract code *)

(** X9.  The code read back for an address after [putContractCode] is the
    code written; code whose hash is the hash of the empty code reads back
    as the empty code. *)
Theorem putContractCode_getContractCode sm address code :
  fst (StateManager.getContractCode (StateManager.putContractCode sm address code) address)
  = if bool_decide (sha3 code = SHA3_NULL) then [] else code.
Proof.
  case_bool_decide as Hh; [|apply getContractCode_putContractCode; exact Hh].
  destruct (putContractCode_stores sm address code) as [Hc _]. cbv zeta in Hc.
  unfold StateManager.getContractCode, StateManager.getAccount, Cache.getOrLoad.
  unfold Cache.get in Hc.
  destruct (Cache.lookup (StateManager.cache (StateManager.putContractCode sm address code))
              address) as [acc|] eqn:El.
  - cbn [fst]. unfold getCode, isContract. rewrite Hc, Hh.
    rewrite bool_decide_eq_true_2 by reflexivity. reflexivity.
  - exfalso. revert El. unfold StateManager.putContractCode.
    destruct (StateManager.getAccount sm address) as [account sm1].
    unfold setCode, StateManager._putAccount, Cache.lookup, Cache.put.
    cbn [StateManager.cache StateManager.with_cache StateManager.with_trie].
    rewrite update_lookup, bool_decide_eq_true_2 by reflexivity. discriminate.
Qed.

(** Where [getContractStorage] reads a slot: in the cached storage trie of
    the address, else below the [stateRoot] of the cached account, else
    below the one of the account in the trie. *)
Lemma getContractStorage_eq sm a k :
  fst (StateManager.getContractStorage sm a k)
  = default []
      (match StateManager._storageTries sm !! a with
       | Some st => st
       | None =>
           match Cache._cache (StateManager.cache sm) !! a with
           | Some e => stateRoot (Cache.val e)
           | None => stateRoot (Account_of_raw (Trie.get (StateManager.trie sm) a))
           end
       end !! k).
Proof.
  unfold StateManager.getContractStorage, StateManager._getStorageTrie,
    StateManager._lookupStorageTrie, StateManager.getAccount, Cache.getOrLoad,
    Cache.lookup, Cache._lookupAccount.
  destruct (StateManager._storageTries sm !! a); [reflexivity|].
  destruct (Cache._cache (StateManager.cache sm) !! a); reflexivity.
Qed.

(** What [putContractStorage] leaves alone: the trie, and the cached
    storage trie and the cached account of every other address. *)
Lemma putContractStorage_frame sm a k v a' :
  a' <> a ->
  let sm' := StateManager.putContractStorage sm a k v in
  StateManager.trie sm' = StateManager.trie sm
  /\ StateManager._storageTries sm' !! a' = StateManager._storageTries sm !! a'
  /\ Cache._cache (StateManager.cache sm') !! a'
     = Cache._cache (StateManager.cache sm) !! a'.
Proof.
  intros Hne. cbv zeta. unfold StateManager.putContractStorage,
    StateManager._getStorageTrie, StateManager._lookupStorageTrie,
    StateManager.getAccount, Cache.getOrLoad, Cache.lookup, Cache._lookupAccount,
    StateManager._putAccount, Cache.put, Cache._update.
  destruct (StateManager._storageTries sm !! a) eqn:Es;
    [|destruct (Cache._cache (StateManager.cache sm) !! a) eqn:Ec];
    cbn [StateManager.with_cache StateManager.cache StateManager.trie
         StateManager._storageTries Cache._cache fst snd];
    rewrite ?Ec; cbn [Cache._cache];
    repeat match goal with
           | |- context [match ?m !! a with _ => _ end] => destruct (m !! a)
           end;
    cbn [StateManager.with_cache StateManager.cache StateManager.trie
         StateManager._storageTries Cache._cache];
    rewrite ?lookup_insert_ne by congruence; auto.
Qed.

(** X10.  A slot read after [putContractStorage] holds the value written when
    it is the slot written (the empty buffer after a deletion), and what
    it held before otherwise: the other slots of the address and all slots
    of the other addresses are untouched. *)
Theorem putContractStorage_getContractStorage sm a k v a' k' :
  fst (StateManager.getContractStorage (StateManager.putContractStorage sm a k v) a' k')
  = if bool_decide (a' = a /\ k' = k) then v
    else fst (StateManager.getContractStorage sm a' k').
Proof.
  destruct (decide (a' = a)) as [->|Hne].
  - rewrite getContractStorage_putContractStorage.
    case_bool_decide as H1; case_bool_decide as H2; try reflexivity.
    + exfalso. apply H2. auto.
    + destruct H2. congruence.
  - rewrite bool_decide_eq_false_2 by (intros [? _]; contradiction).
    rewrite !getContractStorage_eq.
    destruct (putContractStorage_frame sm a k v a' Hne) as (-> & -> & ->). reflexivity.
Qed.

(** What [putContractStorage] does to the other components: the trie and
    the stack of snapshots stay, and the storage trie cached for the
    address answers with the value written. *)
Lemma putContractStorage_shape sm a k v :
  let sm' := StateManager.putContractStorage sm a k v in
  StateManager.trie sm' = StateManager.trie sm
  /\ Cache._checkpoints (StateManager.cache sm') = Cache._checkpoints (StateManager.cache sm)
  /\ exists st, StateManager._storageTries sm' !! a = Some st /\ default [] (st !! k) = v.
Proof.
  cbv zeta. unfold StateManager.putContractStorage.
  destruct (StateManager._getStorageTrie sm a) as [st sm1] eqn:E.
  assert (H1 : StateManager.trie sm1 = StateManager.trie sm
               /\ Cache._checkpoints (StateManager.cache sm1)
                  = Cache._checkpoints (StateManager.cache sm)).
  { revert E. unfold StateManager._getStorageTrie, StateManager._lookupStorageTrie,
      StateManager.getAccount, Cache.getOrLoad, Cache.lookup, Cache._lookupAccount,
      Cache._update.
    destruct (StateManager._storageTries sm !! a);
      [|destruct (Cache._cache (StateManager.cache sm) !! a) eqn:Ec; rewrite ?Ec];
      intros H; injection H as <- <-; auto. }
  destruct H1 as [Ht Hc].
  unfold StateManager._putAccount, Cache.put.
  cbn [StateManager.with_cache StateManager.cache StateManager.trie
       StateManager._storageTries].
  split; [exact Ht|]. split.
  - rewrite (proj1 (update_rest _ _ _ _ _)). exact Hc.
  - eexists. split; [apply lookup_insert_eq|].
    destruct v as [|x v]; cbn [length Nat.eqb negb].
    + rewrite lookup_delete_eq. reflexivity.
    + rewrite lookup_insert_eq. reflexivity.
Qed.

(** X11.  [revert] alone does not undo a storage write made since the
    checkpoint: the accounts of the cache and of the trie are those of the
    checkpoint, but the cached storage trie still answers with the value
    written.  Once [revertContracts] has dropped the cached storage tries,
    the slot reads what the account as it was at the checkpoint holds. *)
Theorem storage_write_after_revert sm a k v :
  exists sm',
    StateManager.revert
      (StateManager.putContractStorage (StateManager.checkpoint sm) a k v) = Some sm'
    /\ fst (StateManager.getContractStorage sm' a k) = v
    /\ fst (StateManager.getContractStorage (StateManager.revertContracts sm') a k)
       = default [] (stateRoot (fst (StateManager.getAccount sm a)) !! k)
    /\ Cache._cache (StateManager.cache sm') = Cache._cache (StateManager.cache sm)
    /\ Trie.content (StateManager.trie sm') = Trie.content (StateManager.trie sm).
Proof.
  destruct (putContractStorage_shape (StateManager.checkpoint sm) a k v)
    as (Ht & Hc & st & Hst & Hv).
  cbv zeta in *.
  set (sm2 := StateManager.putContractStorage (StateManager.checkpoint sm) a k v) in *.
  unfold StateManager.revert, Cache.revert. rewrite Hc, Ht.
  cbn [StateManager.checkpoint StateManager.cache StateManager.trie Cache.checkpoint
       Cache._checkpoints].
  eexists. split; [reflexivity|].
  rewrite !getContractStorage_eq.
  cbn [StateManager.revertContracts StateManager._storageTries StateManager.cache
       StateManager.trie Cache._cache Trie.revert Trie.checkpoint Trie.checkpoints
       Trie.content].
  rewrite Hst, lookup_empty. unfold Trie.get. cbn [Trie.content].
  split; [exact Hv|]. split; [|auto].
  unfold StateManager.getAccount, Cache.getOrLoad, Cache.lookup, Cache._lookupAccount.
  unfold Trie.get.
  destruct (Cache._cache (StateManager.cache sm) !! a); reflexivity.
Qed.

(** ** Checkpoint and commit *)

(** The calls that read and write accounts do not look at the stacks of
    snapshots. *)
Lemma step_with_stacks o sm ts cs :
  match o with
  | Journal.Checkpoint | Journal.Commit | Journal.Revert => True
  | _ =>
      Journal.step o (with_stacks sm ts cs)
      = match Journal.step o sm with
        | Some sm' => Some (with_stacks sm' ts cs)
        | None => None
        end
  end.
Proof.
  destruct o as [a acc|a b|a|a| | |]; try exact I; cbn [Journal.step].
  - unfold StateManager._putAccount, Cache.put, Cache._update, with_stacks. cbn.
    destruct (Cache._cache (StateManager.cache sm) !! a); reflexivity.
  - unfold StateManager.putAccountBalance, StateManager.getAccount, Cache.getOrLoad,
      StateManager._putAccount, Cache.put, Cache._update, Cache.lookup,
      Cache._lookupAccount, with_stacks. cbn.
    destruct (Cache._cache (StateManager.cache sm) !! a) eqn:E; cbn; rewrite ?E; cbn;
      rewrite ?lookup_insert_eq; reflexivity.
  - unfold StateManager.getAccount, Cache.getOrLoad, Cache._update, Cache.lookup,
      Cache._lookupAccount, with_stacks. cbn.
    destruct (Cache._cache (StateManager.cache sm) !! a) eqn:E; cbn; rewrite ?E; reflexivity.
  - reflexivity.
Qed.

Lemma run_under_checkpoint ops sm : forall d,
  Journal.nesting ops = Some d ->
  exists r ts cs,
    Journal.run ops sm = Some r
    /\ length ts = d /\ length cs = d
    /\ Trie.checkpoints (StateManager.trie r)
       = ts ++ Trie.checkpoints (StateManager.trie sm)
    /\ Cache._checkpoints (StateManager.cache r)
       = cs ++ Cache._checkpoints (StateManager.cache sm)
    /\ Journal.run ops (StateManager.checkpoint sm)
       = Some (with_stacks r
                 (ts ++ Trie.content (StateManager.trie sm)
                        :: Trie.checkpoints (StateManager.trie sm))
                 (cs ++ Cache._cache (StateManager.cache sm)
                        :: Cache._checkpoints (StateManager.cache sm))).
Proof.
  induction ops as [|o ops IH] using rev_ind; intros d Hn.
  - unfold Journal.nesting in Hn. cbn in Hn. injection Hn as <-.
    exists sm, [], []. cbn. repeat split; reflexivity.
  - rewrite nesting_app in Hn.
    destruct (Journal.nesting ops) as [d1|] eqn:Hd1; [|discriminate].
    destruct (IH d1 eq_refl) as (r & ts & cs & Hrun & Hlt & Hlc & Hts & Hcs & Hrun').
    rewrite !run_app, Hrun, Hrun'.
    pose proof (step_write_frame o r) as Hw.
    pose proof (step_with_stacks o r
                  (ts ++ Trie.content (StateManager.trie sm)
                      :: Trie.checkpoints (StateManager.trie sm))
                  (cs ++ Cache._cache (StateManager.cache sm)
                      :: Cache._checkpoints (StateManager.cache sm))) as Hs.
    destruct o as [a acc|a b|a|a| | |];
      try (unfold Journal.nest in Hn; destruct d1; injection Hn as <-;
           destruct Hw as (r' & Hr' & Ht & _ & Hcp & _);
           rewrite Hs, Hr'; exists r', ts, cs; rewrite Ht, Hcp; auto 10).
    + (* Checkpoint *)
      assert (d = S d1) as -> by (unfold Journal.nest in Hn; destruct d1; congruence).
      exists (StateManager.checkpoint r),
        (Trie.content (StateManager.trie r) :: ts),
        (Cache._cache (StateManager.cache r) :: cs).
      cbn. rewrite Hlt, Hlc, Hts, Hcs. repeat split; reflexivity.
    + (* Commit *)
      destruct d1 as [|d1]; cbn in Hn; [discriminate|]. injection Hn as <-.
      destruct ts as [|t ts]; [discriminate|]. destruct cs as [|c cs]; [discriminate|].
      cbn in Hlt, Hlc.
      exists (StateManager.commit r), ts, cs.
      cbn. rewrite Hts, Hcs. cbn. repeat split; try lia; reflexivity.
    + (* Revert *)
      destruct d1 as [|d1]; cbn in Hn; [discriminate|]. injection Hn as <-.
      destruct ts as [|t ts]; [discriminate|]. destruct cs as [|c cs]; [discriminate|].
      cbn in Hlt, Hlc.
      cbn [Journal.step]. unfold StateManager.revert, Cache.revert, Trie.revert.
      rewrite Hcs, Hts. cbn.
      eexists _, ts, cs. split; [reflexivity|]. cbn.
      repeat split; try lia; reflexivity.
Qed.

(** X12.  A sequence of account reads, writes and deletions that closes its
    own checkpoints runs to the same state whether or not it is wrapped in
    [checkpoint()] and [commit()]: it completes in both cases, and the
    commit leaves exactly the state the bare sequence gives. *)
Theorem checkpoint_commit_transparent ops sm :
  Journal.balanced ops ->
  exists r r',
    Journal.run ops sm = Some r
    /\ Journal.run ops (StateManager.checkpoint sm) = Some r'
    /\ StateManager.commit r' = r.
Proof.
  intros Hb.
  destruct (run_under_checkpoint ops sm O Hb)
    as (r & ts & cs & Hrun & Hlt & Hlc & Hts & Hcs & Hrun').
  destruct ts; [|discriminate]. destruct cs; [|discriminate].
  exists r. eexists. split; [exact Hrun|]. split; [exact Hrun'|].
  cbn in Hts, Hcs.
  destruct r as [[tc tcp tr] st [c cp dl]]. cbn in *. subst. reflexivity.
Qed.

Lemma checkpoint_commit_transparent_witness :
  exists r r',
    Journal.run [Journal.PutBalance 1 9; Journal.Checkpoint; Journal.Del 1;
                 Journal.Revert; Journal.GetAccount 3] sm_one_account = Some r
    /\ Journal.run [Journal.PutBalance 1 9; Journal.Checkpoint; Journal.Del 1;
                    Journal.Revert; Journal.GetAccount 3]
         (StateManager.checkpoint sm_one_account) = Some r'
    /\ StateManager.commit r' = r.
Proof.
  apply checkpoint_commit_transparent. reflexivity.
Defined.

(** ** Genesis *)

Lemma fold_genesis_get (l : list (Z * Z)) : forall tr k,
  NoDup (l.*1) ->
  Trie.get (fold_left (fun tr '(address, b) =>
                         Trie.put tr address (serialize (set_balance new_Account b)))
                      l tr) k
  = match (list_to_map l : gmap Z Z) !! k with
    | Some b => Some (serialize (set_balance new_Account b))
    | None => Trie.get tr k
    end.
Proof.
  induction l as [|[k0 b0] l IH]; intros tr k Hnd; cbn [fold_left]; [reflexivity|].
  cbn in Hnd. apply NoDup_cons in Hnd. destruct Hnd as [Hnotin Hnd].
  rewrite IH by exact Hnd. cbn [list_to_map foldr].
  unfold Trie.get, Trie.put. cbn [Trie.content].
  destruct (decide (k0 = k)) as [->|Hne].
  - rewrite !lookup_insert_eq, (not_elem_of_list_to_map_1 _ _ Hnotin). reflexivity.
  - rewrite !lookup_insert_ne by exact Hne. reflexivity.
Qed.

(** X13.  After [generateGenesis] on distinct addresses, an address of the
    initial state that the cache does not hold exists and has the balance
    given for it (nonce 0, no code, no storage), and an address outside the
    initial state has the balance it had.  The accounts are written to the
    trie past the cache. *)
Theorem generateGenesis_balances sm initState a :
  NoDup (initState.*1) ->
  Cache._cache (StateManager.cache sm) !! a = None ->
  let sm' := StateManager.generateGenesis sm initState in
  (forall b, (a, b) ∈ initState ->
     fst (StateManager.getAccount sm' a)
     = set_exists (set_balance new_Account b) true)
  /\ (a ∉ initState.*1 ->
      fst (StateManager.getAccount sm' a) = fst (StateManager.getAccount sm a))
  /\ StateManager.cache sm' = StateManager.cache sm.
Proof.
  intros Hnd Hc. cbv zeta.
  unfold StateManager.generateGenesis, StateManager.getAccount, Cache.getOrLoad,
    Cache.lookup, Cache._lookupAccount.
  cbn [StateManager.with_trie StateManager.cache StateManager.trie]. rewrite Hc.
  cbn [fst]. rewrite fold_genesis_get by exact Hnd.
  split; [|split; [|reflexivity]].
  - intros b Hin.
    rewrite (elem_of_list_to_map_1 _ _ _ Hnd Hin). reflexivity.
  - intros Hout. rewrite (not_elem_of_list_to_map_1 _ _ Hout). reflexivity.
Qed.

Lemma generateGenesis_balances_witness :
  fst (StateManager.getAccount
         (StateManager.generateGenesis (StateManager.create Trie.empty) [(1, 5); (2, 7)]) 2)
  = set_exists (set_balance new_Account 7) true.
Proof.
  apply (generateGenesis_balances (StateManager.create Trie.empty) [(1, 5); (2, 7)] 2).
  - apply (bool_decide_unpack _). vm_compute. exact I.
  - reflexivity.
  - right. left.
Defined.

(** ** Calls *)

(** An account put in the cache is the one [get] hands out, marked as
    existing; the other accounts are not affected. *)
Lemma get_put c key v fromTrie k :
  Cache.get (Cache.put c key v fromTrie) k
  = if bool_decide (k = key) then set_exists v true else Cache.get c k.
Proof.
  unfold Cache.get, Cache.lookup, Cache.put. rewrite update_lookup.
  case_bool_decide; [|reflexivity].
  cbn. destruct (Cache._cache c !! key); reflexivity.
Qed.

(** X14.  A call with a value that the balance of the caller covers, to an
    address that has no code and is not a precompiled contract, runs no
    code: it reports [exception = 1] without VM results and no gas used,
    and leaves the cache with the value moved from the caller to the
    destination (nothing moved when they are the same), no balance made
    negative, every other account and the trie as they were, and the stack
    of snapshots at its former height. *)
Theorem runCall_plain_transfer fees gen runner opts caller to sm :
  o_caller opts = Some caller ->
  o_to opts = Some to ->
  o_code opts = None ->
  o_delegatecall opts = false ->
  isContract (Cache.get (StateManager.cache sm) to) = false ->
  isPrecompiled to = false ->
  0 <= o_value opts <= balance (Cache.get (StateManager.cache sm) caller) ->
  exists sm',
    RunCall.runCall fees gen runner opts sm
    = Some ({| gasUsed := 0; createdAddress := None; vm := NoCode |}, sm')
    /\ (forall x,
          balance (Cache.get (StateManager.cache sm') x)
          = balance (Cache.get (StateManager.cache sm) x)
            - (if bool_decide (x = caller) then o_value opts else 0)
            + (if bool_decide (x = to) then o_value opts else 0))
    /\ (forall x,
          0 <= balance (Cache.get (StateManager.cache sm) x) ->
          0 <= balance (Cache.get (StateManager.cache sm') x))
    /\ (forall x, x <> caller -> x <> to ->
          Cache._cache (StateManager.cache sm') !! x
          = Cache._cache (StateManager.cache sm) !! x)
    /\ Cache._checkpoints (StateManager.cache sm')
       = Cache._checkpoints (StateManager.cache sm)
    /\ StateManager.trie sm' = StateManager.trie sm.
Proof.
  intros Hcaller Hto Hcode Hdel Hcontract Hpre Hpay.
  unfold RunCall.runCall. rewrite Hcaller.
  unfold RunCall.setup, RunCall.subTxValue, RunCall.loadToAccount, RunCall.loadCode,
    RunCall.addTxValue.
  rewrite Hdel, Hto, Hcode.
  cbn [RunCall.toAddress RunCall.toAccount RunCall.x_code RunCall.x_createdAddress
       StateManager.cache StateManager.with_cache StateManager.checkpoint].
  set (c0 := Cache.checkpoint (StateManager.cache sm)).
  set (account := set_balance (Cache.get (StateManager.cache sm) caller)
                    (balance (Cache.get (StateManager.cache sm) caller) - o_value opts)).
  set (c1 := Cache.put c0 caller account false).
  set (toAcc := Cache.get c1 to).
  assert (HtoAcc : toAcc = if bool_decide (to = caller) then set_exists account true
                           else Cache.get (StateManager.cache sm) to).
  { subst toAcc c1. rewrite get_put. reflexivity. }
  assert (Hnc : isContract (set_balance toAcc (balance toAcc + o_value opts)) = false).
  { rewrite HtoAcc. case_bool_decide as E; [subst to|]; exact Hcontract. }
  rewrite Hnc, Hpre.
  rewrite bool_decide_eq_false_2 by (intros [? H]; discriminate).
  cbn [orb negb].
  unfold RunCall.run.
  cbn [RunCall.toAddress RunCall.toAccount RunCall.x_code RunCall.x_createdAddress].
  eexists. split; [reflexivity|].
  cbn [StateManager.commit StateManager.cache StateManager.with_cache StateManager.trie
       StateManager.checkpoint Cache.commit Cache._cache Cache._checkpoints].
  match goal with
  | |- (forall x, balance (Cache.get ?c x) = _) /\ _ =>
      assert (Hbal : forall x,
                balance (Cache.get c x)
                = balance (Cache.get (StateManager.cache sm) x)
                  - (if bool_decide (x = caller) then o_value opts else 0)
                  + (if bool_decide (x = to) then o_value opts else 0));
        [|split; [exact Hbal|]; split; [|split; [|split]]]
  end.
  - intros x.
    assert (Hget : forall c c', Cache._cache c = Cache._cache c' -> Cache.get c x = Cache.get c' x).
    { intros c c' H. unfold Cache.get, Cache.lookup. rewrite H. reflexivity. }
    rewrite (Hget _ (Cache.put c1 to (set_balance toAcc (balance toAcc + o_value opts)) false))
      by reflexivity.
    rewrite get_put. subst c1.
    destruct (decide (x = to)) as [Ex|Ex].
    + subst x. rewrite !(bool_decide_eq_true_2 (to = to)) by reflexivity.
      cbn [balance set_exists set_balance]. rewrite HtoAcc.
      destruct (decide (to = caller)) as [Ec|Ec].
      * subst to. rewrite !bool_decide_eq_true_2 by reflexivity.
        subst account. cbn [balance set_exists set_balance]. lia.
      * rewrite !(bool_decide_eq_false_2 (to = caller)) by exact Ec. lia.
    + rewrite !(bool_decide_eq_false_2 (x = to)) by exact Ex.
      rewrite get_put.
      destruct (decide (x = caller)) as [Ec|Ec].
      * subst x. rewrite !bool_decide_eq_true_2 by reflexivity.
        subst account. cbn [balance set_exists set_balance]. lia.
      * rewrite !(bool_decide_eq_false_2 (x = caller)) by exact Ec.
        rewrite (Hget c0 (StateManager.cache sm)) by reflexivity. lia.
  - intros x Hx. rewrite (Hbal x).
    destruct (decide (x = caller)) as [->|Ec].
    + rewrite bool_decide_eq_true_2 by reflexivity.
      destruct (bool_decide (caller = to)); lia.
    + rewrite (bool_decide_eq_false_2 (x = caller)) by exact Ec.
      destruct (bool_decide (x = to)); lia.
  - intros x Hx1 Hx2. subst c1. unfold Cache.put. rewrite !update_lookup.
    rewrite !bool_decide_eq_false_2 by assumption. reflexivity.
  - subst c1. unfold Cache.put. rewrite !(proj1 (update_rest _ _ _ _ _)). reflexivity.
  - destruct (StateManager.trie sm). reflexivity.
Qed.

Lemma runCall_plain_transfer_witness :
  exists sm',
    RunCall.runCall homestead gen_dd (runner_returning 0) (call_opts None)
      (StateManager.putAccountBalance sm0 0xbb 50)
    = Some ({| gasUsed := 0; createdAddress := None; vm := NoCode |}, sm')
    /\ balance (Cache.get (StateManager.cache sm') 0xbb) = 40
    /\ balance (Cache.get (StateManager.cache sm') 0xcc) = 10.
Proof.
  destruct (runCall_plain_transfer homestead gen_dd (runner_returning 0) (call_opts None)
              0xbb 0xcc (StateManager.putAccountBalance sm0 0xbb 50)
              eq_refl eq_refl eq_refl eq_refl eq_refl eq_refl
              ltac:(vm_compute; split; discriminate))
    as (sm' & Hrun & Hbal & _).
  exists sm'. split; [exact Hrun|].
  rewrite (Hbal 0xbb), (Hbal 0xcc). split; reflexivity.
Defined.

(** The state on which [runCall] starts the code of a call to an existing
    destination: the closure has that destination and no created address,
    and the two stacks hold one more snapshot, the content at the start of
    the call. *)
Lemma setup_shape gen opts caller to sm c sm_in :
  o_to opts = Some to ->
  RunCall.setup gen opts caller sm = (c, sm_in) ->
  RunCall.toAddress c = Some to
  /\ RunCall.x_createdAddress c = None
  /\ Cache._checkpoints (StateManager.cache sm_in)
     = Cache._cache (StateManager.cache sm) :: Cache._checkpoints (StateManager.cache sm)
  /\ StateManager.trie sm_in = Trie.checkpoint (StateManager.trie sm)
  /\ StateManager._storageTries sm_in = StateManager._storageTries sm.
Proof.
  intros Hto. unfold RunCall.setup, RunCall.subTxValue, RunCall.loadToAccount,
    RunCall.loadCode, RunCall.addTxValue. rewrite Hto.
  cbn [RunCall.toAddress RunCall.toAccount RunCall.x_code RunCall.x_createdAddress].
  unfold StateManager.getContractCode, StateManager.getAccount, Cache.getOrLoad, Cache.put.
  intros H. repeat case_match; simplify_eq;
    cbn [RunCall.toAddress RunCall.x_createdAddress StateManager.cache StateManager.trie
         StateManager._storageTries StateManager.with_cache StateManager.checkpoint];
    rewrite ?(proj1 (update_rest _ _ _ _ _)); auto.
Qed.

(** X15.  When the code runner reports an error for a call to an existing
    destination (and has closed the checkpoints it opened), [runCall]
    reverts: the accounts of the cache and of the trie are those of before
    the call, the value transfer included, and the stacks of snapshots are
    at their former height; the result carries the gas the runner used and
    its results with the logs emptied.  The cached storage tries are left
    as the runner left them. *)
Theorem runCall_error_reverts fees gen runner opts caller to code c sm_in e r sm_r sm :
  o_caller opts = Some caller ->
  o_to opts = Some to ->
  RunCall.setup gen opts caller sm = (c, sm_in) ->
  RunCall.x_code c = Some code ->
  runner (RunCall.isCompiled c) (RunCall.runCodeOpts_of opts caller c to code) sm_in
  = (Some e, r, sm_r) ->
  Cache._checkpoints (StateManager.cache sm_r) = Cache._checkpoints (StateManager.cache sm_in) ->
  Trie.checkpoints (StateManager.trie sm_r) = Trie.checkpoints (StateManager.trie sm_in) ->
  exists sm',
    RunCall.runCall fees gen runner opts sm
    = Some ({| gasUsed := v_gasUsed r; createdAddress := None;
               vm := Ran (RunCall.clear_logs r) |}, sm')
    /\ Cache._cache (StateManager.cache sm') = Cache._cache (StateManager.cache sm)
    /\ Cache._checkpoints (StateManager.cache sm')
       = Cache._checkpoints (StateManager.cache sm)
    /\ Trie.content (StateManager.trie sm') = Trie.content (StateManager.trie sm)
    /\ Trie.checkpoints (StateManager.trie sm') = Trie.checkpoints (StateManager.trie sm)
    /\ StateManager._storageTries sm' = StateManager._storageTries sm_r.
Proof.
  intros Hcaller Hto Hsetup Hcode Hrun Hcs Hts.
  destruct (setup_shape gen opts caller to sm c sm_in Hto Hsetup)
    as (Hta & Hcr & Hcp & Htr & _).
  unfold RunCall.runCall. rewrite Hcaller, Hsetup.
  unfold RunCall.run. rewrite Hcode, Hta, Hrun.
  unfold RunCall.integrate, RunCall.parseRunResult. rewrite Hcr.
  unfold StateManager.revert, Cache.revert, Trie.revert.
  rewrite Hcs, Hcp, Hts, Htr.
  cbn [Trie.checkpoint Trie.checkpoints RunCall.saveCode].
  eexists. split; [reflexivity|]. cbn. auto 10.
Qed.

Lemma runCall_error_reverts_witness :
  exists sm',
    RunCall.runCall homestead gen_dd runner_failing (call_opts (Some (Bytecode [0])))
      (StateManager.putAccountBalance sm0 0xbb 50)
    = Some ({| gasUsed := 1000; createdAddress := None;
               vm := Ran {| v_return := []; v_gasUsed := 1000; v_exception := 0;
                            v_exceptionError := Some OUT_OF_GAS; v_logs := [];
                            v_gasRefund := None |} |}, sm')
    /\ Cache._cache (StateManager.cache sm')
       = Cache._cache (StateManager.cache (StateManager.putAccountBalance sm0 0xbb 50)).
Proof.
  destruct (runCall_error_reverts homestead gen_dd runner_failing
              (call_opts (Some (Bytecode [0]))) 0xbb 0xcc (Bytecode [0])
              (fst (RunCall.setup gen_dd (call_opts (Some (Bytecode [0]))) 0xbb
                      (StateManager.putAccountBalance sm0 0xbb 50)))
              (snd (RunCall.setup gen_dd (call_opts (Some (Bytecode [0]))) 0xbb
                      (StateManager.putAccountBalance sm0 0xbb 50)))
              OUT_OF_GAS _ _
              (StateManager.putAccountBalance sm0 0xbb 50)
              eq_refl eq_refl (surjective_pairing _) eq_refl eq_refl)
    as (sm' & Hrun & Hcache & _); [vm_compute; reflexivity | vm_compute; reflexivity |].
  exists sm'. split; [exact Hrun | exact Hcache].
Defined.

(** ** Arithmetic on words *)

Lemma word_high_bits x n : word x -> 256 <= n -> Z.testbit x n = false.
Proof.
  intros Hx Hn. unfold word in Hx.
  rewrite <- (Z.mod_small x (2 ^ 256)) by lia.
  apply Z.mod_pow2_bits_high. lia.
Qed.

Lemma notn256_word x : word x -> OpFns.notn256 x = 2 ^ 256 - 1 - x.
Proof.
  intros Hx. unfold OpFns.notn256.
  assert (Hl : Z.land (Z.lxor x (Z.ones 256)) x = 0).
  { apply Z.bits_inj'. intros n Hn.
    rewrite Z.land_spec, Z.lxor_spec, Z.bits_0.
    destruct (Z.lt_ge_cases n 256) as [H|H].
    - rewrite Z.ones_spec_low by lia. destruct (Z.testbit x n); reflexivity.
    - rewrite (word_high_bits x n Hx H). apply andb_false_r. }
  apply Z.add_nocarry_lxor in Hl.
  assert (Ho : Z.lxor (Z.lxor x (Z.ones 256)) x = Z.ones 256).
  { apply Z.bits_inj'. intros n _. rewrite !Z.lxor_spec.
    destruct (Z.testbit x n), (Z.testbit (Z.ones 256) n); reflexivity. }
  rewrite Ho in Hl. set (y := Z.lxor x (Z.ones 256)) in *.
  rewrite Z.ones_equiv in Hl. lia.
Qed.

Lemma toTwos_mod q : - 2 ^ 256 < q < 2 ^ 256 -> OpFns.toTwos q = q mod 2 ^ 256.
Proof.
  intros Hq. unfold OpFns.toTwos.
  destruct (Z.ltb_spec q 0) as [H|H].
  - rewrite notn256_word by (unfold word; lia).
    apply (Z.mod_unique _ _ (-1)); lia.
  - rewrite Z.mod_small by lia. reflexivity.
Qed.

Lemma testbit_255 x : word x -> Z.testbit x 255 = negb (x <? 2 ^ 255).
Proof.
  intros Hx. unfold word in Hx.
  rewrite Z.testbit_odd, Z.shiftr_div_pow2 by lia.
  destruct (Z.ltb_spec x (2 ^ 255)) as [H|H].
  - rewrite Z.div_small by lia. reflexivity.
  - replace (x / 2 ^ 255) with 1; [reflexivity|].
    apply (Z.div_unique x (2 ^ 255) 1 (x - 2 ^ 255)); lia.
Qed.

Lemma fromTwos_signed x : word x -> OpFns.fromTwos x = signed x.
Proof.
  intros Hx. unfold OpFns.fromTwos, signed.
  rewrite testbit_255 by exact Hx.
  destruct (x <? 2 ^ 255); cbn [negb]; [reflexivity|].
  rewrite notn256_word by exact Hx. lia.
Qed.

Lemma signed_range x : word x -> - 2 ^ 255 <= signed x < 2 ^ 255.
Proof.
  unfold word, signed. intros Hx.
  destruct (Z.ltb_spec x (2 ^ 255)); lia.
Qed.

Lemma signed_mod x : word x -> signed x mod 2 ^ 256 = x.
Proof.
  unfold word, signed. intros Hx.
  destruct (Z.ltb_spec x (2 ^ 255)).
  - apply Z.mod_small. lia.
  - symmetry. apply (Z.mod_unique _ _ (-1)); lia.
Qed.

(** X16.  On words, [ADD], [MUL] and [SUB] are addition, multiplication and
    subtraction modulo 2^256, so that [SUB] undoes [ADD]. *)
Theorem ADD_MUL_SUB_wrap a b :
  word a -> word b ->
  OpFns.ADD a b = (a + b) mod 2 ^ 256
  /\ OpFns.MUL a b = (a * b) mod 2 ^ 256
  /\ OpFns.SUB a b = (a - b) mod 2 ^ 256
  /\ OpFns.SUB (OpFns.ADD a b) b = a.
Proof.
  unfold word. intros Ha Hb.
  assert (HA : OpFns.ADD a b = (a + b) mod 2 ^ 256).
  { unfold OpFns.ADD, OpFns.TWO_POW256. apply Z.rem_mod_nonneg; lia. }
  assert (HS : forall x y, word x -> word y -> OpFns.SUB x y = (x - y) mod 2 ^ 256).
  { unfold word. intros x y Hx Hy. unfold OpFns.SUB. apply toTwos_mod. lia. }
  split; [exact HA|]. split; [|split].
  - unfold OpFns.MUL, OpFns.TWO_POW256. apply Z.rem_mod_nonneg; nia.
  - apply HS; assumption.
  - rewrite HS, HA.
    + rewrite Zminus_mod_idemp_l. replace (a + b - b) with a by lia.
      apply Z.mod_small. lia.
    + rewrite HA. apply Z.mod_pos_bound. lia.
    + exact Hb.
Qed.

Lemma ADD_MUL_SUB_wrap_witness :
  OpFns.SUB (OpFns.ADD (2 ^ 256 - 1) 2) 2 = 2 ^ 256 - 1.
Proof.
  apply (ADD_MUL_SUB_wrap (2 ^ 256 - 1) 2); unfold word; lia.
Defined.

Lemma quot_abs_le a b : b <> 0 -> Z.abs (Z.quot a b) <= Z.abs a.
Proof.
  intros Hb. rewrite <- Z.quot_abs by exact Hb.
  assert (0 <= Z.abs a) by lia. assert (1 <= Z.abs b) by lia.
  transitivity (Z.quot (Z.abs a) 1).
  - apply Z.quot_le_compat_l; lia.
  - rewrite Z.quot_1_r. lia.
Qed.

Lemma rem_abs_sign a b :
  b <> 0 ->
  (if a <? 0 then - Z.rem (Z.abs a) (Z.abs b) else Z.rem (Z.abs a) (Z.abs b)) = Z.rem a b.
Proof.
  intros Hb.
  destruct (Z.ltb_spec a 0) as [Ha|Ha].
  - rewrite (Z.abs_neq a) by lia.
    destruct (Z.abs_spec b) as [[_ ->]|[_ ->]].
    + rewrite Z.rem_opp_l by lia. lia.
    + rewrite Z.rem_opp_l, Z.rem_opp_r by lia. lia.
  - rewrite (Z.abs_eq a) by lia.
    destruct (Z.abs_spec b) as [[_ ->]|[_ ->]].
    + reflexivity.
    + apply Z.rem_opp_r. lia.
Qed.

(** X17.  On words, [SDIV] and [SMOD] are the quotient truncated towards
    zero and the remainder with the sign of the dividend of the two signed
    numbers, as words; both are 0 for the divisor 0, and the quotient of
    -2^255 by -1 is the word 2^255. *)
Theorem SDIV_SMOD_signed a b :
  word a -> word b ->
  OpFns.SDIV a b = (if b =? 0 then 0 else Z.quot (signed a) (signed b) mod 2 ^ 256)
  /\ OpFns.SMOD a b = (if b =? 0 then 0 else Z.rem (signed a) (signed b) mod 2 ^ 256).
Proof.
  intros Ha Hb. unfold OpFns.SDIV, OpFns.SMOD.
  destruct (Z.eqb_spec b 0) as [->|Hne]; [split; reflexivity|].
  cbv zeta. rewrite !fromTwos_signed by assumption.
  pose proof (signed_range a Ha) as Ra. pose proof (signed_range b Hb) as Rb.
  assert (Hsb : signed b <> 0).
  { unfold signed, word in *. destruct (Z.ltb_spec b (2 ^ 255)); lia. }
  split.
  - apply toTwos_mod. pose proof (quot_abs_le (signed a) (signed b) Hsb). lia.
  - rewrite rem_abs_sign by exact Hsb. apply toTwos_mod.
    pose proof (Z.rem_bound_abs (signed a) (signed b) Hsb). lia.
Qed.

Lemma SDIV_SMOD_signed_witness :
  OpFns.SDIV (2 ^ 256 - 7) 2 = 2 ^ 256 - 3 /\ OpFns.SMOD (2 ^ 256 - 7) 2 = 2 ^ 256 - 1.
Proof.
  destruct (SDIV_SMOD_signed (2 ^ 256 - 7) 2) as [H1 H2]; try (unfold word; lia).
  rewrite H1, H2. split; reflexivity.
Defined.

(** ** Bytes of a word *)

Lemma toArrayLike_be_get (n : nat) (v : BN) (i : Z) :
  0 <= i < Z.of_nat n ->
  buf_get (toArrayLike_be n v) i = (v / 256 ^ (Z.of_nat n - 1 - i)) mod 256.
Proof.
  intros Hi. unfold buf_get. rewrite (proj2 (Z.ltb_ge i 0)) by lia.
  rewrite <- nth_lookup. unfold toArrayLike_be.
  set (f := fun i : nat => (v / 256 ^ Z.of_nat (n - 1 - i)) mod 256).
  rewrite (nth_indep _ 0 (f O)) by (rewrite List.length_map, List.length_seq; lia).
  rewrite List.map_nth, List.seq_nth by lia.
  subst f. cbn beta. f_equal. f_equal. f_equal. lia.
Qed.

(** X18.  [BYTE] takes the byte at position [pos] of the word, counted from
    the most significant one, and 0 from position 32 on. *)
Theorem BYTE_extracts pos w :
  0 <= pos -> word w ->
  OpFns.BYTE pos w = if pos <? 32 then (w / 256 ^ (31 - pos)) mod 256 else 0.
Proof.
  intros Hpos _. unfold OpFns.BYTE.
  destruct (Z.leb_spec 32 pos) as [H|H].
  - rewrite (proj2 (Z.ltb_ge pos 32)) by lia. reflexivity.
  - rewrite (proj2 (Z.ltb_lt pos 32)) by lia.
    rewrite toArrayLike_be_get by lia. reflexivity.
Qed.

Lemma BYTE_extracts_witness : OpFns.BYTE 30 0xabcd = 0xab.
Proof. rewrite BYTE_extracts by (unfold word; lia). reflexivity. Defined.

Lemma bn_of_buffer_app (a b : Buffer) :
  bn_of_buffer (a ++ b) = bn_of_buffer a * 256 ^ Z.of_nat (length b) + bn_of_buffer b.
Proof.
  unfold bn_of_buffer at 1. rewrite fold_left_app.
  change (fold_left (fun acc x => acc * 256 + x) a 0) with (bn_of_buffer a).
  apply bn_of_buffer_acc.
Qed.

Lemma bn_of_buffer_repeat (c : Z) (n : nat) :
  bn_of_buffer (repeat c n) * 255 = c * (256 ^ Z.of_nat n - 1).
Proof.
  induction n as [|n IH]; [cbn; lia|].
  cbn [repeat]. rewrite bn_of_buffer_cons, repeat_length, Nat2Z.inj_succ,
    Z.pow_succ_r by lia. lia.
Qed.

Lemma toArrayLike_be_drop (j m : nat) (v : BN) :
  drop j (toArrayLike_be (j + m) v) = toArrayLike_be m v.
Proof.
  induction j as [|j IH]; [reflexivity|].
  cbn [Nat.add]. rewrite toArrayLike_be_succ. exact IH.
Qed.

(** The loop of [SIGNEXTEND]: the bytes at the indices [m - 1] down to 0
    are overwritten. *)
Lemma fill_down (c : Z) (m : nat) : forall (K : Z) (val : Buffer),
  K = Z.of_nat m - 1 ->
  (m <= length val)%nat ->
  fold_left (fun val i => buf_set val i c)
            (map (fun j => K - Z.of_nat j) (seq 0 m)) val
  = repeat (Z.land c 255) m ++ drop m val.
Proof.
  induction m as [|m IH]; intros K val HK Hlen; [reflexivity|].
  cbn [seq List.map fold_left].
  rewrite <- seq_shift, List.map_map.
  rewrite (List.map_ext (fun j => K - Z.of_nat (S j)) (fun j => (K - 1) - Z.of_nat j))
    by (intros; lia).
  rewrite IH by (try (unfold buf_set; case_match; rewrite ?length_insert); lia).
  unfold buf_set. rewrite (proj2 (Z.ltb_ge (K - Z.of_nat 0) 0)) by lia.
  replace (Z.to_nat (K - Z.of_nat 0)) with m by lia.
  rewrite drop_insert_ge by lia. rewrite Nat.sub_diag.
  destruct (lookup_lt_is_Some_2 val m ltac:(lia)) as [y Hy].
  rewrite (drop_S _ _ _ Hy). cbn [insert list_insert].
  change (repeat (Z.land c 255) (S m)) with (Z.land c 255 :: repeat (Z.land c 255) m).
  rewrite repeat_cons, <- app_assoc. reflexivity.
Qed.

(** X19.  [SIGNEXTEND k v] keeps the low [k + 1] bytes of the word and fills
    the bytes above with the sign bit, bit 7 of byte [k]; from [k = 31] on
    the word is returned as it is. *)
Theorem SIGNEXTEND_extends k v :
  0 <= k -> word v ->
  OpFns.SIGNEXTEND k v
  = if 31 <=? k then v
    else
      let low := v mod 2 ^ (8 * (k + 1)) in
      if Z.testbit v (8 * k + 7) then low + (2 ^ 256 - 2 ^ (8 * (k + 1))) else low.
Proof.
  intros Hk Hv. unfold word in Hv. unfold OpFns.SIGNEXTEND.
  assert (Hfull : bn_of_buffer (toArrayLike_be 32 v) = v).
  { rewrite bn_of_toArrayLike_be. change (256 ^ Z.of_nat 32) with (2 ^ 256).
    apply Z.mod_small. lia. }
  destruct (Z.leb_spec k 31) as [H31|H31].
  2:{ rewrite (proj2 (Z.leb_le 31 k)) by lia. exact Hfull. }
  destruct (Z.leb_spec 31 k) as [H|H].
  { assert (k = 31) as -> by lia. cbn [Z.sub Z.to_nat seq List.map fold_left].
    exact Hfull. }
  cbv zeta.
  rewrite (fill_down _ (Z.to_nat (31 - k)) (30 - k))
    by (rewrite ?toArrayLike_be_length; lia).
  set (m := Z.to_nat (31 - k)). set (n := Z.to_nat (k + 1)).
  replace 32%nat with (m + n)%nat by lia.
  rewrite toArrayLike_be_drop, bn_of_buffer_app, toArrayLike_be_length,
    bn_of_toArrayLike_be.
  replace 32%nat with (m + n)%nat in * by lia.
  rewrite toArrayLike_be_get by lia.
  change 128 with (Z.shiftl 1 7). rewrite land_bit_zero, negb_involutive by lia.
  assert (Hbit : Z.testbit ((v / 256 ^ (Z.of_nat (m + n) - 1 - (31 - k))) mod 256) 7
                 = Z.testbit v (8 * k + 7)).
  { change 256 with (2 ^ 8) at 2. rewrite Z.mod_pow2_bits_low by lia.
    replace (Z.of_nat (m + n) - 1 - (31 - k)) with k by lia.
    change 256 with (2 ^ 8). rewrite <- Z.pow_mul_r by lia.
    rewrite Z.div_pow2_bits by lia. f_equal. lia. }
  rewrite Hbit.
  assert (Hp : (256 : Z) ^ Z.of_nat n = 2 ^ (8 * (k + 1))).
  { change 256 with (2 ^ 8). rewrite <- Z.pow_mul_r by lia. f_equal. lia. }
  rewrite Hp.
  assert (Hpm : (256 : Z) ^ Z.of_nat m * 2 ^ (8 * (k + 1)) = 2 ^ 256).
  { rewrite <- Hp, <- Z.pow_add_r by lia. replace (Z.of_nat m + Z.of_nat n) with 32 by lia.
    reflexivity. }
  destruct (Z.testbit v (8 * k + 7)).
  - pose proof (bn_of_buffer_repeat (Z.land 255 255) m) as Hr.
    change (Z.land 255 255) with 255 in *. nia.
  - pose proof (bn_of_buffer_repeat (Z.land 0 255) m) as Hr.
    change (Z.land 0 255) with 0 in *. nia.
Qed.

Lemma SIGNEXTEND_extends_witness : OpFns.SIGNEXTEND 0 0xff = 2 ^ 256 - 1.
Proof. rewrite SIGNEXTEND_extends by (unfold word; lia). reflexivity. Defined.

(** ** Call data *)

Lemma bn_of_buffer_zeros (n : nat) : bn_of_buffer (repeat 0 n) = 0.
Proof.
  induction n as [|n IH]; [reflexivity|].
  cbn [repeat]. rewrite bn_of_buffer_cons, IH. lia.
Qed.

Lemma take_repeat_min {A} (c : A) (n m : nat) :
  take n (repeat c m) = repeat c (Nat.min n m).
Proof.
  revert m. induction n as [|n IH]; intros [|m]; cbn; try reflexivity.
  f_equal. apply IH.
Qed.

(** X20.  [CALLDATALOAD] reads the 32 bytes of the call data from [pos] on,
    with zeros for the bytes past its end, as a big-endian number; from
    the end of the call data on it reads 0. *)
Theorem CALLDATALOAD_pads pos rs :
  0 <= pos ->
  OpFns.CALLDATALOAD pos rs
  = bn_of_buffer (take 32 (drop (Z.to_nat pos) (OpFns.callData rs) ++ repeat 0 32))
  /\ (Z.of_nat (length (OpFns.callData rs)) <= pos -> OpFns.CALLDATALOAD pos rs = 0).
Proof.
  intros Hpos.
  assert (Hmain : OpFns.CALLDATALOAD pos rs
    = bn_of_buffer (take 32 (drop (Z.to_nat pos) (OpFns.callData rs) ++ repeat 0 32))).
  { unfold OpFns.CALLDATALOAD. set (data := OpFns.callData rs).
    assert (Hz : bn_of_buffer (OpFns.setLengthRight [0] 32) = 0) by reflexivity.
    destruct (Z.ltb_spec (Z.of_nat (length data)) pos) as [H|H].
    - rewrite drop_ge by lia. rewrite Hz. cbn [app].
      rewrite take_ge by (rewrite repeat_length; lia).
      symmetry. apply bn_of_buffer_zeros.
    - set (d := drop (Z.to_nat pos) data).
      destruct (Nat.eqb_spec (length (take 32 d)) 0) as [E|E]; cbn [negb].
      + rewrite Hz. apply length_zero_iff_nil in E.
        assert (d = []) as ->.
        { destruct d; [reflexivity|discriminate]. }
        cbn [app]. rewrite take_ge by (rewrite repeat_length; lia).
        symmetry. apply bn_of_buffer_zeros.
      + f_equal. unfold OpFns.setLengthRight.
        destruct (Nat.le_gt_cases 32 (length d)) as [Hl|Hl].
        * rewrite length_take, Nat.min_l by lia. cbn [Nat.sub repeat].
          rewrite app_nil_r, take_take, Nat.min_id.
          rewrite take_app_le by lia. reflexivity.
        * rewrite (take_ge d) by lia.
          rewrite !take_app_ge by lia.
          f_equal. rewrite !take_repeat_min. f_equal. lia. }
  split; [exact Hmain|].
  intros Hend. rewrite Hmain, drop_ge by lia. cbn [app].
  rewrite take_ge by (rewrite repeat_length; lia). apply bn_of_buffer_zeros.
Qed.

Lemma CALLDATALOAD_pads_witness :
  OpFns.CALLDATALOAD 1 (frame_with_data [0xaa; 0xbb; 0xcc] 100) = 0xbbcc * 256 ^ 30
  /\ OpFns.CALLDATALOAD 3 (frame_with_data [0xaa; 0xbb; 0xcc] 100) = 0.
Proof.
  split.
  - rewrite (proj1 (CALLDATALOAD_pads 1 (frame_with_data [0xaa; 0xbb; 0xcc] 100)
                      ltac:(lia))).
    vm_compute. reflexivity.
  - apply (proj2 (CALLDATALOAD_pads 3 (frame_with_data [0xaa; 0xbb; 0xcc] 100)
                    ltac:(lia))).
    cbn. lia.
Defined.

(** ** Memory *)

Lemma mem_write_length m i v : (i < length (OpFns.mem_write m i v))%nat.
Proof.
  unfold OpFns.mem_write. destruct (Nat.ltb_spec i (length m)).
  - rewrite length_insert. lia.
  - rewrite !length_app, repeat_length. cbn. lia.
Qed.

Lemma mem_write_length_ge m i v : (length m <= length (OpFns.mem_write m i v))%nat.
Proof.
  unfold OpFns.mem_write. destruct (Nat.ltb_spec i (length m)).
  - rewrite length_insert. lia.
  - rewrite !length_app. lia.
Qed.

Lemma mem_write_lookup_eq m i v : OpFns.mem_write m i v !! i = Some v.
Proof.
  unfold OpFns.mem_write. destruct (Nat.ltb_spec i (length m)).
  - apply list_lookup_insert_eq. lia.
  - rewrite lookup_app_r by lia. rewrite lookup_app_r by (rewrite repeat_length; lia).
    rewrite repeat_length. replace (i - length m - (i - length m))%nat with O by lia.
    reflexivity.
Qed.

Lemma mem_write_lookup_ne m i v j :
  j <> i -> (j < length m)%nat -> OpFns.mem_write m i v !! j = m !! j.
Proof.
  intros Hne Hj. unfold OpFns.mem_write. destruct (Nat.ltb_spec i (length m)).
  - apply list_lookup_insert_ne. congruence.
  - apply lookup_app_l. exact Hj.
Qed.

(** The loop of [memStore]: after [n] bytes are written from [offset] on,
    the memory holds them there, and what lies elsewhere within its former
    length is unchanged. *)
Lemma store_loop (v : Buffer) (valOffset : Z) (offset : nat) (n : nat) : forall m,
  let m' := fold_left (fun m i => OpFns.mem_write m (offset + i)%nat
                                     (buf_get v (valOffset + Z.of_nat i)))
                      (seq 0 n) m in
  (length m <= length m')%nat
  /\ (n = O \/ offset + n <= length m')%nat
  /\ (forall j, (j < n)%nat ->
        m' !! (offset + j)%nat = Some (buf_get v (valOffset + Z.of_nat j)))
  /\ (forall j, (j < length m)%nat -> (j < offset \/ offset + n <= j)%nat ->
        m' !! j = m !! j).
Proof.
  induction n as [|n IH]; intros m; cbv zeta.
  - cbn. repeat split; auto; intros; lia.
  - rewrite seq_S, fold_left_app. cbn [fold_left Nat.add].
    destruct (IH m) as (Hlen & Hn & Hin & Hout). cbv zeta in *.
    set (m1 := fold_left _ (seq 0 n) m) in *.
    pose proof (mem_write_length m1 (offset + n) (buf_get v (valOffset + Z.of_nat n))).
    pose proof (mem_write_length_ge m1 (offset + n) (buf_get v (valOffset + Z.of_nat n))).
    split; [lia|]. split; [right; lia|]. split.
    + intros j Hj. destruct (decide (j = n)) as [->|Hne].
      * apply mem_write_lookup_eq.
      * rewrite mem_write_lookup_ne by lia. apply Hin. lia.
    + intros j Hj Hr. rewrite mem_write_lookup_ne by lia. apply Hout; lia.
Qed.

(** X21.  A word stored with [MSTORE] is the word [MLOAD] reads back at the
    same offset, and this [MLOAD] leaves the frame as it is: it takes no
    gas. *)
Theorem MSTORE_MLOAD fees offset w rs rs1 :
  0 <= offset -> word w ->
  OpFns.MSTORE fees offset w rs = OpFns.Ok tt rs1 ->
  OpFns.MLOAD fees offset rs1 = OpFns.Ok w rs1.
Proof.
  intros Hoff Hw. unfold OpFns.MSTORE, OpFns.memStore.
  pose proof (subMemUsage_wordCount fees rs offset 32) as Hwc.
  destruct (OpFns.subMemUsage fees rs offset 32) as [[] rs0|e rs0] eqn:Esub;
    cbn [OpFns.bind OpFns.frame_of] in *; [|discriminate].
  rewrite toArrayLike_be_length. change (Z.min (Z.of_nat 32) 32) with 32.
  destruct (store_loop (toArrayLike_be 32 w) 0 (Z.to_nat offset) (Z.to_nat 32) (OpFns.memory rs0))
    as (_ & Hn & Hin & _). cbv zeta in Hn, Hin.
  set (m' := fold_left _ (seq 0 (Z.to_nat 32)) (OpFns.memory rs0)) in *.
  clearbody m'. intros H. assert (rs1 = OpFns.set_memory rs0 m') as -> by congruence.
  clear H.
  unfold OpFns.MLOAD, OpFns.memLoad, OpFns.subMemUsage, bn_not.
  cbn [OpFns.memoryWordCount OpFns.set_memory].
  rewrite (proj2 (Z.leb_le _ _)) by lia.
  cbn [OpFns.bind OpFns.memory OpFns.set_memory].
  assert (Hl : take (Z.to_nat 32) (drop (Z.to_nat offset) m') = toArrayLike_be 32 w).
  { apply list_eq. intros j.
    destruct (Nat.lt_ge_cases j 32) as [Hj|Hj].
    - rewrite lookup_take_lt by (change (Z.to_nat 32) with 32%nat; lia).
      rewrite lookup_drop, Hin by (change (Z.to_nat 32) with 32%nat; lia).
      unfold buf_get. rewrite (proj2 (Z.ltb_ge _ 0)) by lia.
      rewrite Z.add_0_l, Nat2Z.id.
      destruct (lookup_lt_is_Some_2 (toArrayLike_be 32 w) j) as [y Hy];
        [rewrite toArrayLike_be_length; lia|].
      rewrite Hy. reflexivity.
    - rewrite lookup_take_ge by (change (Z.to_nat 32) with 32%nat; lia).
      symmetry. apply lookup_ge_None_2. rewrite toArrayLike_be_length. lia. }
  rewrite Hl, toArrayLike_be_length. cbn [Nat.sub repeat]. rewrite app_nil_r.
  rewrite bn_of_toArrayLike_be. change (256 ^ Z.of_nat 32) with (2 ^ 256).
  unfold word in Hw. rewrite Z.mod_small by lia. reflexivity.
Qed.

Lemma MSTORE_MLOAD_witness :
  exists rs1, OpFns.MSTORE homestead 64 0xabcdef (frame0 100) = OpFns.Ok tt rs1
              /\ OpFns.MLOAD homestead 64 rs1 = OpFns.Ok 0xabcdef rs1.
Proof.
  eexists. split; [vm_compute; reflexivity|].
  apply (MSTORE_MLOAD homestead 64 0xabcdef (frame0 100)); [lia | unfold word; lia |].
  vm_compute. reflexivity.
Defined.

(** ** Memory gas *)

(** X22.  When [subMemUsage] completes, the gas it took is the rise of
    [highestMemCost]: the sum of the gas left and the highest memory cost is
    kept; neither the word count nor the highest cost goes down, the gas
    left stays non-negative, and nothing else of the frame changes: not
    the memory, the stack, the logs, the refund, the call data, the code,
    nor the context of the call. *)
Theorem subMemUsage_pays_the_rise fees rs offset length rs' :
  OpFns.subMemUsage fees rs offset length = OpFns.Ok tt rs' ->
  OpFns.gasLeft rs' + OpFns.highestMemCost rs'
  = OpFns.gasLeft rs + OpFns.highestMemCost rs
  /\ OpFns.highestMemCost rs <= OpFns.highestMemCost rs'
  /\ OpFns.memoryWordCount rs <= OpFns.memoryWordCount rs'
  /\ (0 <= OpFns.gasLeft rs -> 0 <= OpFns.gasLeft rs')
  /\ OpFns.memory rs' = OpFns.memory rs
  /\ OpFns.stack rs' = OpFns.stack rs
  /\ OpFns.logs rs' = OpFns.logs rs
  /\ OpFns.gasRefund rs' = OpFns.gasRefund rs
  /\ OpFns.callData rs' = OpFns.callData rs
  /\ OpFns.code rs' = OpFns.code rs
  /\ same_context rs rs'.
Proof.
  unfold OpFns.subMemUsage, bn_not, OpFns.subGas.
  destruct (Z.leb_spec (Z.quot (offset + length) 32) (OpFns.memoryWordCount rs)) as [Hw|Hw].
  - intros H. injection H as <-. unfold same_context. repeat split; auto; lia.
  - cbv zeta. cbn [OpFns.highestMemCost OpFns.set_memoryWordCount OpFns.gasLeft
                   OpFns.set_gasLeft].
    destruct (Z.ltb_spec (OpFns.highestMemCost rs)
                (Z.quot (offset + length) 32 * memoryGas fees
                 + Z.quot (Z.quot (offset + length) 32 * Z.quot (offset + length) 32)
                     (quadCoeffDiv fees))) as [Hc|Hc].
    + match goal with |- context [if ?b then _ else _] => destruct b eqn:Eg end;
        cbn [OpFns.bind]; intros H; [discriminate|].
      injection H as <-. apply Z.ltb_ge in Eg. unfold same_context. cbn.
      repeat split; auto; lia.
    + intros H. injection H as <-. unfold same_context. cbn. repeat split; auto; lia.
Qed.

Lemma subMemUsage_pays_the_rise_witness :
  exists rs',
    OpFns.subMemUsage homestead (frame0 100) 0 64 = OpFns.Ok tt rs'
    /\ OpFns.gasLeft rs' + OpFns.highestMemCost rs' = 100 + 0.
Proof.
  eexists. split; [vm_compute; reflexivity|].
  eapply (subMemUsage_pays_the_rise homestead (frame0 100) 0 64).
  vm_compute. reflexivity.
Defined.

(** ** Storage through the opcodes *)

Lemma bn_of_buffer_unpad (b : Buffer) : bn_of_buffer (unpad b) = bn_of_buffer b.
Proof.
  destruct (unpad_suffix b) as [k E]. rewrite E at 2.
  rewrite bn_of_buffer_app, bn_of_buffer_zeros. lia.
Qed.

Lemma SSTORE_state fees key v rs rs' :
  OpFns.SSTORE fees key v rs = OpFns.Ok tt rs' ->
  OpFns.address rs' = OpFns.address rs
  /\ OpFns.stateManager rs'
     = StateManager.putContractStorage
         (snd (StateManager.getContractStorage (OpFns.stateManager rs) (OpFns.address rs) key))
         (OpFns.address rs) key (unpad (toArrayLike_be 32 v)).
Proof.
  unfold OpFns.SSTORE.
  destruct (StateManager.getContractStorage (OpFns.stateManager rs)
              (OpFns.address rs) key) as [found sm] eqn:E.
  unfold OpFns.subGas.
  repeat match goal with
         | |- context [if ?b then _ else _] => destruct b; cbn [OpFns.bind]
         end;
    intros H; try discriminate; inversion H; split; reflexivity.
Qed.

(** X23.  After an [SSTORE] of the word [v] that completes, [SLOAD] of the
    same key gives [v], and [SLOAD] of another key gives what it gave
    before. *)
Theorem SSTORE_SLOAD fees key v rs rs1 :
  word v ->
  OpFns.SSTORE fees key v rs = OpFns.Ok tt rs1 ->
  (exists rs2, OpFns.SLOAD key rs1 = OpFns.Ok v rs2)
  /\ (forall key', key' <> key ->
        exists x rs2 rs2', OpFns.SLOAD key' rs1 = OpFns.Ok x rs2
                           /\ OpFns.SLOAD key' rs = OpFns.Ok x rs2').
Proof.
  intros Hv Hs. destruct (SSTORE_state fees key v rs rs1 Hs) as [Ha Hsm].
  split.
  - unfold OpFns.SLOAD.
    pose proof (getContractStorage_putContractStorage
                  (snd (StateManager.getContractStorage (OpFns.stateManager rs)
                          (OpFns.address rs) key))
                  (OpFns.address rs) key (unpad (toArrayLike_be 32 v)) key) as Hget.
    rewrite bool_decide_eq_true_2 in Hget by reflexivity.
    rewrite <- Hsm in Hget. rewrite Ha.
    destruct (StateManager.getContractStorage (OpFns.stateManager rs1)
                (OpFns.address rs) key) as [value sm2].
    cbn [fst] in Hget. subst value. eexists. f_equal.
    rewrite sstore_value_empty by exact Hv.
    destruct (Z.eqb_spec v 0) as [->|Hne]; cbn [negb]; [reflexivity|].
    rewrite bn_of_buffer_unpad, bn_of_toArrayLike_be.
    change (256 ^ Z.of_nat 32) with (2 ^ 256). apply Z.mod_small. exact Hv.
  - intros key' Hne. unfold OpFns.SLOAD. rewrite Ha.
    pose proof (getContractStorage_putContractStorage
                  (snd (StateManager.getContractStorage (OpFns.stateManager rs)
                          (OpFns.address rs) key))
                  (OpFns.address rs) key (unpad (toArrayLike_be 32 v)) key') as Hget.
    rewrite bool_decide_eq_false_2 in Hget by congruence.
    rewrite <- Hsm in Hget.
    assert (Hsame : fst (StateManager.getContractStorage
                           (snd (StateManager.getContractStorage (OpFns.stateManager rs)
                                   (OpFns.address rs) key)) (OpFns.address rs) key')
                    = fst (StateManager.getContractStorage (OpFns.stateManager rs)
                             (OpFns.address rs) key')).
    { unfold StateManager.getContractStorage, StateManager._getStorageTrie,
        StateManager._lookupStorageTrie, StateManager.getAccount, Cache.getOrLoad,
        Cache.lookup, Cache._lookupAccount, Cache._update.
      destruct (StateManager._storageTries (OpFns.stateManager rs) !! OpFns.address rs) eqn:Es;
        cbn [snd StateManager._storageTries]; rewrite ?Es; [reflexivity|].
      destruct (Cache._cache (StateManager.cache (OpFns.stateManager rs)) !! OpFns.address rs)
        eqn:Ec; cbn [snd fst StateManager._storageTries StateManager.with_cache
                     StateManager.cache Cache._cache]; rewrite ?Es, ?Ec; cbn;
        rewrite ?lookup_insert_eq; reflexivity. }
    rewrite Hsame in Hget.
    destruct (StateManager.getContractStorage (OpFns.stateManager rs1)
                (OpFns.address rs) key') as [value1 sm1].
    destruct (StateManager.getContractStorage (OpFns.stateManager rs)
                (OpFns.address rs) key') as [value0 sm0'].
    cbn [fst] in Hget. subst value1. eauto.
Qed.

Lemma SSTORE_SLOAD_witness :
  exists rs1 rs2,
    OpFns.SSTORE homestead 5 77 (frame0 30000) = OpFns.Ok tt rs1
    /\ OpFns.SLOAD 5 rs1 = OpFns.Ok 77 rs2.
Proof.
  eexists. 
  destruct (SSTORE_SLOAD homestead 5 77 (frame0 30000) _ ltac:(unfold word; lia)
              ltac:(vm_compute; reflexivity)) as [[rs2 H] _].
  exists rs2. split; [reflexivity | exact H].
Defined.

(** ** Gas handed to a call *)

(** X25.  [checkOutOfGas] caps the gas limit of a call at the gas left less
    one 64th of it (rounded down) and changes nothing else, so that the
    callee of a frame with gas gets at most the gas left and the caller
    keeps that 64th. *)
Theorem checkOutOfGas_caps rs opts g :
  OpFns.a_gasLimit opts = Some g ->
  exists opts',
    OpFns.checkOutOfGas rs opts = OpFns.Ok opts' rs
    /\ OpFns.a_gasLimit opts'
       = Some (Z.min g (OpFns.gasLeft rs - Z.quot (OpFns.gasLeft rs) 64))
    /\ OpFns.a_value opts' = OpFns.a_value opts
    /\ OpFns.a_to opts' = OpFns.a_to opts
    /\ OpFns.a_data opts' = OpFns.a_data opts
    /\ OpFns.a_caller opts' = OpFns.a_caller opts
    /\ OpFns.a_code opts' = OpFns.a_code opts
    /\ OpFns.a_delegatecall opts' = OpFns.a_delegatecall opts
    /\ OpFns.a_compiled opts' = OpFns.a_compiled opts
    /\ (0 <= OpFns.gasLeft rs ->
        forall g', OpFns.a_gasLimit opts' = Some g' ->
        Z.quot (OpFns.gasLeft rs) 64 <= OpFns.gasLeft rs - g').
Proof.
  intros Hg. unfold OpFns.checkOutOfGas. rewrite Hg.
  destruct (Z.ltb_spec (OpFns.gasLeft rs - Z.quot (OpFns.gasLeft rs) 64) g) as [H|H];
    eexists; (split; [reflexivity|]); cbn [OpFns.a_gasLimit OpFns.set_gasLimit
      OpFns.a_value OpFns.a_to OpFns.a_data OpFns.a_caller OpFns.a_code
      OpFns.a_delegatecall OpFns.a_compiled]; rewrite ?Hg;
    (split; [f_equal; lia|]); repeat (split; [reflexivity|]);
    intros Hpos g' Hg'; injection Hg' as <-; lia.
Qed.

Lemma checkOutOfGas_caps_witness :
  exists opts',
    OpFns.checkOutOfGas (frame0 640) args_10wei = OpFns.Ok opts' (frame0 640)
    /\ OpFns.a_gasLimit opts' = Some (Z.min 1000 (640 - Z.quot 640 64)).
Proof.
  destruct (checkOutOfGas_caps (frame0 640) args_10wei 1000 eq_refl)
    as (opts' & H & Hg & _).
  exists opts'. split; [exact H | exact Hg].
Defined.

(** ** The first transaction of a block *)

(** X26.  A block whose first transaction has a gas limit above what is left
    of the block gas limit is refused with the error of the gas limit,
    before [runTx] is called and with nothing recorded; and whatever
    [runTx] does, [processTransactions] never completes a block that has a
    transaction. *)
Theorem processTransactions_first_tx runTx this_vm generate block tx txs s :
  transactions block = tx :: txs ->
  (header_gasLimit block < tx_gasLimit tx + RunBlock.gasUsed s ->
   RunBlock.processTransactions runTx this_vm generate block s
   = RunBlock.Failed RunBlock.TxGasLimitTooHigh s)
  /\ (forall s', RunBlock.processTransactions runTx this_vm generate block s
                 <> RunBlock.Done s').
Proof.
  intros Htx. unfold RunBlock.processTransactions. rewrite Htx.
  cbn [RunBlock.eachSeries]. unfold RunBlock.processTx. split.
  - intros H. rewrite (proj2 (Z.ltb_lt _ _)) by lia. reflexivity.
  - intros s'.
    destruct (header_gasLimit block <? tx_gasLimit tx + RunBlock.gasUsed s);
      [discriminate|].
    destruct this_vm; [|discriminate].
    destruct (runTx tx block (RunBlock.vmState s)) as [[err result] sm].
    unfold RunBlock.parseTxResult.
    destruct err; [discriminate|]. destruct result; discriminate.
Qed.

Lemma processTransactions_first_tx_witness :
  RunBlock.processTransactions runTx_ok true false
    {| header_gasLimit := 20000; header_number := 1; header_coinbase := 0xc0;
       transactions := [transfer 0xaa]; uncleHeaders := [] |} (RunBlock.initial sm0)
  = RunBlock.Failed RunBlock.TxGasLimitTooHigh (RunBlock.initial sm0).
Proof.
  apply (processTransactions_first_tx runTx_ok true false _ (transfer 0xaa) []);
    [reflexivity | cbn; lia].
Defined.

(** ** Unpadded slots *)

Lemma SSTORE_keeps_unpadded_witness :
  unpadded (fst (StateManager.getContractStorage
                   (OpFns.stateManager
                      (OpFns.frame_of (OpFns.SSTORE homestead 5 77 (frame0 30000))))
                   0xaa 5)).
Proof.
  apply (SSTORE_keeps_unpadded homestead 5 77 (frame0 30000)).
  - intros k. unfold StateManager.getContractStorage, StateManager._getStorageTrie.
    cbn. split; [constructor | reflexivity].
  - vm_compute. reflexivity.
Defined.

(** ** Words stay words *)

Lemma word_of_bits x :
  0 <= x -> (forall n, 256 <= n -> Z.testbit x n = false) -> word x.
Proof.
  intros Hx Hb. unfold word.
  assert (E : x mod 2 ^ 256 = x).
  { apply Z.bits_inj'. intros n Hn.
    destruct (Z.lt_ge_cases n 256).
    - apply Z.mod_pow2_bits_low. lia.
    - rewrite Z.mod_pow2_bits_high by lia. symmetry. apply Hb. lia. }
  rewrite <- E. apply Z.mod_pos_bound. lia.
Qed.

Lemma bn_of_buffer_lt (b : Buffer) :
  is_bytes b -> 0 <= bn_of_buffer b < 256 ^ Z.of_nat (length b).
Proof.
  induction 1 as [|x b Hx Hb IH].
  - cbn. lia.
  - rewrite bn_of_buffer_cons. cbn [length].
    rewrite Nat2Z.inj_succ, Z.pow_succ_r by lia. nia.
Qed.

Lemma buf_set_bytes (b : Buffer) i v : is_bytes b -> is_bytes (buf_set b i v).
Proof.
  intros Hb. unfold buf_set. destruct (i <? 0); [exact Hb|].
  apply Forall_insert; [exact Hb|].
  change 255 with (Z.ones 8). rewrite Z.land_ones by lia.
  apply Z.mod_pos_bound. lia.
Qed.

Lemma fold_buf_set (c : Z) (idxs : list Z) : forall (b : Buffer),
  is_bytes b ->
  is_bytes (fold_left (fun val i => buf_set val i c) idxs b)
  /\ length (fold_left (fun val i => buf_set val i c) idxs b) = length b.
Proof.
  induction idxs as [|i idxs IH]; intros b Hb; cbn [fold_left]; [auto|].
  destruct (IH (buf_set b i c) (buf_set_bytes b i c Hb)) as [H1 H2].
  split; [exact H1|]. rewrite H2. apply buf_set_length.
Qed.

Lemma mod_word x : word (x mod 2 ^ 256).
Proof. apply Z.mod_pos_bound. lia. Qed.

Lemma signed_nonzero b : word b -> b <> 0 -> signed b <> 0.
Proof. unfold signed, word. intros Hb Hne. destruct (Z.ltb_spec b (2 ^ 255)); lia. Qed.

Lemma ADD_word a b : word a -> word b -> word (OpFns.ADD a b).
Proof.
  unfold OpFns.ADD, OpFns.TWO_POW256. intros Ha Hb. unfold word in Ha, Hb.
  rewrite Z.rem_mod_nonneg by lia. apply mod_word.
Qed.

Lemma MUL_word a b : word a -> word b -> word (OpFns.MUL a b).
Proof.
  unfold OpFns.MUL, OpFns.TWO_POW256. intros Ha Hb. unfold word in Ha, Hb.
  rewrite Z.rem_mod_nonneg by nia. apply mod_word.
Qed.

Lemma SUB_word a b : word a -> word b -> word (OpFns.SUB a b).
Proof.
  unfold OpFns.SUB. intros Ha Hb. unfold word in Ha, Hb.
  rewrite toTwos_mod by lia. apply mod_word.
Qed.

Lemma DIV_word a b : word a -> word b -> word (OpFns.DIV a b).
Proof.
  intros Ha Hb. unfold OpFns.DIV. destruct (Z.eqb_spec b 0) as [->|Hne]; [exact Hb|].
  unfold word in *. pose proof (quot_abs_le a b Hne).
  pose proof (Z.quot_pos a b ltac:(lia) ltac:(lia)). lia.
Qed.

Lemma SDIV_word a b : word a -> word b -> word (OpFns.SDIV a b).
Proof.
  intros Ha Hb. unfold OpFns.SDIV. destruct (Z.eqb_spec b 0) as [->|Hne]; [exact Hb|].
  cbv zeta. rewrite !fromTwos_signed by assumption.
  pose proof (signed_range a Ha). pose proof (signed_range b Hb).
  pose proof (quot_abs_le (signed a) (signed b) (signed_nonzero b Hb Hne)).
  rewrite toTwos_mod by lia. apply mod_word.
Qed.

Lemma MOD_word a b : word a -> word b -> word (OpFns.MOD a b).
Proof.
  intros Ha Hb. unfold OpFns.MOD. destruct (Z.eqb_spec b 0) as [->|Hne]; [exact Hb|].
  unfold word in *. pose proof (Z.rem_bound_pos a b ltac:(lia) ltac:(lia)). lia.
Qed.

Lemma SMOD_word a b : word a -> word b -> word (OpFns.SMOD a b).
Proof.
  intros Ha Hb. unfold OpFns.SMOD. destruct (Z.eqb_spec b 0) as [->|Hne]; [exact Hb|].
  cbv zeta. rewrite !fromTwos_signed by assumption.
  pose proof (signed_range a Ha). pose proof (signed_range b Hb).
  pose proof (signed_nonzero b Hb Hne).
  pose proof (Z.rem_bound_pos (Z.abs (signed a)) (Z.abs (signed b)) ltac:(lia) ltac:(lia)).
  rewrite toTwos_mod by (destruct (signed a <? 0); lia). apply mod_word.
Qed.

Lemma ADDMOD_word a b c : word a -> word b -> word c -> word (OpFns.ADDMOD a b c).
Proof.
  intros Ha Hb Hc. unfold OpFns.ADDMOD. destruct (Z.eqb_spec c 0) as [->|Hne]; [exact Hc|].
  unfold word in *. pose proof (Z.rem_bound_pos (a + b) c ltac:(lia) ltac:(lia)). lia.
Qed.

Lemma MULMOD_word a b c : word a -> word b -> word c -> word (OpFns.MULMOD a b c).
Proof.
  intros Ha Hb Hc. unfold OpFns.MULMOD. destruct (Z.eqb_spec c 0) as [->|Hne]; [exact Hc|].
  unfold word in *. pose proof (Z.rem_bound_pos (a * b) c ltac:(nia) ltac:(lia)). lia.
Qed.

Lemma SIGNEXTEND_word k v : word (OpFns.SIGNEXTEND k v).
Proof.
  unfold OpFns.SIGNEXTEND.
  assert (H32 : forall buf, is_bytes buf -> length buf = 32%nat -> word (bn_of_buffer buf)).
  { intros buf Hbuf Hl. pose proof (bn_of_buffer_lt buf Hbuf) as H. rewrite Hl in H.
    exact H. }
  destruct (k <=? 31).
  - match goal with
    | |- context [fold_left (fun val i => buf_set val i ?c) ?l ?b] =>
        destruct (fold_buf_set c l b (toArrayLike_be_bytes 32 v)) as [H1 H2]
    end.
    apply H32; [exact H1|]. rewrite H2. apply toArrayLike_be_length.
  - apply H32; [apply toArrayLike_be_bytes | apply toArrayLike_be_length].
Qed.

Lemma bitwise_word a b :
  word a -> word b ->
  word (OpFns.AND a b) /\ word (OpFns.OR a b) /\ word (OpFns.XOR a b) /\ word (OpFns.NOT a).
Proof.
  intros Ha Hb. unfold OpFns.AND, OpFns.OR, OpFns.XOR, OpFns.NOT.
  split; [|split; [|split]].
  - apply word_of_bits.
    + apply Z.land_nonneg. unfold word in Ha. lia.
    + intros n Hn. rewrite Z.land_spec, (word_high_bits a n Ha Hn). reflexivity.
  - apply word_of_bits.
    + apply Z.lor_nonneg. unfold word in Ha, Hb. lia.
    + intros n Hn. rewrite Z.lor_spec, (word_high_bits a n Ha Hn), (word_high_bits b n Hb Hn).
      reflexivity.
  - apply word_of_bits.
    + apply Z.lxor_nonneg. unfold word in Ha, Hb. lia.
    + intros n Hn. rewrite Z.lxor_spec, (word_high_bits a n Ha Hn), (word_high_bits b n Hb Hn).
      reflexivity.
  - rewrite notn256_word by exact Ha. unfold word in *. lia.
Qed.

Lemma BYTE_word pos w : word pos -> word (OpFns.BYTE pos w).
Proof.
  intros Ha. unfold OpFns.BYTE. destruct (Z.leb_spec 32 pos); [unfold word; lia|].
  unfold buf_get. unfold word in Ha. rewrite (proj2 (Z.ltb_ge pos 0)) by lia.
  destruct (lookup_lt_is_Some_2 (toArrayLike_be 32 w) (Z.to_nat pos)) as [y Hy];
    [rewrite toArrayLike_be_length; lia|].
  rewrite Hy. change (default 0 (Some y)) with y.
  pose proof (toArrayLike_be_bytes 32 w) as Hbytes. unfold is_bytes in Hbytes.
  rewrite Forall_lookup in Hbytes. specialize (Hbytes _ _ Hy). cbn beta in Hbytes.
  unfold word. lia.
Qed.

(** X27.  The handlers of the arithmetic and bit operations take words to
    words: with operands in [0, 2^256), the result of each of them is in
    [0, 2^256), also where the divisor or the modulus is 0. *)
Theorem word_handlers_closed a b c :
  word a -> word b -> word c ->
  word (OpFns.ADD a b) /\ word (OpFns.MUL a b) /\ word (OpFns.SUB a b)
  /\ word (OpFns.DIV a b) /\ word (OpFns.SDIV a b)
  /\ word (OpFns.MOD a b) /\ word (OpFns.SMOD a b)
  /\ word (OpFns.ADDMOD a b c) /\ word (OpFns.MULMOD a b c)
  /\ word (OpFns.SIGNEXTEND a b)
  /\ word (OpFns.AND a b) /\ word (OpFns.OR a b) /\ word (OpFns.XOR a b)
  /\ word (OpFns.NOT a) /\ word (OpFns.BYTE a b).
Proof.
  intros Ha Hb Hc.
  split; [exact (ADD_word a b Ha Hb)|].
  split; [exact (MUL_word a b Ha Hb)|].
  split; [exact (SUB_word a b Ha Hb)|].
  split; [exact (DIV_word a b Ha Hb)|].
  split; [exact (SDIV_word a b Ha Hb)|].
  split; [exact (MOD_word a b Ha Hb)|].
  split; [exact (SMOD_word a b Ha Hb)|].
  split; [exact (ADDMOD_word a b c Ha Hb Hc)|].
  split; [exact (MULMOD_word a b c Ha Hb Hc)|].
  split; [exact (SIGNEXTEND_word a b)|].
  destruct (bitwise_word a b Ha Hb) as (H1 & H2 & H3 & H4).
  split; [exact H1|]. split; [exact H2|]. split; [exact H3|]. split; [exact H4|].
  exact (BYTE_word a b Ha).
Qed.

Lemma word_handlers_closed_witness : word (OpFns.SUB 0 1).
Proof.
  apply (word_handlers_closed 0 1 0); unfold word; lia.
Defined.

(** ** The accounts of a new VM *)

(** X28.  In a VM created with [activatePrecompiles], each of the addresses
    1 to 4 has an existing account that is empty (balance 0, nonce 0, no
    code, no storage), whatever the given trie held there; every other
    address has the account it has without the option. *)
Theorem activatePrecompiles_accounts state a :
  fst (StateManager.getAccount (VM.create state true) a)
  = if isPrecompiled a then set_exists new_Account true
    else fst (StateManager.getAccount (VM.create state false) a).
Proof.
  unfold VM.create, StateManager.getAccount, Cache.getOrLoad, Cache.lookup,
    Cache._lookupAccount, StateManager.create, isPrecompiled.
  cbn [StateManager.with_trie StateManager.cache StateManager.trie Cache.empty
       Cache._cache fold_left].
  rewrite lookup_empty. cbn [fst].
  unfold Trie.get, Trie.put. cbn [Trie.content].
  destruct (decide (a = 4)) as [->|H4]; [rewrite lookup_insert_eq; reflexivity|].
  rewrite lookup_insert_ne by congruence.
  destruct (decide (a = 3)) as [->|H3]; [rewrite lookup_insert_eq; reflexivity|].
  rewrite lookup_insert_ne by congruence.
  destruct (decide (a = 2)) as [->|H2]; [rewrite lookup_insert_eq; reflexivity|].
  rewrite lookup_insert_ne by congruence.
  destruct (decide (a = 1)) as [->|H1]; [rewrite lookup_insert_eq; reflexivity|].
  rewrite lookup_insert_ne by congruence.
  destruct (Z.ltb_spec 0 a), (Z.ltb_spec a 5); try reflexivity. lia.
Qed.

(** ** Deleted accounts *)

(** X29.  After [cache.del(k)] the cache has no entry for [k] and hands
    out the empty account that does not exist, but the deletion only
    reaches the trie at the next flush: until then [getAccount] loads the
    account of the trie again, as if it had not been deleted.  When the
    cache is flushed after such a reload, the trie loses the account while
    the cache goes on handing out the reloaded one. *)
Theorem del_until_flush sm k :
  let sm1 := StateManager.with_cache sm (Cache.del (StateManager.cache sm) k) in
  let acc := fst (StateManager.getAccount sm1 k) in
  let sm2 := snd (StateManager.getAccount sm1 k) in
  Cache.get (StateManager.cache sm1) k = set_exists new_Account false
  /\ acc = fst (Cache._lookupAccount (StateManager.trie sm) k)
  /\ (forall k', k' <> k ->
        Cache.lookup (StateManager.cache sm1) k' = Cache.lookup (StateManager.cache sm) k')
  /\ exists sm3,
       StateManager.cacheFlush sm2 = Some sm3
       /\ Trie.get (StateManager.trie sm3) k = None
       /\ Cache.get (StateManager.cache sm3) k = acc.
Proof.
  cbv zeta.
  set (sm1 := StateManager.with_cache sm (Cache.del (StateManager.cache sm) k)).
  set (raw := Trie.get (StateManager.trie sm) k).
  set (acc0 := set_exists (Account_of_raw raw) (bool_decide (is_Some raw))).
  set (e0 := {| Cache.val := acc0; Cache.modified := false;
                Cache.exists_e := bool_decide (is_Some raw) |}).
  assert (E : StateManager.getAccount sm1 k
              = (acc0, StateManager.with_cache sm1
                         {| Cache._cache := <[k := e0]> (Cache._cache (StateManager.cache sm1));
                            Cache._checkpoints := Cache._checkpoints (StateManager.cache sm1);
                            Cache._deletes := Cache._deletes (StateManager.cache sm1) |})).
  { unfold StateManager.getAccount, Cache.getOrLoad, Cache.lookup, Cache._lookupAccount,
      Cache._update. subst sm1.
    cbn [StateManager.with_cache StateManager.cache StateManager.trie Cache.del Cache._cache].
    rewrite lookup_delete_eq. reflexivity. }
  rewrite E. cbn [fst snd].
  split.
  { unfold Cache.get, Cache.lookup. subst sm1.
    cbn [StateManager.with_cache StateManager.cache Cache.del Cache._cache].
    rewrite lookup_delete_eq. reflexivity. }
  split; [reflexivity|]. split.
  { intros k' Hne. unfold Cache.lookup. subst sm1.
    cbn [StateManager.with_cache StateManager.cache Cache.del Cache._cache].
    rewrite lookup_delete_ne by congruence. reflexivity. }
  unfold StateManager.cacheFlush, Cache.flush.
  cbn [StateManager.with_cache StateManager.cache StateManager.trie Cache._cache
       Cache._deletes Cache._checkpoints].
  rewrite bool_decide_eq_false_2 by apply insert_non_empty.
  eexists. split; [reflexivity|].
  cbn [StateManager.trie StateManager.cache Cache._cache].
  split.
  - rewrite fold_del_get. rewrite bool_decide_eq_true_2; [reflexivity|].
    subst sm1. cbn [StateManager.with_cache StateManager.cache Cache.del Cache._deletes].
    apply elem_of_app. right. left.
  - unfold Cache.get, Cache.lookup. cbn [Cache._cache].
    rewrite lookup_fmap, lookup_insert_eq. subst e0 acc0. cbn. reflexivity.
Qed.

(** ** The results of a call in the caller's frame *)

(** X30.  What [parseCallResults] does with the results of a call that ran
    code and reports no error: the gas used is taken from the gas left, the
    logs are appended, the refund is added, the returned bytes are copied
    to the memory at [outOffset], at most [outLength] of them, without any
    charge for memory and without touching the rest of the memory, the
    account of the frame is read again from the state, and the value to
    push is the created address, or else the exception flag of the run. *)
Theorem parseCallResults_success fees rs lo results r o l :
  OpFns.outOffset lo = OpFns.Big o -> OpFns.outLength lo = OpFns.Big l ->
  0 <= o ->
  vm results = Ran r -> v_exceptionError r = None ->
  let n := Z.to_nat (Z.min (Z.of_nat (length (v_return r))) l) in
  exists rs',
    OpFns.parseCallResults fees rs lo results
    = OpFns.Ok (Some (match createdAddress results with
                      | Some a => a
                      | None => v_exception r
                      end)) rs'
    /\ OpFns.gasLeft rs' = OpFns.gasLeft rs - gasUsed results
    /\ OpFns.logs rs' = OpFns.logs rs ++ v_logs r
    /\ OpFns.gasRefund rs' = OpFns.gasRefund rs + default 0 (v_gasRefund r)
    /\ (forall j, (j < n)%nat ->
          OpFns.memory rs' !! (Z.to_nat o + j)%nat = v_return r !! j)
    /\ (forall j, (j < length (OpFns.memory rs))%nat ->
          (j < Z.to_nat o \/ Z.to_nat o + n <= j)%nat ->
          OpFns.memory rs' !! j = OpFns.memory rs !! j)
    /\ OpFns.memoryWordCount rs' = OpFns.memoryWordCount rs
    /\ OpFns.highestMemCost rs' = OpFns.highestMemCost rs
    /\ OpFns.contract rs'
       = fst (StateManager.getAccount (OpFns.stateManager rs) (OpFns.address rs)).
Proof.
  intros Ho Hl Hpos Hvm Herr n.
  unfold OpFns.parseCallResults. rewrite Hvm, Herr, Ho, Hl.
  unfold OpFns.memStore. cbn [OpFns.bind].
  destruct (store_loop (v_return r) 0 (Z.to_nat o) n
              (OpFns.memory rs)) as (_ & _ & Hin & Hout). cbv zeta in Hin, Hout.
  destruct (v_gasRefund r) as [g|];
    cbn [OpFns.memory OpFns.set_memory OpFns.set_gasLeft OpFns.set_gasRefund OpFns.set_logs
         OpFns.stateManager OpFns.address];
    (destruct (StateManager.getAccount (OpFns.stateManager rs) (OpFns.address rs))
       as [account sm] eqn:E);
    eexists; (split; [reflexivity|]); cbn; (split; [reflexivity|]);
    (split; [reflexivity|]); (split; [lia|]);
    (split; [|split; [exact Hout|auto]]);
    intros j Hj; fold n; rewrite (Hin j Hj);
    unfold buf_get; rewrite (proj2 (Z.ltb_ge _ 0)) by lia;
    rewrite Z.add_0_l, Nat2Z.id;
    (destruct (lookup_lt_is_Some_2 (v_return r) j) as [y Hy]; [lia|]);
    rewrite Hy; reflexivity.
Qed.

Lemma parseCallResults_success_witness :
  exists rs',
    OpFns.parseCallResults homestead (frame0 1000)
      {| OpFns.inOffset := 0; OpFns.inLength := 0;
         OpFns.outOffset := OpFns.Big 2; OpFns.outLength := OpFns.Big 2 |}
      {| gasUsed := 100; createdAddress := None;
         vm := Ran {| v_return := [7; 8; 9]; v_gasUsed := 100; v_exception := 1;
                      v_exceptionError := None; v_logs := []; v_gasRefund := None |} |}
    = OpFns.Ok (Some 1) rs'
    /\ OpFns.gasLeft rs' = 1000 - 100.
Proof.
  destruct (parseCallResults_success homestead (frame0 1000)
      {| OpFns.inOffset := 0; OpFns.inLength := 0;
         OpFns.outOffset := OpFns.Big 2; OpFns.outLength := OpFns.Big 2 |}
      {| gasUsed := 100; createdAddress := None;
         vm := Ran {| v_return := [7; 8; 9]; v_gasUsed := 100; v_exception := 1;
                      v_exceptionError := None; v_logs := []; v_gasRefund := None |} |}
      _ 2 2 eq_refl eq_refl ltac:(lia) eq_refl eq_refl)
    as (rs' & H & Hg & _).
  exists rs'. split; [exact H | exact Hg].
Defined.
